(** * Collider platform front end: store, scene renderer, analytics renderer

    A shallow embedding of the client-side code of the collider platform:

    - [frontend/src/store/index.js]: the Vuex store (state, mutations,
      actions);
    - [frontend/src/components/EventDisplay3D.vue]: the three.js scene
      (life cycle hooks, detector shells, per-event tracks, render loop);
    - [frontend/src/views/AnalysisDashboard.vue]: the bin centres of a
      histogram.

    JavaScript numbers are kept behind the interface [JsNumber], so the
    code is written once and read at IEEE doubles or at the real numbers.
    Exceptions are explicit: a computation returns the state it reached
    together with a completion, normal or abrupt. *)

From Stdlib Require Import Floats.
From Stdlib Require Import List String DecimalString ZArith Bool Lia.
From Stdlib Require Import QArith.
From Stdlib Require Import Reals.
Import ListNotations.

Set Implicit Arguments.
Local Open Scope Z_scope.

(** ** Completions and a state-and-exception monad *)

Module Js.

(** What a [catch] clause reads of a thrown value. *)
Record Error := mkError { message : string }.

Inductive completion (A : Type) : Type :=
| Normal (a : A)
| Throw (e : Error).
Arguments Normal {A} a.
Arguments Throw {A} e.

(** Reading a property of [null]. *)
Definition TypeError (prop : string) : Error :=
  mkError ("Cannot read properties of null (reading '" ++ prop ++ "')").

(** Reading a property of [undefined]: a template ref that was never
    set, a column an event lacks. *)
Definition TypeError_undefined (prop : string) : Error :=
  mkError ("Cannot read properties of undefined (reading '" ++ prop ++ "')").

(** Assigning to a property of [null]. *)
Definition TypeError_set (prop : string) : Error :=
  mkError ("Cannot set properties of null (setting '" ++ prop ++ "')").

(** A statement run on a mutable state [S]: the state it leaves and how
    it completed. A throw keeps the mutations made before it. *)
Definition M (S A : Type) : Type := S -> S * completion A.

Definition ret {S A} (a : A) : M S A := fun s => (s, Normal a).

Definition throw {S A} (e : Error) : M S A := fun s => (s, Throw e).

Definition bind {S A B} (m : M S A) (k : A -> M S B) : M S B :=
  fun s =>
    match m s with
    | (s', Normal a) => k a s'
    | (s', Throw e) => (s', Throw e)
    end.

(** [try { body } catch (e) { handler e }] *)
Definition try_catch {S A} (body : M S A) (handler : Error -> M S A)
  : M S A :=
  fun s =>
    match body s with
    | (s', Normal a) => (s', Normal a)
    | (s', Throw e) => handler e s'
    end.

(** [try { body } finally { cleanup }]: the cleanup runs on both
    completions; when it completes normally the completion of the body
    stands, when it throws its own throw replaces it. *)
Definition try_finally {S A} (body : M S A) (cleanup : M S unit)
  : M S A :=
  fun s =>
    match body s with
    | (s', c) =>
        match cleanup s' with
        | (s'', Normal _) => (s'', c)
        | (s'', Throw e) => (s'', Throw e)
        end
    end.

(** Lifting of a settled promise or of a property read. *)
Definition lift {S A} (c : completion A) : M S A := fun s => (s, c).

(** [o.prop] where [o] may be [null]. *)
Definition prop_of {S A B} (name : string) (o : option A) (get : A -> B)
  : M S B :=
  match o with
  | Some a => ret (get a)
  | None => throw (TypeError name)
  end.

(** [o.prop] where [o] may be [undefined]. *)
Definition prop_of_undefined {S A B} (name : string) (o : option A)
    (get : A -> B) : M S B :=
  match o with
  | Some a => ret (get a)
  | None => throw (TypeError_undefined name)
  end.

(** [o.prop = ...] where [o] may be [null]. *)
Definition set_prop_of {S A B} (name : string) (o : option A) (get : A -> B)
  : M S B :=
  match o with
  | Some a => ret (get a)
  | None => throw (TypeError_set name)
  end.

Definition modify {S} (f : S -> S) : M S unit := fun s => (f s, Normal tt).

Definition read {S A} (f : S -> A) : M S A := fun s => (s, Normal (f s)).

Module Notations.
Declare Scope js_scope.
Delimit Scope js_scope with js.
Notation "x <- m ;; k" := (bind m (fun x => k))
  (at level 61, m at next level, right associativity) : js_scope.
Notation "m ;; k" := (bind m (fun _ => k))
  (at level 61, right associativity) : js_scope.
End Notations.

End Js.

Import Js.Notations.

(** ** Data model (section 3 of the specification) *)

Section DataModel.

Variable num : Type.

(** Columnar particle arrays. A column missing from the payload is
    [None]; reading an index of it throws. *)
Record Particles := mkParticles {
  px : option (list num);
  py : option (list num);
  pz : option (list num);
  energy : option (list num);
  pdg_id : option (list Z)
}.

Record Event := mkEvent {
  event_id : string;
  num_particles : Z;
  particles : option Particles
}.

Record Kinematics := mkKinematics {
  invariant_mass : option num;
  missing_et : option num;
  scalar_ht : option num;
  num_jets : option Z;
  num_leptons : option Z
}.

(** Body of [GET /events/{id}] and element of [GET /events]. *)
Record EventBody := mkEventBody {
  event : option Event;
  kinematics : option Kinematics
}.

Record EventsResponse := mkEventsResponse {
  events_of : list EventBody
}.

Record Shell := mkShell {
  inner_radius : num;
  outer_radius : num;
  length_of : num
}.

Record DetectorGeometry := mkGeometry {
  tracker : Shell;
  ecal : Shell;
  hcal : Shell
}.

Record DetectorConfig := mkConfig {
  config_id : Z;
  config_name : string;
  description : string;
  magnetic_field : num;
  geometry : DetectorGeometry;
  is_active : bool;
  created_at : string
}.

Record HistogramResult := mkHistogram {
  bins : list num;
  values : list Z;
  num_events : Z
}.

Record Statistics := mkStatistics {
  total_events : Z;
  events_with_leptons : Z;
  events_with_jets : Z;
  average_invariant_mass : option num
}.

End DataModel.

Arguments mkParticles {num}.
Arguments mkEvent {num}.
Arguments mkKinematics {num}.
Arguments mkEventBody {num}.
Arguments mkEventsResponse {num}.
Arguments mkShell {num}.
Arguments mkGeometry {num}.
Arguments mkConfig {num}.
Arguments mkHistogram {num}.
Arguments mkStatistics {num}.

(** ** The reactive state store ([store/index.js]) *)

Module Store.
Section Store.

Variable num : Type.

Record UIState := mkState {
  currentEvent : option (EventBody num);
  events : list (EventBody num);
  statistics : option (Statistics num);
  detectorConfig : option (DetectorConfig num);
  loading : bool;
  error : option string
}.

(** [state: { ... }] *)
Definition initial : UIState :=
  mkState None [] None None false None.

(** A mutation name with its payload. *)
Inductive Mutation : Type :=
| SET_CURRENT_EVENT (ev : option (EventBody num))
| SET_EVENTS (evs : list (EventBody num))
| SET_STATISTICS (stats : option (Statistics num))
| SET_DETECTOR_CONFIG (config : option (DetectorConfig num))
| SET_LOADING (l : bool)
| SET_ERROR (err : option string).

(** [mutations: { ... }]: each replaces one field. *)
Definition mutate (m : Mutation) (state : UIState) : UIState :=
  match m with
  | SET_CURRENT_EVENT ev =>
      mkState ev (events state) (statistics state) (detectorConfig state)
              (loading state) (error state)
  | SET_EVENTS evs =>
      mkState (currentEvent state) evs (statistics state)
              (detectorConfig state) (loading state) (error state)
  | SET_STATISTICS stats =>
      mkState (currentEvent state) (events state) stats
              (detectorConfig state) (loading state) (error state)
  | SET_DETECTOR_CONFIG config =>
      mkState (currentEvent state) (events state) (statistics state)
              config (loading state) (error state)
  | SET_LOADING l =>
      mkState (currentEvent state) (events state) (statistics state)
              (detectorConfig state) l (error state)
  | SET_ERROR err =>
      mkState (currentEvent state) (events state) (statistics state)
              (detectorConfig state) (loading state) err
  end.

(** What an action runs on: the store state and, as a ghost field, the
    commits this action has made so far, oldest first. *)
Record Ctx := mkCtx {
  state : UIState;
  committed : list Mutation
}.

Definition action (A : Type) : Type := Js.M Ctx A.

(** [commit(name, payload)] *)
Definition commit (m : Mutation) : action unit :=
  Js.modify (fun c => mkCtx (mutate m (state c)) (committed c ++ [m])).

(** [await p]: the action is suspended until the request settles; what
    other actions commit meanwhile is [others]. The call resumes with
    the resolved body or throws the rejection. *)
Definition await {A} (others : UIState -> UIState)
    (settled : Js.completion A) : action A :=
  (Js.modify (fun c => mkCtx (others (state c)) (committed c)) ;;
   Js.lift settled)%js.

Definition fetchEvent (others : UIState -> UIState)
    (getEvent : Js.completion (option (EventBody num))) : action unit :=
  (commit (SET_LOADING true) ;;
   commit (SET_ERROR None) ;;
   Js.try_finally
     (Js.try_catch
        (event <- await others getEvent ;;
         commit (SET_CURRENT_EVENT event))
        (fun error => commit (SET_ERROR (Some (Js.message error)))))
     (commit (SET_LOADING false)))%js.

Definition fetchEvents (others : UIState -> UIState)
    (getEvents : Js.completion (option (EventsResponse num)))
  : action unit :=
  (commit (SET_LOADING true) ;;
   commit (SET_ERROR None) ;;
   Js.try_finally
     (Js.try_catch
        (response <- await others getEvents ;;
         evs <- Js.prop_of "events" response (@events_of num) ;;
         commit (SET_EVENTS evs))
        (fun error => commit (SET_ERROR (Some (Js.message error)))))
     (commit (SET_LOADING false)))%js.

Definition fetchStatistics (others : UIState -> UIState)
    (getStatistics : Js.completion (option (Statistics num)))
  : action unit :=
  Js.try_catch
    (stats <- await others getStatistics ;;
     commit (SET_STATISTICS stats))%js
    (fun error => commit (SET_ERROR (Some (Js.message error)))).

(** [configs.find(c => c.is_active) || configs[0]] *)
Definition activeConfig (configs : list (DetectorConfig num))
  : option (DetectorConfig num) :=
  match find (@is_active num) configs with
  | Some c => Some c
  | None => nth_error configs 0
  end.

Definition fetchDetectorConfigs (others : UIState -> UIState)
    (getDetectorConfigs : Js.completion (option (list (DetectorConfig num))))
  : action unit :=
  Js.try_catch
    (configs <- await others getDetectorConfigs ;;
     match configs with
     | Some cs =>
         if 0 <? Z.of_nat (List.length cs)
         then commit (SET_DETECTOR_CONFIG (activeConfig cs))
         else Js.ret tt
     | None => Js.ret tt
     end)%js
    (fun error => commit (SET_ERROR (Some (Js.message error)))).

(** Running an action as the store dispatches it. *)
Definition dispatch {A} (a : action A) (s : UIState)
  : UIState * list Mutation * Js.completion A :=
  match a (mkCtx s []) with
  | (c, r) => (state c, committed c, r)
  end.

(** [getters: { ... }] *)
Definition hasCurrentEvent (s : UIState) : bool :=
  match currentEvent s with Some _ => true | None => false end.
Definition eventCount (s : UIState) : Z := Z.of_nat (List.length (events s)).
Definition isLoading (s : UIState) : bool := loading s.
Definition hasError (s : UIState) : bool :=
  match error s with
  | Some msg => negb (String.eqb msg EmptyString)
  | None => false
  end.

End Store.

Arguments SET_LOADING {num} l.
Arguments SET_ERROR {num} err.
Arguments initial {num}.

End Store.


(** ** JavaScript numbers *)

(** The operations on numbers that the front end uses. [lit] is an
    integer-valued literal or loop counter; [NaN] is what arithmetic
    makes of [undefined]. *)
Class JsNumber (num : Type) : Type := {
  lit : Z -> num;
  num_add : num -> num -> num;
  num_mul : num -> num -> num;
  num_div : num -> num -> num;
  Math_sqrt : num -> num;
  Math_atan2 : num -> num -> num;
  Math_cos : num -> num;
  Math_sin : num -> num;
  Math_min : num -> num -> num;
  Math_PI : num;
  NaN : num
}.

(** A decimal literal [m / 10^k], such as [0.05]: for the literals of this
    code, of few digits, the quotient of the two integers rounds to the
    same double as the literal. *)
Definition decimal {num} `{JsNumber num} (m : Z) (k : Z) : num :=
  num_div (lit m) (lit (10 ^ k)).

(** *** Read at the real numbers *)

Definition Ratan2 (y x : R) : R :=
  if Rlt_dec 0 x then atan (y / x)
  else if Rlt_dec x 0 then
    if Rle_dec 0 y then (atan (y / x) + PI)%R else (atan (y / x) - PI)%R
  else if Rlt_dec 0 y then (PI / 2)%R
  else if Rlt_dec y 0 then (- (PI / 2))%R
  else 0%R.

(** Exact arithmetic, without rounding, overflow or [NaN]: not what the
    engine computes. It serves to run, at sample data, the properties
    that hold of every number system; what depends on the arithmetic is
    stated on doubles. The reals have no [NaN]: the value given here
    only shows where an index is read outside its array. *)
#[export] Instance RealNumber : JsNumber R := {
  lit := IZR;
  num_add := Rplus;
  num_mul := Rmult;
  num_div := Rdiv;
  Math_sqrt := R_sqrt.sqrt;
  Math_atan2 := Ratan2;
  Math_cos := cos;
  Math_sin := sin;
  Math_min := Rmin;
  Math_PI := PI;
  NaN := 0%R
}.

(** *** Read at IEEE 754 doubles *)

Definition float_of_Z (z : Z) : float :=
  if z <? 0 then PrimFloat.opp (PrimFloat.of_uint63 (Uint63.of_Z (- z)))
  else PrimFloat.of_uint63 (Uint63.of_Z z).

(** [Math.min]: [NaN] when an argument is, and [-0] below [+0]. *)
Definition float_min (a b : float) : float :=
  if PrimFloat.is_nan a || PrimFloat.is_nan b then PrimFloat.nan
  else if PrimFloat.ltb a b then a
  else if PrimFloat.ltb b a then b
  else if PrimFloat.get_sign a then a else b.

(** The trigonometric functions are the engine's; they are taken as
    given. *)
Definition Float64 (atan2 : float -> float -> float) (cos sin : float -> float)
  : JsNumber float := {|
  lit := float_of_Z;
  num_add := PrimFloat.add;
  num_mul := PrimFloat.mul;
  num_div := PrimFloat.div;
  Math_sqrt := PrimFloat.sqrt;
  Math_atan2 := atan2;
  Math_cos := cos;
  Math_sin := sin;
  Math_min := float_min;
  Math_PI := 0x1.921fb54442d18p+1%float;
  NaN := PrimFloat.nan
|}.


(** ** The scene renderer ([components/EventDisplay3D.vue]) *)

Module Scene.
Section Scene.

Variable num : Type.
Context `{JsNumber num}.

(** *** The three.js objects the component creates *)

Inductive Vector3 : Type := mkVector3 (x y z : num).

Definition v_x (v : Vector3) : num := let (x, _, _) := v in x.
Definition v_y (v : Vector3) : num := let (_, y, _) := v in y.
Definition v_z (v : Vector3) : num := let (_, _, z) := v in z.

Inductive Geometry : Type :=
| BufferGeometry (points : list Vector3)
| SphereGeometry (radius : num) (widthSegments heightSegments : Z)
| CylinderGeometry (radiusTop radiusBottom height : num)
    (radialSegments heightSegments : Z) (openEnded : bool).

Inductive Material : Type :=
| LineBasicMaterial (color : Z) (linewidth : Z)
| MeshBasicMaterial (color : Z)
| MeshPhongMaterial (color : Z) (transparent : bool) (opacity : num)
    (doubleSide : bool).

Inductive Kind : Type :=
| Line (geometry : Geometry) (material : Material)
| Mesh (geometry : Geometry) (material : Material)
| AmbientLight (color : Z) (intensity : num)
| DirectionalLight (color : Z) (intensity : num)
| GridHelper (size divisions : Z) (color1 color2 : Z)
| AxesHelper (size : Z).

(** An [Object3D]: a new one sits at the origin, unrotated and visible. *)
Record Object3D := mkObject {
  kind : Kind;
  position : Vector3;
  rotation_x : num;
  visible : bool
}.

Definition origin : Vector3 := mkVector3 (lit 0) (lit 0) (lit 0).

Definition new (k : Kind) : Object3D := mkObject k origin (lit 0) true.

(** Objects are shared between the scene and the component's arrays: both
    hold references into [objects], in order of creation. *)
Definition Ref := nat.

Record SceneGraph := mkSceneGraph {
  background : Z;
  children : list Ref
}.

Record Camera := mkCamera {
  fov : num;
  aspect : num;
  near : num;
  far : num;
  cam_position : Vector3;
  cam_target : Vector3
}.

(** The WebGL renderer; [renderCalls] counts the frames it was asked to
    draw. *)
Record Renderer := mkRenderer {
  width : num;
  height : num;
  renderer_disposed : bool;
  renderCalls : nat
}.

Record Controls := mkControls {
  enableDamping : bool;
  dampingFactor : num;
  controls_disposed : bool;
  controlUpdates : nat
}.

(** The [canvasContainer] element. *)
Record Container := mkContainer {
  clientWidth : num;
  clientHeight : num;
  canvases : nat
}.

(** The two methods the component hands to the browser. *)
Inductive Callback : Type := cb_animate | cb_onWindowResize.

(** The component instance together with what it shares with the page:
    props, [$refs], [data()], the three.js objects, the listeners on
    [window] and the pending animation-frame requests. *)
Record View := mkView {
  event : option (Event num);
  kinematics : option (Kinematics num);
  detectorConfig : option (DetectorConfig num);
  canvasContainer : option Container;
  scene : option SceneGraph;
  camera : option Camera;
  renderer : option Renderer;
  controls : option Controls;
  showDetector : bool;
  detectorMeshes : list Ref;
  particleMeshes : list Ref;
  objects : list Object3D;
  listeners : list (string * Callback);
  frameRequests : list Callback
}.

(** [data()] of a component created with the given props, on a page
    where nothing else is registered. *)
Definition created (ev : option (Event num)) (kin : option (Kinematics num))
    (config : option (DetectorConfig num)) (container : option Container)
  : View :=
  mkView ev kin config container None None None None true [] [] [] [] [].

Definition set_event v (w : View) : View :=
  mkView v (kinematics w) (detectorConfig w) (canvasContainer w) (scene w)
    (camera w) (renderer w) (controls w) (showDetector w) (detectorMeshes w)
    (particleMeshes w) (objects w) (listeners w) (frameRequests w).
Definition set_canvasContainer v (w : View) : View :=
  mkView (event w) (kinematics w) (detectorConfig w) v (scene w)
    (camera w) (renderer w) (controls w) (showDetector w) (detectorMeshes w)
    (particleMeshes w) (objects w) (listeners w) (frameRequests w).
Definition set_scene v (w : View) : View :=
  mkView (event w) (kinematics w) (detectorConfig w) (canvasContainer w) v
    (camera w) (renderer w) (controls w) (showDetector w) (detectorMeshes w)
    (particleMeshes w) (objects w) (listeners w) (frameRequests w).
Definition set_camera v (w : View) : View :=
  mkView (event w) (kinematics w) (detectorConfig w) (canvasContainer w)
    (scene w) v (renderer w) (controls w) (showDetector w) (detectorMeshes w)
    (particleMeshes w) (objects w) (listeners w) (frameRequests w).
Definition set_renderer v (w : View) : View :=
  mkView (event w) (kinematics w) (detectorConfig w) (canvasContainer w)
    (scene w) (camera w) v (controls w) (showDetector w) (detectorMeshes w)
    (particleMeshes w) (objects w) (listeners w) (frameRequests w).
Definition set_controls v (w : View) : View :=
  mkView (event w) (kinematics w) (detectorConfig w) (canvasContainer w)
    (scene w) (camera w) (renderer w) v (showDetector w) (detectorMeshes w)
    (particleMeshes w) (objects w) (listeners w) (frameRequests w).
Definition set_showDetector v (w : View) : View :=
  mkView (event w) (kinematics w) (detectorConfig w) (canvasContainer w)
    (scene w) (camera w) (renderer w) (controls w) v (detectorMeshes w)
    (particleMeshes w) (objects w) (listeners w) (frameRequests w).
Definition set_detectorMeshes v (w : View) : View :=
  mkView (event w) (kinematics w) (detectorConfig w) (canvasContainer w)
    (scene w) (camera w) (renderer w) (controls w) (showDetector w) v
    (particleMeshes w) (objects w) (listeners w) (frameRequests w).
Definition set_particleMeshes v (w : View) : View :=
  mkView (event w) (kinematics w) (detectorConfig w) (canvasContainer w)
    (scene w) (camera w) (renderer w) (controls w) (showDetector w)
    (detectorMeshes w) v (objects w) (listeners w) (frameRequests w).
Definition set_objects v (w : View) : View :=
  mkView (event w) (kinematics w) (detectorConfig w) (canvasContainer w)
    (scene w) (camera w) (renderer w) (controls w) (showDetector w)
    (detectorMeshes w) (particleMeshes w) v (listeners w) (frameRequests w).
Definition set_listeners v (w : View) : View :=
  mkView (event w) (kinematics w) (detectorConfig w) (canvasContainer w)
    (scene w) (camera w) (renderer w) (controls w) (showDetector w)
    (detectorMeshes w) (particleMeshes w) (objects w) v (frameRequests w).
Definition set_frameRequests v (w : View) : View :=
  mkView (event w) (kinematics w) (detectorConfig w) (canvasContainer w)
    (scene w) (camera w) (renderer w) (controls w) (showDetector w)
    (detectorMeshes w) (particleMeshes w) (objects w) (listeners w) v.

Definition method (A : Type) : Type := Js.M View A.

(** *** Statements shared by the methods *)

(** [array.forEach(f)] *)
Fixpoint forEach {A} (l : list A) (f : A -> method unit) : method unit :=
  match l with
  | [] => Js.ret tt
  | a :: l' => (f a ;; forEach l' f)%js
  end.

(** [for (let i = start; cond(i); i++) body(i)], with the number of
    iterations still allowed. *)
Fixpoint for_loop (fuel : nat) (i : Z) (cond : Z -> bool)
    (body : Z -> method unit) : method unit :=
  match fuel with
  | O => Js.ret tt
  | S fuel' =>
      if cond i then (body i ;; for_loop fuel' (i + 1) cond body)%js
      else Js.ret tt
  end.

(** [new THREE.X(...)]: the object is created and its reference
    returned. *)
Definition create (k : Kind) : method Ref :=
  (n <- Js.read (fun w => List.length (objects w)) ;;
   Js.modify (fun w => set_objects (objects w ++ [new k]) w) ;;
   Js.ret n)%js.

(** Assignment to a field of a created object. *)
Fixpoint update_nth {A} (n : nat) (f : A -> A) (l : list A) : list A :=
  match l, n with
  | [], _ => []
  | a :: l', O => f a :: l'
  | a :: l', S n' => a :: update_nth n' f l'
  end.

Definition assign (r : Ref) (f : Object3D -> Object3D) : method unit :=
  Js.modify (fun w => set_objects (update_nth r f (objects w)) w).

(** [children.splice(children.indexOf(o), 1)] *)
Fixpoint remove_first (r : Ref) (l : list Ref) : list Ref :=
  match l with
  | [] => []
  | r' :: l' => if Nat.eqb r r' then l' else r' :: remove_first r l'
  end.

(** [this.scene.add(o)] *)
Definition scene_add (r : Ref) : method unit :=
  (s <- Js.read scene ;;
   g <- Js.prop_of "add" s (fun g => g) ;;
   Js.modify (set_scene
     (Some (mkSceneGraph (background g) (children g ++ [r])))))%js.

(** [this.scene.remove(o)] *)
Definition scene_remove (r : Ref) : method unit :=
  (s <- Js.read scene ;;
   g <- Js.prop_of "remove" s (fun g => g) ;;
   Js.modify (set_scene
     (Some (mkSceneGraph (background g) (remove_first r (children g))))))%js.

(** The name of the property an index reads: its decimal digits. *)
Definition index_name (i : Z) : string := NilZero.string_of_int (Z.to_int i).

(** [column[i]] of a particle column: the column must exist, [None] is a
    column the event lacks; an index outside it reads [undefined]. *)
Definition column_at {A} (column : option (list A)) (i : Z)
  : method (option A) :=
  Js.prop_of_undefined (index_name i) column
    (fun l => nth_error l (Z.to_nat i)).

(** [undefined] used as a number. *)
Definition to_number (v : option num) : num :=
  match v with Some n => n | None => NaN end.

(** [Math.abs] of a species code; [None] is [NaN]. *)
Definition Math_abs (v : option Z) : option Z := option_map Z.abs v.

(** [a === n] for an integer literal [n]. *)
Definition strict_eq (a : option Z) (n : Z) : bool :=
  match a with Some v => v =? n | None => false end.

(** *** [methods] *)

Definition initThreeJS : method unit :=
  ((* Scene *)
   Js.modify (set_scene (Some (mkSceneGraph 0x0a0e27 []))) ;;
   (* Camera *)
   c <- Js.read canvasContainer ;;
   w <- Js.prop_of_undefined "clientWidth" c clientWidth ;;
   h <- Js.prop_of_undefined "clientHeight" c clientHeight ;;
   Js.modify (set_camera (Some
     (mkCamera (lit 75) (num_div w h) (decimal 1 1) (lit 1000)
        (mkVector3 (lit 5) (lit 5) (lit 5)) origin))) ;;
   (* Renderer *)
   Js.modify (set_renderer (Some (mkRenderer w h false O))) ;;
   Js.modify (set_canvasContainer
     (option_map (fun e => mkContainer (clientWidth e) (clientHeight e)
                             (S (canvases e))) c)) ;;
   (* Controls. The constructor of the library runs its own update, which
      recomputes the position of the camera from its spherical
      coordinates: equal to the position assigned above up to rounding
      in the last place. The camera keeps the position assigned. *)
   Js.modify (set_controls (Some (mkControls true (decimal 5 2) false O))) ;;
   (* Lights *)
   ambientLight <- create (AmbientLight 0xffffff (decimal 5 1)) ;;
   scene_add ambientLight ;;
   directionalLight <- create (DirectionalLight 0xffffff (decimal 8 1)) ;;
   assign directionalLight (fun o =>
     mkObject (kind o) (mkVector3 (lit 5) (lit 10) (decimal 75 1))
       (rotation_x o) (visible o)) ;;
   scene_add directionalLight ;;
   (* Grid *)
   gridHelper <- create (GridHelper 10 20 0x444444 0x222222) ;;
   scene_add gridHelper ;;
   (* Axes *)
   axesHelper <- create (AxesHelper 5) ;;
   scene_add axesHelper ;;
   (* Handle window resize *)
   Js.modify (fun v =>
     set_listeners (listeners v ++ [("resize"%string, cb_onWindowResize)]) v)
  )%js.

Definition default_geometry : DetectorGeometry num :=
  mkGeometry
    (mkShell (decimal 4 2) (decimal 12 1) (lit 5))
    (mkShell (decimal 13 1) (decimal 18 1) (lit 6))
    (mkShell (decimal 19 1) (lit 3) (lit 7)).

(** One of the three shells of [createDetectorGeometry]. *)
Definition add_shell (s : Shell num) (color : Z) (opacity : num)
  : method unit :=
  (mesh <- create (Mesh
     (CylinderGeometry (outer_radius s) (outer_radius s) (length_of s)
        32 1 true)
     (MeshPhongMaterial color true opacity true)) ;;
   assign mesh (fun o =>
     mkObject (kind o) (position o) (num_div Math_PI (lit 2)) (visible o)) ;;
   scene_add mesh ;;
   Js.modify (fun v => set_detectorMeshes (detectorMeshes v ++ [mesh]) v))%js.

Definition createDetectorGeometry : method unit :=
  ((* Clear existing detector meshes *)
   old <- Js.read detectorMeshes ;;
   forEach old scene_remove ;;
   Js.modify (set_detectorMeshes []) ;;
   config <- Js.read detectorConfig ;;
   let g := match config with
            | Some c => geometry c
            | None => default_geometry
            end in
   add_shell (tracker g) 0x4488ff (decimal 2 1) ;;
   add_shell (ecal g) 0x44ff88 (decimal 15 2) ;;
   add_shell (hcal g) 0xff8844 (decimal 1 1))%js.

Definition numPoints : Z := 50.

Definition maxR : num := lit 3.

(** Body of the inner loop of [renderEvent]: the point pushed at step
    [j]. *)
Definition sample (pt phi pz : num) (j : Z) : Vector3 :=
  let t := num_div (lit j) (lit numPoints) in
  let r := num_mul t (Math_min (num_div pt (lit 20)) maxR) in
  let x := num_mul r (Math_cos phi) in
  let y := num_mul r (Math_sin phi) in
  let z := num_div (num_mul t pz) (lit 10) in
  mkVector3 x z y.

(** [for (let j = 0; j <= numPoints; j++) points.push(...)] *)
Fixpoint track_loop (fuel : nat) (j : Z) (pt phi pz : num)
    (points : list Vector3) : list Vector3 :=
  match fuel with
  | O => points
  | S fuel' =>
      if j <=? numPoints
      then track_loop fuel' (j + 1) pt phi pz (points ++ [sample pt phi pz j])
      else points
  end.

Definition track_points (pt phi pz : num) : list Vector3 :=
  track_loop (Z.to_nat (numPoints + 1)) 0 pt phi pz [].

(** Color by particle type. *)
Definition species_color (pdgId : option Z) : Z :=
  if strict_eq pdgId 11 then 0xff0000
  else if strict_eq pdgId 13 then 0x00ff00
  else if strict_eq pdgId 22 then 0xffff00
  else 0x00ffff.

(** Body of the outer loop of [renderEvent], for particle [i]. *)
Definition draw_particle (ps : Particles num) (i : Z) : method unit :=
  (px_i <- column_at (px ps) i ;;
   py_i <- column_at (py ps) i ;;
   pz_i <- column_at (pz ps) i ;;
   id_i <- column_at (pdg_id ps) i ;;
   let px := to_number px_i in
   let py := to_number py_i in
   let pz := to_number pz_i in
   let pdgId := Math_abs id_i in
   (* Calculate track parameters *)
   let pt := Math_sqrt (num_add (num_mul px px) (num_mul py py)) in
   let p := Math_sqrt (num_add (num_add (num_mul px px) (num_mul py py))
                         (num_mul pz pz)) in
   let phi := Math_atan2 py px in
   (* Create particle track *)
   let points := track_points pt phi pz in
   let color := species_color pdgId in
   track <- create (Line (BufferGeometry points) (LineBasicMaterial color 2)) ;;
   scene_add track ;;
   Js.modify (fun v => set_particleMeshes (particleMeshes v ++ [track]) v) ;;
   (* Add particle marker at origin *)
   marker <- create (Mesh (SphereGeometry (decimal 5 2) 8 8)
                       (MeshBasicMaterial color)) ;;
   scene_add marker ;;
   Js.modify (fun v => set_particleMeshes (particleMeshes v ++ [marker]) v)
  )%js.

Definition renderEvent : method unit :=
  ((* Clear existing particles *)
   old <- Js.read particleMeshes ;;
   forEach old scene_remove ;;
   Js.modify (set_particleMeshes []) ;;
   ev <- Js.read event ;;
   match ev with
   | None => Js.ret tt
   | Some e =>
       match particles e with
       | None => Js.ret tt
       | Some ps =>
           n <- Js.prop_of_undefined "length" (px ps) (@List.length num) ;;
           for_loop n 0 (fun i => i <? Z.of_nat n) (draw_particle ps)
       end
   end)%js.

Definition resetCamera : method unit :=
  (c <- Js.read camera ;;
   cam <- Js.prop_of "position" c (fun cam => cam) ;;
   Js.modify (set_camera (Some
     (mkCamera (fov cam) (aspect cam) (near cam) (far cam)
        (mkVector3 (lit 5) (lit 5) (lit 5)) origin))) ;;
   ctl <- Js.read controls ;;
   _ <- Js.prop_of "reset" ctl (fun ctl => ctl) ;;
   Js.ret tt)%js.

Definition toggleDetector : method unit :=
  (Js.modify (fun v => set_showDetector (negb (showDetector v)) v) ;;
   meshes <- Js.read detectorMeshes ;;
   show <- Js.read showDetector ;;
   forEach meshes (fun mesh =>
     assign mesh (fun o =>
       mkObject (kind o) (position o) (rotation_x o) show)))%js.

Definition animate : method unit :=
  (Js.modify (fun v => set_frameRequests (frameRequests v ++ [cb_animate]) v) ;;
   ctl <- Js.read controls ;;
   c <- Js.prop_of "update" ctl (fun c => c) ;;
   Js.modify (set_controls (Some
     (mkControls (enableDamping c) (dampingFactor c) (controls_disposed c)
        (S (controlUpdates c))))) ;;
   rnd <- Js.read renderer ;;
   r <- Js.prop_of "render" rnd (fun r => r) ;;
   Js.modify (set_renderer (Some
     (mkRenderer (width r) (height r) (renderer_disposed r)
        (S (renderCalls r))))))%js.

Definition onWindowResize : method unit :=
  (c <- Js.read canvasContainer ;;
   match c with
   | None => Js.ret tt
   | Some e =>
       cam <- Js.read camera ;;
       cam <- Js.set_prop_of "aspect" cam (fun cam => cam) ;;
       Js.modify (set_camera (Some
         (mkCamera (fov cam) (num_div (clientWidth e) (clientHeight e))
            (near cam) (far cam) (cam_position cam) (cam_target cam)))) ;;
       rnd <- Js.read renderer ;;
       r <- Js.prop_of "setSize" rnd (fun r => r) ;;
       Js.modify (set_renderer (Some
         (mkRenderer (clientWidth e) (clientHeight e) (renderer_disposed r)
            (renderCalls r))))
   end)%js.

(** *** Life cycle hooks and the watcher *)

Definition mounted : method unit :=
  (initThreeJS ;;
   createDetectorGeometry ;;
   ev <- Js.read event ;;
   match ev with
   | Some _ => renderEvent
   | None => Js.ret tt
   end ;;
   animate)%js.

Definition beforeUnmount : method unit :=
  (rnd <- Js.read renderer ;;
   match rnd with
   | Some r =>
       Js.modify (set_renderer (Some
         (mkRenderer (width r) (height r) true (renderCalls r))))
   | None => Js.ret tt
   end ;;
   ctl <- Js.read controls ;;
   match ctl with
   | Some c =>
       Js.modify (set_controls (Some
         (mkControls (enableDamping c) (dampingFactor c) true
            (controlUpdates c))))
   | None => Js.ret tt
   end)%js.

(** [watch: { event() { this.renderEvent() } }]: the prop takes its new
    value and the watcher runs. *)
Definition watch_event (ev : option (Event num)) : method unit :=
  (Js.modify (set_event ev) ;; renderEvent)%js.

(** *** The page around the component *)

Definition run (cb : Callback) : method unit :=
  match cb with
  | cb_animate => animate
  | cb_onWindowResize => onWindowResize
  end.

(** A callback the browser invokes: an error it throws is reported and
    the page goes on. *)
Definition invoke (cb : Callback) : method unit :=
  Js.try_catch (run cb) (fun _ => Js.ret tt).

(** One display frame: the requests pending at its start are run. *)
Definition animation_frame : method unit :=
  (cbs <- Js.read frameRequests ;;
   Js.modify (set_frameRequests []) ;;
   forEach cbs invoke)%js.

(** The window is resized: the listeners of [resize] are run. *)
Definition window_resize : method unit :=
  (ls <- Js.read listeners ;;
   forEach (filter (fun l => String.eqb (fst l) "resize") ls)
     (fun l => invoke (snd l)))%js.

(** The view is torn down: the hook runs, then the template's elements
    are removed and [$refs] emptied. *)
Definition unmount : method unit :=
  (beforeUnmount ;;
   Js.modify (set_canvasContainer None))%js.

(** The callbacks the page would run when [n] frames pass. *)
Fixpoint frames (n : nat) : method unit :=
  match n with
  | O => Js.ret tt
  | S n' => (animation_frame ;; frames n')%js
  end.

End Scene.

Arguments LineBasicMaterial {num}.
Arguments MeshBasicMaterial {num}.
Arguments GridHelper {num}.
Arguments AxesHelper {num}.

End Scene.


(** ** The analytics renderer ([views/AnalysisDashboard.vue]) *)

Module Analytics.
Section Analytics.

Variable num : Type.
Context `{JsNumber num}.

(** [bins[i]] used as a number. *)
Definition bin_at (bins : list num) (i : Z) : num :=
  match nth_error bins (Z.to_nat i) with
  | Some b => b
  | None => NaN
  end.

(** [for (let i = 0; i < bins.length - 1; i++)
       binCenters.push((bins[i] + bins[i + 1]) / 2)] *)
Fixpoint centers_loop (fuel : nat) (i : Z) (bins : list num)
    (binCenters : list num) : list num :=
  match fuel with
  | O => binCenters
  | S fuel' =>
      if i <? Z.of_nat (List.length bins) - 1
      then centers_loop fuel' (i + 1) bins
             (binCenters ++
                [num_div (num_add (bin_at bins i) (bin_at bins (i + 1)))
                   (lit 2)])
      else binCenters
  end.

(** Calculate bin centers for x-axis. *)
Definition binCenters (bins : list num) : list num :=
  centers_loop (List.length bins) 0 bins [].

(** [labels[variable] || variable], for the keys the page can select,
    which are the four of the table, and for any other key that does
    not name a member every object inherits (such as [toString]). *)
Definition getVariableLabel (variable : string) : string :=
  if String.eqb variable "invariant_mass" then "Invariant Mass"
  else if String.eqb variable "missing_et" then "Missing ET"
  else if String.eqb variable "leading_jet_pt" then "Leading Jet pT"
  else if String.eqb variable "scalar_ht" then "Scalar HT"
  else variable.

(** The bar chart handed to the charting library: the positions its
    labels print (with one decimal), the bar heights and the legend. *)
Record Chart := mkChart {
  label_positions : list num;
  data : list Z;
  dataset_label : string
}.

Record Dashboard := mkDashboard {
  selectedVariable : string;
  histogramData : option (HistogramResult num);
  chart : option Chart;
  histogramCanvas : bool;
  destroyed : nat
}.

Definition renderHistogram (d : Dashboard) : Dashboard :=
  let d1 :=
    match chart d with
    | Some _ =>
        mkDashboard (selectedVariable d) (histogramData d) (chart d)
          (histogramCanvas d) (S (destroyed d))
    | None => d
    end in
  match histogramData d1 with
  | None => d1
  | Some h =>
      if negb (histogramCanvas d1) then d1
      else
        mkDashboard (selectedVariable d1) (histogramData d1)
          (Some (mkChart (binCenters (bins h)) (values h)
                   (getVariableLabel (selectedVariable d1))))
          (histogramCanvas d1) (destroyed d1)
  end.

End Analytics.
End Analytics.



(** ** The event display view ([views/EventDisplay.vue]) *)

Module EventDisplay.
Section EventDisplay.

Variable num : Type.

(** [selectEvent(evt)] *)
Definition selectEvent (evt : option (EventBody num))
  : Store.action num unit :=
  Store.commit (Store.SET_CURRENT_EVENT evt).

(** [loadLatestEvent()]: the view waits for [fetchEvents], then reads the
    list of the store; [others'] is what is committed between the end of
    the action and the resumption of the method. *)
Definition loadLatestEvent (others others' : Store.UIState num -> Store.UIState num)
    (getEvents : Js.completion (option (EventsResponse num)))
  : Store.action num unit :=
  (Store.fetchEvents others getEvents ;;
   Store.await others' (Js.Normal tt) ;;
   evs <- Js.read (fun c => Store.events (Store.state c)) ;;
   if 0 <? Z.of_nat (List.length evs)
   then selectEvent (nth_error evs 0)
   else Js.ret tt)%js.

(** [:event="currentEvent?.event"] *)
Definition event_prop (s : Store.UIState num) : option (Event num) :=
  match Store.currentEvent s with
  | Some body => event body
  | None => None
  end.

(** [:kinematics="currentEvent?.kinematics"] *)
Definition kinematics_prop (s : Store.UIState num)
  : option (Kinematics num) :=
  match Store.currentEvent s with
  | Some body => kinematics body
  | None => None
  end.

End EventDisplay.
End EventDisplay.

(** ** The analysis dashboard ([views/AnalysisDashboard.vue]) *)

Module AnalysisDashboard.
Section AnalysisDashboard.

Variable num : Type.
Context `{JsNumber num}.

(** [data()]: the fields the chart is drawn from, with the two flags of
    the request. *)
Record Panel := mkPanel {
  dashboard : Analytics.Dashboard num;
  numBins : Z;
  loading : bool;
  error : option string
}.

Definition set_dashboard d (p : Panel) : Panel :=
  mkPanel d (numBins p) (loading p) (error p).
Definition set_loading l (p : Panel) : Panel :=
  mkPanel (dashboard p) (numBins p) l (error p).
Definition set_error e (p : Panel) : Panel :=
  mkPanel (dashboard p) (numBins p) (loading p) e.

Definition set_histogramData h (d : Analytics.Dashboard num)
  : Analytics.Dashboard num :=
  Analytics.mkDashboard (Analytics.selectedVariable d) h (Analytics.chart d)
    (Analytics.histogramCanvas d) (Analytics.destroyed d).

(** [message || fallback] *)
Definition or_else (message fallback : string) : string :=
  if String.eqb message EmptyString then fallback else message.

(** [await p] inside a method of the component; [others] is what other
    methods assign meanwhile. *)
Definition await {A} (others : Panel -> Panel) (settled : Js.completion A)
  : Js.M Panel A :=
  (Js.modify others ;; Js.lift settled)%js.

Definition generateHistogram (others : Panel -> Panel)
    (getHistogram : Js.completion (option (HistogramResult num)))
  : Js.M Panel unit :=
  (Js.modify (set_loading true) ;;
   Js.modify (set_error None) ;;
   Js.try_finally
     (Js.try_catch
        (h <- await others getHistogram ;;
         Js.modify (fun p => set_dashboard (set_histogramData h (dashboard p)) p) ;;
         Js.modify (fun p =>
           set_dashboard (Analytics.renderHistogram (dashboard p)) p))
        (fun err =>
           Js.modify (set_error
             (Some (or_else (Js.message err) "Failed to generate histogram")))))
     (Js.modify (set_loading false)))%js.

(** The template is rendered again after a change of state: the canvas,
    under [v-if="histogramData"], exists exactly when there is data. *)
Definition rendered (p : Panel) : Panel :=
  set_dashboard
    (Analytics.mkDashboard (Analytics.selectedVariable (dashboard p))
       (Analytics.histogramData (dashboard p)) (Analytics.chart (dashboard p))
       (match Analytics.histogramData (dashboard p) with
        | Some _ => true
        | None => false
        end)
       (Analytics.destroyed (dashboard p)))
    p.

(** [beforeUnmount()] *)
Definition beforeUnmount (p : Panel) : Panel :=
  match Analytics.chart (dashboard p) with
  | Some _ =>
      set_dashboard
        (Analytics.mkDashboard (Analytics.selectedVariable (dashboard p))
           (Analytics.histogramData (dashboard p))
           (Analytics.chart (dashboard p))
           (Analytics.histogramCanvas (dashboard p))
           (S (Analytics.destroyed (dashboard p))))
        p
  | None => p
  end.

(** [data()] of a new component, nothing rendered yet. *)
Definition created : Panel :=
  mkPanel (Analytics.mkDashboard "invariant_mass" None None false 0)
    50 false None.

End AnalysisDashboard.
End AnalysisDashboard.

(** ** The configuration view ([views/Configuration.vue]) *)

Module Configuration.
Section Configuration.

Variable num : Type.

Record State := mkState {
  configs : option (list (DetectorConfig num));
  loading : bool;
  error : option string
}.

(** [data()] *)
Definition created : State := mkState (Some []) false None.

Definition loadConfigs (others : State -> State)
    (getDetectorConfigs : Js.completion (option (list (DetectorConfig num))))
  : Js.M State unit :=
  (Js.modify (fun s => mkState (configs s) true (error s)) ;;
   Js.modify (fun s => mkState (configs s) (loading s) None) ;;
   Js.try_finally
     (Js.try_catch
        (Js.modify others ;;
         cs <- Js.lift getDetectorConfigs ;;
         Js.modify (fun s => mkState cs (loading s) (error s)))
        (fun err =>
           Js.modify (fun s =>
             mkState (configs s) (loading s)
               (Some (if String.eqb (Js.message err) EmptyString
                      then "Failed to load configurations"%string
                      else Js.message err)))))
     (Js.modify (fun s => mkState (configs s) false (error s))))%js.

End Configuration.
End Configuration.


(** * Vocabulary of the properties *)

(** ** Store *)

Section StoreVocabulary.

Variable num : Type.

Let UIState := Store.UIState num.
Let Mutation := Store.Mutation num.

(** The commit an action makes once its request has settled. *)
Definition settles_fetchEvent
    (o : Js.completion (option (EventBody num))) : Mutation :=
  match o with
  | Js.Normal body => Store.SET_CURRENT_EVENT body
  | Js.Throw e => Store.SET_ERROR (Some (Js.message e))
  end.

Definition settles_fetchEvents
    (o : Js.completion (option (EventsResponse num))) : Mutation :=
  match o with
  | Js.Normal (Some r) => Store.SET_EVENTS (events_of r)
  | Js.Normal None =>
      Store.SET_ERROR (Some (Js.message (Js.TypeError "events")))
  | Js.Throw e => Store.SET_ERROR (Some (Js.message e))
  end.

Definition settles_fetchStatistics
    (o : Js.completion (option (Statistics num))) : Mutation :=
  match o with
  | Js.Normal stats => Store.SET_STATISTICS stats
  | Js.Throw e => Store.SET_ERROR (Some (Js.message e))
  end.

(** The selection as the specification words it: the first active
    config, else the first config, else none. *)
Definition first_active_else_first (configs : list (DetectorConfig num))
  : option (DetectorConfig num) :=
  match find (@is_active num) configs with
  | Some c => Some c
  | None => hd_error configs
  end.

Definition settles_fetchDetectorConfigs
    (o : Js.completion (option (list (DetectorConfig num))))
  : list Mutation :=
  match o with
  | Js.Normal (Some cs) =>
      match first_active_else_first cs with
      | Some c => [Store.SET_DETECTOR_CONFIG (Some c)]
      | None => []
      end
  | Js.Normal None => []
  | Js.Throw e => [Store.SET_ERROR (Some (Js.message e))]
  end.

(** The state after a list of commits, oldest first. *)
Definition replay (ms : list Mutation) (s : UIState) : UIState :=
  fold_left (fun s m => Store.mutate m s) ms s.

(** The error commit is the last thing the action committed. *)
Definition stops_at_error (commits : list Mutation) (msg : string) : Prop :=
  exists before, commits = before ++ [Store.SET_ERROR (Some msg)].

Definition is_SET_LOADING (m : Mutation) : bool :=
  match m with Store.SET_LOADING _ => true | _ => false end.

Definition is_result (m : Mutation) : bool :=
  match m with
  | Store.SET_CURRENT_EVENT _ | Store.SET_EVENTS _
  | Store.SET_STATISTICS _ | Store.SET_DETECTOR_CONFIG _ => true
  | _ => false
  end.

(** An action that wraps its request in the loading flag: it begins by
    committing [loading = true] and leaves [loading = false]. *)
Definition wraps_with_loading
    (run : UIState * list Mutation * Js.completion unit) : Prop :=
  let '(s', commits, _) := run in
  hd_error commits = Some (Store.SET_LOADING true) /\
  Store.loading s' = false.

End StoreVocabulary.

(** Sample data for the concrete runs. *)
Definition sample_shell : Shell Z := mkShell 0 1 5.

Definition sample_config (id : Z) (active : bool) : DetectorConfig Z :=
  mkConfig id "cfg" "a detector" 4
    (mkGeometry sample_shell sample_shell sample_shell) active "2024-01-01".

Definition network_error : Js.Error := Js.mkError "Network Error".

(** ** Scene *)

Section SceneVocabulary.

Variable num : Type.
Context `{JsNumber num}.

(** The points of the track of a particle of momentum [(px, py, pz)]. *)
Definition track_of (px py pz : num) : list (Scene.Vector3 num) :=
  Scene.track_points
    (Math_sqrt (num_add (num_mul px px) (num_mul py py)))
    (Math_atan2 py px) pz.

(** The two objects one turn of the outer loop creates. *)
Definition drawn_particle (px py pz : num) (id : Z)
  : list (Scene.Object3D num) :=
  let color := Scene.species_color (Some (Z.abs id)) in
  [Scene.new (Scene.Line (Scene.BufferGeometry (track_of px py pz))
                (Scene.LineBasicMaterial color 2));
   Scene.new (Scene.Mesh (Scene.SphereGeometry (decimal 5 2) 8 8)
                (Scene.MeshBasicMaterial color))].

(** The objects created for the particles [i], ..., [i + k - 1]. *)
Definition drawn (lx ly lz : list num) (lid : list Z) (i k : nat)
  : list (Scene.Object3D num) :=
  flat_map
    (fun n => drawn_particle (nth n lx NaN) (nth n ly NaN) (nth n lz NaN)
                (nth n lid 0))
    (seq i k).

(** The per-event draw primitives of a view: the objects its
    [particleMeshes] refer to. *)
Definition primitives (v : Scene.View num)
  : list (option (Scene.Object3D num)) :=
  map (fun r => nth_error (Scene.objects v) r) (Scene.particleMeshes v).

(** The particle columns are parallel arrays of [M] entries. *)
Definition parallel (ps : Particles num) (lx ly lz : list num)
    (lid : list Z) (M : nat) : Prop :=
  px ps = Some lx /\ py ps = Some ly /\ pz ps = Some lz /\
  pdg_id ps = Some lid /\
  List.length lx = M /\ List.length ly = M /\ List.length lz = M /\
  List.length lid = M.

Definition is_track (o : option (Scene.Object3D num)) : bool :=
  match o with
  | Some (Scene.mkObject (Scene.Line (Scene.BufferGeometry _) _) _ _ _) => true
  | _ => false
  end.

Definition is_marker (o : option (Scene.Object3D num)) : bool :=
  match o with
  | Some (Scene.mkObject (Scene.Mesh (Scene.SphereGeometry _ _ _) _) _ _ _) =>
      true
  | _ => false
  end.

(** The sample points of a polyline primitive. *)
Definition points_of (o : option (Scene.Object3D num))
  : list (Scene.Vector3 num) :=
  match o with
  | Some (Scene.mkObject (Scene.Line (Scene.BufferGeometry pts) _) _ _ _) =>
      pts
  | _ => []
  end.

(** The color of a primitive. *)
Definition color_of (o : option (Scene.Object3D num)) : option Z :=
  match o with
  | Some (Scene.mkObject (Scene.Line _ (Scene.LineBasicMaterial c _)) _ _ _) =>
      Some c
  | Some (Scene.mkObject (Scene.Mesh _ (Scene.MeshBasicMaterial c)) _ _ _) =>
      Some c
  | _ => None
  end.

(** The children of the scene, none when there is no scene. *)
Definition scene_children (v : Scene.View num) : list Scene.Ref :=
  match Scene.scene v with
  | Some g => Scene.children g
  | None => []
  end.

(** The scene holds each object once, and the references of the scene
    and of [particleMeshes] are those of created objects. *)
Definition well_formed (v : Scene.View num) : Prop :=
  NoDup (scene_children v) /\
  (forall r, In r (scene_children v) ->
             (r < List.length (Scene.objects v))%nat) /\
  (forall r, In r (Scene.particleMeshes v) ->
             (r < List.length (Scene.objects v))%nat).

(** The render loop is cancelled: no request for [animate] is pending. *)
Definition render_loop_cancelled (v : Scene.View num) : Prop :=
  ~ In Scene.cb_animate (Scene.frameRequests v).

(** The resize listener is removed from [window]. *)
Definition resize_listener_removed (v : Scene.View num) : Prop :=
  ~ In ("resize"%string, Scene.cb_onWindowResize) (Scene.listeners v).

(** [renderer.dispose()] and [controls.dispose()]. *)
Definition disposed_renderer (r : Scene.Renderer num) : Scene.Renderer num :=
  Scene.mkRenderer (Scene.width r) (Scene.height r) true (Scene.renderCalls r).

Definition disposed_controls (c : Scene.Controls num) : Scene.Controls num :=
  Scene.mkControls (Scene.enableDamping c) (Scene.dampingFactor c) true
    (Scene.controlUpdates c).

(** The frames the renderer was asked to draw so far. *)
Definition render_calls (v : Scene.View num) : nat :=
  match Scene.renderer v with
  | Some r => Scene.renderCalls r
  | None => O
  end.

End SceneVocabulary.

(** The color table of the specification, on the absolute species
    code. *)
Definition red : Z := 0xff0000.
Definition green : Z := 0x00ff00.
Definition yellow : Z := 0xffff00.
Definition cyan : Z := 0x00ffff.

Definition color_table (code : Z) : Z :=
  if code =? 11 then red
  else if code =? 13 then green
  else if code =? 22 then yellow
  else cyan.

(** Sample data for the concrete runs of the scene: an event of two
    particles, an electron and an antimuon, and a view that has a scene
    and shows it. *)
Definition sample_particles : Particles R :=
  mkParticles (Some [3%R; 0%R]) (Some [4%R; 0%R]) (Some [5%R; 1%R])
    (Some [8%R; 1%R]) (Some [11; -13]).

Definition sample_event : Event R :=
  mkEvent "evt-0001" 2 (Some sample_particles).

Definition empty_scene : Scene.SceneGraph := Scene.mkSceneGraph 0x0a0e27 [].

Definition sample_view : Scene.View R :=
  Scene.set_scene (Some empty_scene)
    (Scene.created (Some sample_event) None None None).

(** The sample view after a first call of [renderEvent]: its scene holds
    the four primitives of the sample event. *)
Definition sample_view_drawn : Scene.View R :=
  fst (Scene.renderEvent sample_view).

Definition drawn_scene : Scene.SceneGraph :=
  Scene.mkSceneGraph 0x0a0e27 [0; 1; 2; 3]%nat.

(** The drawn view once its event is replaced by one that has no
    [particles]: the four primitives of the first call are still in its
    scene. *)
Definition sample_view_stale : Scene.View R :=
  Scene.set_event (Some (mkEvent "evt-0002" 0 None)) sample_view_drawn.

(** The view once mounted in a container of 800 by 600 pixels, with no
    event yet. *)
Definition mounted_view : Scene.View R :=
  fst (Scene.mounted
         (Scene.created None None None
            (Some (Scene.mkContainer 800%R 600%R 0)))).

(** ** The tracks on doubles *)

(** The origin as [===] sees it: each coordinate is a zero, [+0] or
    [-0]. *)
Definition at_origin (p : Scene.Vector3 float) : bool :=
  PrimFloat.is_zero (Scene.v_x p) && PrimFloat.is_zero (Scene.v_y p)
  && PrimFloat.is_zero (Scene.v_z p).

(** The distance of a point from the beam axis, the second display
    coordinate, as [Math.sqrt(x * x + z * z)] computes it. *)
Definition planar_distance (p : Scene.Vector3 float) : float :=
  PrimFloat.sqrt (Scene.v_x p * Scene.v_x p + Scene.v_z p * Scene.v_z p)%float.

(** The rational number a finite double stands for. *)
Definition exact (a : float) : Q :=
  match Prim2SF a with
  | S754_finite s m e =>
      let q := (inject_Z (Zpos m) * Qpower 2 e)%Q in
      if s then Qopp q else q
  | _ => 0%Q
  end.

(** The square of the distance from the beam axis, without rounding. *)
Definition exact_planar_distance2 (p : Scene.Vector3 float) : Q :=
  (exact (Scene.v_x p) * exact (Scene.v_x p)
   + exact (Scene.v_z p) * exact (Scene.v_z p))%Q.

(** The shape of a double in the specification of the format: finite, a
    zero, not negative (a zero, a positive double or [+Infinity]), of a
    given sign. *)
Definition SF_finite (x : spec_float) : bool :=
  match x with S754_zero _ | S754_finite _ _ _ => true | _ => false end.

Definition SF_zero (x : spec_float) : bool :=
  match x with S754_zero _ => true | _ => false end.

Definition SF_nonneg (x : spec_float) : bool :=
  match x with
  | S754_zero _ | S754_finite false _ _ | S754_infinity false => true
  | _ => false
  end.

Definition SF_signed (s : bool) (x : spec_float) : Prop :=
  match x with
  | S754_nan => False
  | S754_zero s' | S754_infinity s' | S754_finite s' _ _ => s' = s
  end.

(** A double of magnitude at most 3: a zero, or a finite double whose
    exponent is below that of 3, which is [3 * 2^51 * 2^-51], or equal
    to it with a mantissa of at most [3 * 2^51]. *)
Definition SF_le3 (x : spec_float) : Prop :=
  match x with
  | S754_zero _ => True
  | S754_finite _ m e => e < -51 \/ (e = -51 /\ Zpos m <= 3 * 2 ^ 51)
  | _ => False
  end.

(** A view that has a scene and is given an event of one particle, an
    electron of momentum [(px, py, pz)]. *)
Definition one_particle (px py pz : float) : Scene.View float :=
  Scene.set_scene (Some empty_scene)
    (Scene.created
       (Some (mkEvent "evt-0004" 1
                (Some (mkParticles (Some [px]) (Some [py]) (Some [pz]) None
                         (Some [11])))))
       None None None).

(** The polyline [renderEvent] draws for the first particle of a view,
    on doubles with the engine's [atan2], [cos] and [sin]. *)
Definition first_track (atan2 : float -> float -> float)
    (cos sin : float -> float) (v : Scene.View float)
  : list (Scene.Vector3 float) :=
  points_of
    (nth 0 (primitives (fst (@Scene.renderEvent float (Float64 atan2 cos sin) v)))
       None).

(** The cosine and the sine of the azimuth of the momentum [(102, 13)]
    as doubles: the cosine, 0.99197575..., rounded to the nearest
    double, and for the sine, 0.12642828..., either of two neighbouring
    doubles, since engines differ in the last place of the azimuth. *)
Definition cos_102_13 : float := 0x1.fbe43edd6d9d1p-1%float.
Definition sin_102_13 : float := 0x1.02ecd4c132dc9p-3%float.
Definition sin_102_13_next : float := 0x1.02ecd4c132dcap-3%float.

(** A momentum whose square overflows: 2^600, about 4e180. *)
Definition huge : float := 0x1p+600%float.

(** What the engine's functions return on the half line [y = 0],
    [x > 0], where the azimuth is [atan2(0, x) = 0], [cos 0 = 1] and
    [sin 0 = 0]: they stand for the engine's functions in the concrete
    run of a particle that flies along [x]. *)
Definition atan2_along_x (y x : float) : float := 0%float.
Definition cos_along_x (phi : float) : float := 1%float.
Definition sin_along_x (phi : float) : float := 0%float.

(** ** Analytics *)

(** A histogram of three bins over four edges. *)
Definition sample_histogram : HistogramResult R :=
  mkHistogram [0%R; 10%R; 20%R; 40%R] [3; 5; 2] 10.

Definition sample_dashboard : Analytics.Dashboard R :=
  Analytics.mkDashboard "invariant_mass" (Some sample_histogram) None true 0.


(** * Vocabulary of the further properties *)

Section StoreVocabulary2.

Variable num : Type.

(** The field a mutation replaces. *)
Definition field_of (m : Store.Mutation num) : nat :=
  match m with
  | Store.SET_CURRENT_EVENT _ => 0
  | Store.SET_EVENTS _ => 1
  | Store.SET_STATISTICS _ => 2
  | Store.SET_DETECTOR_CONFIG _ => 3
  | Store.SET_LOADING _ => 4
  | Store.SET_ERROR _ => 5
  end%nat.

(** The data a view reads from the store, flags apart. *)
Definition data_of (s : Store.UIState num) :=
  (Store.currentEvent s, Store.events s, Store.statistics s,
   Store.detectorConfig s).

(** The state a dispatched action leaves. *)
Definition after {A} (a : Store.action num A) (s : Store.UIState num)
  : Store.UIState num :=
  fst (fst (Store.dispatch a s)).

End StoreVocabulary2.

Section SceneVocabulary2.

Variable num : Type.
Context `{JsNumber num}.

(** The mesh [createDetectorGeometry] builds for one shell. *)
Definition shell_mesh (s : Shell num) (color : Z) (opacity : num)
  : Scene.Object3D num :=
  Scene.mkObject
    (Scene.Mesh
       (Scene.CylinderGeometry (outer_radius s) (outer_radius s) (length_of s)
          32 1 true)
       (Scene.MeshPhongMaterial color true opacity true))
    (@Scene.origin num _) (num_div Math_PI (lit 2)) true.

(** The geometry the shells are built from. *)
Definition geometry_in_use (v : Scene.View num) : DetectorGeometry num :=
  match Scene.detectorConfig v with
  | Some c => geometry c
  | None => @Scene.default_geometry num _
  end.

(** The three shells, in the order they are created. *)
Definition shells (g : DetectorGeometry num) : list (Scene.Object3D num) :=
  [shell_mesh (tracker g) 0x4488ff (decimal 2 1);
   shell_mesh (ecal g) 0x44ff88 (decimal 15 2);
   shell_mesh (hcal g) 0xff8844 (decimal 1 1)].

(** The objects a list of references refers to. *)
Definition lookup (v : Scene.View num) (refs : list Scene.Ref)
  : list (option (Scene.Object3D num)) :=
  map (fun r => nth_error (Scene.objects v) r) refs.

(** The children a scene keeps when the objects of [old] are removed. *)
Definition kept (old children : list Scene.Ref) : list Scene.Ref :=
  fold_left (fun c r => Scene.remove_first r c) old children.

Definition set_visible (b : bool) (o : Scene.Object3D num)
  : Scene.Object3D num :=
  Scene.mkObject (Scene.kind o) (Scene.position o) (Scene.rotation_x o) b.

(** The visibility of the object of a reference, [None] when the
    reference is dangling. *)
Definition visible_at (v : Scene.View num) (r : Scene.Ref) : option bool :=
  option_map (@Scene.visible num) (nth_error (Scene.objects v) r).

(** The objects after [visible] is assigned on each of [refs]. *)
Definition show_all (b : bool) (refs : list Scene.Ref)
    (objs : list (Scene.Object3D num)) : list (Scene.Object3D num) :=
  fold_left (fun os r => Scene.update_nth r (set_visible b) os) refs objs.

(** The container takes a new size (the page is laid out again). *)
Definition resized (w h : num) (v : Scene.View num) : Scene.View num :=
  Scene.set_canvasContainer
    (option_map (fun e => Scene.mkContainer w h (Scene.canvases e))
       (Scene.canvasContainer v)) v.

(** The track drawn from what the columns hold at [i]; a column too
    short reads [undefined]. *)
Definition drawn_at (lx ly lz : list num) (lid : list Z) (i : nat)
  : list (Scene.Object3D num) :=
  let color := Scene.species_color (Scene.Math_abs (nth_error lid i)) in
  [Scene.new (Scene.Line
                (Scene.BufferGeometry
                   (track_of (Scene.to_number (nth_error lx i))
                      (Scene.to_number (nth_error ly i))
                      (Scene.to_number (nth_error lz i))))
                (Scene.LineBasicMaterial color 2));
   Scene.new (Scene.Mesh (Scene.SphereGeometry (decimal 5 2) 8 8)
                (Scene.MeshBasicMaterial color))].

Definition drawn_from (lx ly lz : list num) (lid : list Z) (i k : nat)
  : list (Scene.Object3D num) :=
  flat_map (drawn_at lx ly lz lid) (seq i k).

(** The lights and helpers [initThreeJS] adds to the scene. *)
Definition helpers : list (Scene.Object3D num) :=
  [Scene.new (Scene.AmbientLight 0xffffff (decimal 5 1));
   Scene.mkObject (Scene.DirectionalLight 0xffffff (decimal 8 1))
     (Scene.mkVector3 (lit 5) (lit 10) (decimal 75 1)) (lit 0) true;
   Scene.new (Scene.GridHelper 10 20 0x444444 0x222222);
   Scene.new (Scene.AxesHelper 5)].

(** The camera as [initThreeJS] and [resetCamera] pose it. *)
Definition default_camera (aspect : num) : Scene.Camera num :=
  Scene.mkCamera (lit 75) aspect (decimal 1 1) (lit 1000)
    (Scene.mkVector3 (lit 5) (lit 5) (lit 5)) (@Scene.origin num _).

(** The view [initThreeJS] and [createDetectorGeometry] leave when a
    new component is mounted in a container. *)
Definition prepared (ev : option (Event num)) (kin : option (Kinematics num))
    (cfg : option (DetectorConfig num)) (cont : Scene.Container num)
  : Scene.View num :=
  let w := Scene.clientWidth cont in
  let h := Scene.clientHeight cont in
  Scene.mkView ev kin cfg
    (Some (Scene.mkContainer w h (S (Scene.canvases cont))))
    (Some (Scene.mkSceneGraph 0x0a0e27 (seq 0 7)))
    (Some (default_camera (num_div w h)))
    (Some (Scene.mkRenderer w h false 0))
    (Some (Scene.mkControls true (decimal 5 2) false 0))
    true [4; 5; 6]%nat []
    (helpers
     ++ shells (match cfg with
                | Some c => geometry c
                | None => @Scene.default_geometry num _
                end))
    [("resize"%string, Scene.cb_onWindowResize)] [].

(** [animate], run once on a view that has controls and a renderer. *)
Definition animated (v : Scene.View num) : Scene.View num :=
  Scene.set_renderer
    (option_map (fun r => Scene.mkRenderer (Scene.width r) (Scene.height r)
                            (Scene.renderer_disposed r)
                            (S (Scene.renderCalls r))) (Scene.renderer v))
    (Scene.set_controls
       (option_map (fun c => Scene.mkControls (Scene.enableDamping c)
                               (Scene.dampingFactor c)
                               (Scene.controls_disposed c)
                               (S (Scene.controlUpdates c)))
          (Scene.controls v))
       (Scene.set_frameRequests (Scene.frameRequests v ++ [Scene.cb_animate])
          v)).

End SceneVocabulary2.

Arguments helpers {num H}.

(** Sample data for the concrete runs of the further properties. *)
Definition sample_container : Scene.Container R :=
  Scene.mkContainer 800%R 600%R 0.

(** The sample view with lights, helpers and shells, before its first
    frame. *)
Definition prepared_view : Scene.View R :=
  prepared None None None sample_container.

Definition prepared_scene : Scene.SceneGraph :=
  Scene.mkSceneGraph 0x0a0e27 (seq 0 7).

(** An event whose [particles] has no column at all. *)
Definition event_without_columns : Event R :=
  mkEvent "evt-0004" 1 (Some (mkParticles None None None None None)).

(** An event whose columns have unequal lengths. *)
Definition ragged_particles : Particles R :=
  mkParticles (Some [3%R; 0%R]) (Some [4%R]) (Some [5%R; 1%R]) None
    (Some [11]).

Definition ragged_event : Event R := mkEvent "evt-0005" 2 (Some ragged_particles).

Definition ragged_view : Scene.View R :=
  Scene.set_scene (Some empty_scene)
    (Scene.created (Some ragged_event) None None None).

Definition sample_response : EventsResponse R :=
  mkEventsResponse [mkEventBody (Some sample_event) None].

(** * Properties of the store *)

Section StoreFacts.

Variable num : Type.

Let UIState := Store.UIState num.
Let Mutation := Store.Mutation num.

Ltac run_action :=
  unfold Store.dispatch, Store.fetchEvent, Store.fetchEvents,
    Store.fetchStatistics, Store.fetchDetectorConfigs, Store.await,
    Store.commit, Js.try_finally, Js.try_catch, Js.bind, Js.modify,
    Js.lift, Js.prop_of, Js.ret, Js.throw; cbn.

Lemma fetchEvent_run (others : UIState -> UIState) o (s : UIState) :
  Store.dispatch (Store.fetchEvent others o) s =
    (Store.mutate (Store.SET_LOADING false)
       (Store.mutate (settles_fetchEvent o)
          (others (replay [Store.SET_LOADING true;
                           Store.SET_ERROR None] s))),
     [Store.SET_LOADING true; Store.SET_ERROR None;
      settles_fetchEvent o; Store.SET_LOADING false],
     Js.Normal tt).
Proof. destruct o; run_action; reflexivity. Qed.

Lemma fetchEvents_run (others : UIState -> UIState) o (s : UIState) :
  Store.dispatch (Store.fetchEvents others o) s =
    (Store.mutate (Store.SET_LOADING false)
       (Store.mutate (settles_fetchEvents o)
          (others (replay [Store.SET_LOADING true;
                           Store.SET_ERROR None] s))),
     [Store.SET_LOADING true; Store.SET_ERROR None;
      settles_fetchEvents o; Store.SET_LOADING false],
     Js.Normal tt).
Proof. destruct o as [[r|]|e]; run_action; reflexivity. Qed.

Lemma fetchStatistics_run (others : UIState -> UIState) o (s : UIState) :
  Store.dispatch (Store.fetchStatistics others o) s =
    (Store.mutate (settles_fetchStatistics o) (others s),
     [settles_fetchStatistics o], Js.Normal tt).
Proof. destruct o; run_action; reflexivity. Qed.

Lemma activeConfig_selects (cs : list (DetectorConfig num)) :
  Store.activeConfig cs = first_active_else_first cs.
Proof.
  unfold Store.activeConfig, first_active_else_first.
  destruct (find _ cs); [reflexivity|]. destruct cs; reflexivity.
Qed.

Lemma fetchDetectorConfigs_run (others : UIState -> UIState) o (s : UIState) :
  Store.dispatch (Store.fetchDetectorConfigs others o) s =
    (replay (settles_fetchDetectorConfigs o) (others s),
     settles_fetchDetectorConfigs o, Js.Normal tt).
Proof.
  destruct o as [[cs|]|e]; run_action; try reflexivity.
  destruct cs as [|c cs].
  - reflexivity.
  - replace (0 <? Z.of_nat (List.length (c :: cs))) with true
      by (symmetry; apply Z.ltb_lt; cbn [List.length]; lia).
    rewrite activeConfig_selects.
    unfold first_active_else_first. cbn [find hd_error].
    destruct (is_active c); [reflexivity|].
    destruct (find _ cs); reflexivity.
Qed.

Lemma find_first_active (l1 l2 : list (DetectorConfig num)) c :
  is_active c = true ->
  (forall c', In c' l1 -> is_active c' = false) ->
  find (@is_active num) (l1 ++ c :: l2) = Some c.
Proof.
  intros Hc. induction l1 as [|a l1 IH]; intros Hl1; cbn [app find].
  - now rewrite Hc.
  - rewrite (Hl1 a (or_introl eq_refl)). apply IH.
    intros c' Hin. apply Hl1. now right.
Qed.

Lemma find_none_active (cs : list (DetectorConfig num)) :
  (forall c', In c' cs -> is_active c' = false) ->
  find (@is_active num) cs = None.
Proof.
  induction cs as [|a cs IH]; intros Hcs; cbn [find]; [reflexivity|].
  rewrite (Hcs a (or_introl eq_refl)). apply IH.
  intros c' Hin. apply Hcs. now right.
Qed.

(** C1 (as amended). [fetchEvent] and [fetchEvents] run the whole
    sequence, whatever the request gives and whatever is committed while
    they wait: [loading = true], the stale error cleared, the call, one
    commit of its result or of its error message, [loading = false]; they
    end with [loading = false] and complete normally. [fetchStatistics]
    and [fetchDetectorConfigs] only make the call and commit its result
    or its error message: they commit nothing to [loading] and leave it
    as it is when the request settles. *)
Theorem actions_loading_sequence (others : UIState -> UIState) (s : UIState) :
  (forall o,
     wraps_with_loading (Store.dispatch (Store.fetchEvent others o) s) /\
     snd (fst (Store.dispatch (Store.fetchEvent others o) s)) =
       [Store.SET_LOADING true; Store.SET_ERROR None;
        settles_fetchEvent o; Store.SET_LOADING false] /\
     snd (Store.dispatch (Store.fetchEvent others o) s) = Js.Normal tt) /\
  (forall o,
     wraps_with_loading (Store.dispatch (Store.fetchEvents others o) s) /\
     snd (fst (Store.dispatch (Store.fetchEvents others o) s)) =
       [Store.SET_LOADING true; Store.SET_ERROR None;
        settles_fetchEvents o; Store.SET_LOADING false] /\
     snd (Store.dispatch (Store.fetchEvents others o) s) = Js.Normal tt) /\
  (forall o,
     let '(s', commits, r) :=
       Store.dispatch (Store.fetchStatistics others o) s in
     commits = [settles_fetchStatistics o] /\
     Store.loading s' = Store.loading (others s) /\
     r = Js.Normal tt) /\
  (forall o,
     let '(s', commits, r) :=
       Store.dispatch (Store.fetchDetectorConfigs others o) s in
     commits = settles_fetchDetectorConfigs o /\
     forallb (fun m => negb (is_SET_LOADING m)) commits = true /\
     Store.loading s' = Store.loading (others s) /\
     r = Js.Normal tt).
Proof.
  repeat split.
  - rewrite fetchEvent_run. split; reflexivity.
  - rewrite fetchEvent_run. reflexivity.
  - rewrite fetchEvent_run. reflexivity.
  - rewrite fetchEvents_run. split; reflexivity.
  - rewrite fetchEvents_run. reflexivity.
  - rewrite fetchEvents_run. reflexivity.
  - intros o. rewrite fetchStatistics_run.
    destruct o; repeat split; reflexivity.
  - intros o. rewrite fetchDetectorConfigs_run.
    destruct o as [[cs|]|e]; cbn [settles_fetchDetectorConfigs];
      try destruct (first_active_else_first cs); repeat split; reflexivity.
Qed.

(** C3. For every list of configs the backend returns,
    [fetchDetectorConfigs] commits the first config with [is_active],
    else the first config of the list, and exactly that one; for an empty
    list it commits nothing and the state is left as it was. *)
Theorem fetchDetectorConfigs_selects (others : UIState -> UIState)
    (s : UIState) (cs : list (DetectorConfig num)) :
  let run := Store.dispatch
               (Store.fetchDetectorConfigs others (Js.Normal (Some cs))) s in
  run = (match first_active_else_first cs with
         | Some c => Store.mutate (Store.SET_DETECTOR_CONFIG (Some c)) (others s)
         | None => others s
         end,
         match first_active_else_first cs with
         | Some c => [Store.SET_DETECTOR_CONFIG (Some c)]
         | None => []
         end,
         Js.Normal tt) /\
  (forall l1 c l2,
     cs = l1 ++ c :: l2 -> is_active c = true ->
     (forall c', In c' l1 -> is_active c' = false) ->
     snd (fst run) = [Store.SET_DETECTOR_CONFIG (Some c)] /\
     Store.detectorConfig (fst (fst run)) = Some c) /\
  (forall c l,
     cs = c :: l -> (forall c', In c' cs -> is_active c' = false) ->
     snd (fst run) = [Store.SET_DETECTOR_CONFIG (Some c)] /\
     Store.detectorConfig (fst (fst run)) = Some c) /\
  (cs = [] ->
     snd (fst run) = [] /\
     Store.detectorConfig (fst (fst run)) = Store.detectorConfig (others s)).
Proof.
  cbv zeta. rewrite fetchDetectorConfigs_run.
  cbn [settles_fetchDetectorConfigs fst snd].
  split; [|split; [|split]].
  - destruct (first_active_else_first cs); reflexivity.
  - intros l1 c l2 -> Hc Hl1. unfold first_active_else_first.
    rewrite (@find_first_active l1 l2 c Hc Hl1). split; reflexivity.
  - intros c l -> Hcs. unfold first_active_else_first.
    rewrite (@find_none_active _ Hcs). split; reflexivity.
  - intros ->. split; reflexivity.
Qed.

(** C7 (as amended). When the request is rejected, every action catches
    the error and stores its message in [error]; [fetchStatistics] and
    [fetchDetectorConfigs] commit nothing else, [fetchEvent] and
    [fetchEvents] commit after it only the [loading = false] of their
    [finally] block; no result is committed. Whatever the request gives,
    no action throws. *)
Theorem actions_catch_errors (others : UIState -> UIState) (s : UIState)
    (e : Js.Error) :
  let msg := Js.message e in
  (let '(s', commits, r) :=
     Store.dispatch (Store.fetchEvent others (Js.Throw e)) s in
   commits = [Store.SET_LOADING true; Store.SET_ERROR None;
              Store.SET_ERROR (Some msg); Store.SET_LOADING false] /\
   Store.error s' = Some msg /\ r = Js.Normal tt) /\
  (let '(s', commits, r) :=
     Store.dispatch (Store.fetchEvents others (Js.Throw e)) s in
   commits = [Store.SET_LOADING true; Store.SET_ERROR None;
              Store.SET_ERROR (Some msg); Store.SET_LOADING false] /\
   Store.error s' = Some msg /\ r = Js.Normal tt) /\
  (let '(s', commits, r) :=
     Store.dispatch (Store.fetchStatistics others (Js.Throw e)) s in
   stops_at_error commits msg /\ commits = [Store.SET_ERROR (Some msg)] /\
   Store.error s' = Some msg /\ r = Js.Normal tt) /\
  (let '(s', commits, r) :=
     Store.dispatch (Store.fetchDetectorConfigs others (Js.Throw e)) s in
   stops_at_error commits msg /\ commits = [Store.SET_ERROR (Some msg)] /\
   Store.error s' = Some msg /\ r = Js.Normal tt) /\
  (forall o1 o2 o3 o4,
     snd (Store.dispatch (Store.fetchEvent others o1) s) = Js.Normal tt /\
     snd (Store.dispatch (Store.fetchEvents others o2) s) = Js.Normal tt /\
     snd (Store.dispatch (Store.fetchStatistics others o3) s) = Js.Normal tt /\
     snd (Store.dispatch (Store.fetchDetectorConfigs others o4) s)
       = Js.Normal tt).
Proof.
  cbv zeta.
  rewrite fetchEvent_run, fetchEvents_run, fetchStatistics_run,
    fetchDetectorConfigs_run.
  repeat split; try (exists []; reflexivity).
  - rewrite fetchEvent_run. reflexivity.
  - rewrite fetchEvents_run. reflexivity.
  - rewrite fetchStatistics_run. reflexivity.
  - rewrite fetchDetectorConfigs_run. reflexivity.
Qed.

End StoreFacts.

(** C3, at a list whose second config is the first active one. *)
Lemma fetchDetectorConfigs_selects_witness :
  let cs := [sample_config 1 false; sample_config 2 true;
             sample_config 3 true] in
  snd (fst (Store.dispatch
              (Store.fetchDetectorConfigs (fun s => s) (Js.Normal (Some cs)))
              Store.initial))
    = [Store.SET_DETECTOR_CONFIG (Some (sample_config 2 true))] /\
  Store.detectorConfig
    (fst (fst (Store.dispatch
                 (Store.fetchDetectorConfigs (fun s => s)
                    (Js.Normal (Some cs)))
                 Store.initial)))
    = Some (sample_config 2 true).
Proof.
  cbv zeta.
  refine (proj1 (proj2 (fetchDetectorConfigs_selects (fun s => s)
            Store.initial _))
            [sample_config 1 false] (sample_config 2 true)
            [sample_config 3 true] eq_refl eq_refl _).
  intros c' [<- | []]. reflexivity.
Defined.

(** C1, as stated, fails: [fetchStatistics], dispatched while another
    request holds [loading = true], commits the statistics and nothing
    else; it neither begins with [loading = true] nor ends with
    [loading = false]. *)
Lemma fetchStatistics_not_wrapped :
  ~ wraps_with_loading
      (Store.dispatch
         (Store.fetchStatistics (fun s => s)
            (Js.Normal (Some (mkStatistics (num:=Z) 120 40 80 None))))
         (Store.mutate (Store.SET_LOADING true) Store.initial)).
Proof.
  cbn. intros [H _]. discriminate H.
Qed.

(** C7, as stated, fails: after [fetchEvent] has stored the message of a
    rejected request it commits once more, [loading = false]; the error
    commit is not its last. *)
Lemma fetchEvent_commits_after_error :
  ~ stops_at_error
      (snd (fst (Store.dispatch
                   (Store.fetchEvent (num:=Z) (fun s => s)
                      (Js.Throw network_error))
                   Store.initial)))
      (Js.message network_error).
Proof.
  cbn. intros [before Hb].
  apply (f_equal (@rev _)) in Hb. rewrite rev_app_distr in Hb.
  cbn in Hb. discriminate Hb.
Qed.


(** * Properties of the scene renderer *)

Section SceneFacts.

Variable num : Type.
Context `{JsNumber num}.

(** ** The track of one particle *)

Lemma track_loop_unrolls (pt phi pz : num) (fuel : nat) :
  forall (j : nat) (points : list (Scene.Vector3 num)),
    (j + fuel = 51)%nat ->
    Scene.track_loop fuel (Z.of_nat j) pt phi pz points =
      points ++ map (fun n => Scene.sample pt phi pz (Z.of_nat n)) (seq j fuel).
Proof.
  induction fuel as [|fuel IH]; intros j points Hj; cbn [Scene.track_loop seq map].
  - now rewrite app_nil_r.
  - replace (Z.of_nat j <=? Scene.numPoints) with true
      by (symmetry; apply Z.leb_le; unfold Scene.numPoints; lia).
    replace (Z.of_nat j + 1) with (Z.of_nat (S j)) by lia.
    rewrite IH by lia. now rewrite <- app_assoc.
Qed.

Lemma track_points_samples (pt phi pz : num) :
  Scene.track_points pt phi pz =
    map (fun n => Scene.sample pt phi pz (Z.of_nat n)) (seq 0 51).
Proof.
  unfold Scene.track_points.
  change (Z.to_nat (Scene.numPoints + 1)) with 51%nat.
  exact (@track_loop_unrolls pt phi pz 51 0 [] eq_refl).
Qed.

Lemma track_points_length (pt phi pz : num) :
  List.length (Scene.track_points pt phi pz) = 51%nat.
Proof.
  rewrite track_points_samples. now rewrite length_map, length_seq.
Qed.

Lemma track_points_nth (pt phi pz : num) (j : nat) :
  (j <= 50)%nat ->
  nth_error (Scene.track_points pt phi pz) j =
    Some (Scene.sample pt phi pz (Z.of_nat j)).
Proof.
  intros Hj. rewrite track_points_samples.
  rewrite nth_error_map.
  rewrite (nth_error_nth' (seq 0 51) O) by (rewrite length_seq; lia).
  rewrite seq_nth by lia. reflexivity.
Qed.

(** ** One call of [renderEvent] *)

Ltac unfold_setters :=
  unfold Scene.set_event, Scene.set_canvasContainer, Scene.set_scene,
    Scene.set_camera, Scene.set_renderer, Scene.set_controls,
    Scene.set_showDetector, Scene.set_detectorMeshes,
    Scene.set_particleMeshes, Scene.set_objects, Scene.set_listeners,
    Scene.set_frameRequests.

Ltac run_method :=
  unfold Js.bind, Js.read, Js.modify, Js.prop_of, Js.prop_of_undefined,
    Js.set_prop_of, Js.ret, Js.throw;
  unfold_setters; cbn.

(** Removing the old primitives, on a view that has a scene. *)
Lemma clear_scene (old : list Scene.Ref) :
  forall ev kin cfg cont bg ch cam rnd ctl show dm pm objs ls fr,
    Scene.forEach old (@Scene.scene_remove num)
      (Scene.mkView ev kin cfg cont (Some (Scene.mkSceneGraph bg ch))
         cam rnd ctl show dm pm objs ls fr) =
    (Scene.mkView ev kin cfg cont
       (Some (Scene.mkSceneGraph bg
                (fold_left (fun c r => Scene.remove_first r c) old ch)))
       cam rnd ctl show dm pm objs ls fr,
     Js.Normal tt).
Proof.
  induction old as [|r old IH]; intros; cbn [Scene.forEach fold_left].
  - reflexivity.
  - unfold Js.bind at 1. unfold Scene.scene_remove at 1. run_method.
    apply IH.
Qed.

(** One turn of the outer loop, for a particle all four columns hold. *)
Lemma draw_particle_step (lx ly lz : list num) (lid : list Z) en (i : nat)
    a b c d :
  nth_error lx i = Some a -> nth_error ly i = Some b ->
  nth_error lz i = Some c -> nth_error lid i = Some d ->
  forall ev kin cfg cont bg ch cam rnd ctl show dm pm objs ls fr,
    Scene.draw_particle
      (mkParticles (Some lx) (Some ly) (Some lz) en (Some lid)) (Z.of_nat i)
      (Scene.mkView ev kin cfg cont (Some (Scene.mkSceneGraph bg ch))
         cam rnd ctl show dm pm objs ls fr) =
    (Scene.mkView ev kin cfg cont
       (Some (Scene.mkSceneGraph bg
                (ch ++ [List.length objs; S (List.length objs)])))
       cam rnd ctl show dm
       (pm ++ [List.length objs; S (List.length objs)])
       (objs ++ drawn_particle a b c d) ls fr,
     Js.Normal tt).
Proof.
  intros Ha Hb Hc Hd. intros.
  unfold Scene.draw_particle, Scene.column_at, Scene.create, Scene.scene_add.
  run_method. rewrite Nat2Z.id, Ha, Hb, Hc, Hd. cbn.
  rewrite length_app. cbn [List.length]. rewrite Nat.add_1_r.
  rewrite <- !app_assoc. reflexivity.
Qed.

Lemma drawn_step (lx ly lz : list num) (lid : list Z) (i k : nat) :
  drawn lx ly lz lid i (S k) =
    drawn_particle (nth i lx NaN) (nth i ly NaN) (nth i lz NaN) (nth i lid 0)
      ++ drawn lx ly lz lid (S i) k.
Proof. reflexivity. Qed.

Lemma drawn_length (lx ly lz : list num) (lid : list Z) (k : nat) :
  forall i, List.length (drawn lx ly lz lid i k) = (2 * k)%nat.
Proof.
  induction k as [|k IH]; intros i; [reflexivity|].
  rewrite drawn_step, length_app, IH. cbn [drawn_particle List.length]. lia.
Qed.

(** The outer loop, from particle [i] on, when the columns are parallel
    arrays of [M] entries. *)
Lemma draw_loop (lx ly lz : list num) (lid : list Z) en (M : nat) :
  List.length lx = M -> List.length ly = M -> List.length lz = M ->
  List.length lid = M ->
  forall (k i : nat), (i + k = M)%nat ->
  forall ev kin cfg cont bg ch cam rnd ctl show dm pm objs ls fr,
    Scene.for_loop k (Z.of_nat i) (fun i => i <? Z.of_nat M)
      (Scene.draw_particle
         (mkParticles (Some lx) (Some ly) (Some lz) en (Some lid)))
      (Scene.mkView ev kin cfg cont (Some (Scene.mkSceneGraph bg ch))
         cam rnd ctl show dm pm objs ls fr) =
    (Scene.mkView ev kin cfg cont
       (Some (Scene.mkSceneGraph bg
                (ch ++ seq (List.length objs) (2 * k))))
       cam rnd ctl show dm
       (pm ++ seq (List.length objs) (2 * k))
       (objs ++ drawn lx ly lz lid i k) ls fr,
     Js.Normal tt).
Proof.
  intros Hx Hy Hz Hid.
  induction k as [|k IH]; intros i Hik; intros; cbn [Scene.for_loop].
  - cbn [Nat.mul seq drawn flat_map]. now rewrite !app_nil_r.
  - replace (Z.of_nat i <? Z.of_nat M) with true
      by (symmetry; apply Z.ltb_lt; lia).
    unfold Js.bind at 1.
    rewrite (@draw_particle_step lx ly lz lid en i
               (nth i lx NaN) (nth i ly NaN) (nth i lz NaN) (nth i lid 0))
      by (apply nth_error_nth'; lia).
    replace (Z.of_nat i + 1) with (Z.of_nat (S i)) by lia.
    rewrite IH by lia.
    rewrite drawn_step, length_app.
    cbn [drawn_particle List.length].
    replace (2 * S k)%nat with (S (S (2 * k))) by lia.
    cbn [seq]. rewrite <- !app_assoc. cbn [app].
    replace (List.length objs + 2)%nat with (S (S (List.length objs))) by lia.
    reflexivity.
Qed.

(** What [renderEvent] does on a view that has a scene, for an event
    whose columns are parallel arrays of [M] entries. *)
Lemma renderEvent_draws (v : Scene.View num) g e ps lx ly lz lid (M : nat) :
  Scene.scene v = Some g -> Scene.event v = Some e ->
  particles e = Some ps -> parallel ps lx ly lz lid M ->
  let n := List.length (Scene.objects v) in
  let kept := fold_left (fun c r => Scene.remove_first r c)
                (Scene.particleMeshes v) (Scene.children g) in
  Scene.renderEvent v =
    (Scene.set_objects (Scene.objects v ++ drawn lx ly lz lid 0 M)
       (Scene.set_particleMeshes (seq n (2 * M))
          (Scene.set_scene
             (Some (Scene.mkSceneGraph (Scene.background g)
                      (kept ++ seq n (2 * M)))) v)),
     Js.Normal tt).
Proof.
  intros Hg He Hps (Hx & Hy & Hz & Hid & Lx & Ly & Lz & Lid).
  destruct v as [ev kin cfg cont sc cam rnd ctl show dm pm objs ls fr].
  destruct ps as [cx cy cz en cid]. destruct g as [bg ch].
  cbn in Hg, He, Hx, Hy, Hz, Hid. subst ev sc cx cy cz cid.
  cbv zeta. cbn [Scene.objects Scene.particleMeshes Scene.children
                 Scene.background].
  unfold Scene.renderEvent.
  unfold Js.bind at 1. unfold Js.read at 1. cbn [Scene.particleMeshes].
  unfold Js.bind at 1. rewrite clear_scene.
  run_method. rewrite Hps. run_method. rewrite Lx.
  pose proof (@draw_loop lx ly lz lid en M Lx Ly Lz Lid M 0 (Nat.add_0_l M))
    as Hloop.
  cbn [Z.of_nat] in Hloop. rewrite Hloop. unfold_setters. reflexivity.
Qed.

Lemma lookup_appended {A} (l2 : list A) :
  forall l1,
    map (fun r => nth_error (l1 ++ l2) r) (seq (List.length l1) (List.length l2))
    = map Some l2.
Proof.
  induction l2 as [|a l2 IH]; intros l1; [reflexivity|].
  cbn [List.length seq map]. f_equal.
  - rewrite nth_error_app2, Nat.sub_diag by lia. reflexivity.
  - specialize (IH (l1 ++ [a])).
    rewrite <- app_assoc, length_app in IH. cbn [List.length app] in IH.
    rewrite Nat.add_1_r in IH. exact IH.
Qed.

(** The outcome of [renderEvent] in terms of the primitives it leaves. *)
Lemma renderEvent_primitives (v : Scene.View num) g e ps lx ly lz lid
    (M : nat) :
  Scene.scene v = Some g -> Scene.event v = Some e ->
  particles e = Some ps -> parallel ps lx ly lz lid M ->
  snd (Scene.renderEvent v) = Js.Normal tt /\
  primitives (fst (Scene.renderEvent v)) = map Some (drawn lx ly lz lid 0 M) /\
  Scene.particleMeshes (fst (Scene.renderEvent v)) =
    seq (List.length (Scene.objects v)) (2 * M) /\
  scene_children (fst (Scene.renderEvent v)) =
    fold_left (fun c r => Scene.remove_first r c)
      (Scene.particleMeshes v) (Scene.children g)
    ++ seq (List.length (Scene.objects v)) (2 * M) /\
  Scene.objects (fst (Scene.renderEvent v)) =
    Scene.objects v ++ drawn lx ly lz lid 0 M.
Proof.
  intros Hg He Hps Hpar.
  rewrite (renderEvent_draws v Hg He Hps Hpar). cbv zeta.
  unfold primitives, scene_children. unfold_setters.
  cbn [fst snd Scene.objects Scene.particleMeshes Scene.scene Scene.children].
  repeat split.
  rewrite <- (drawn_length lx ly lz lid M 0). apply lookup_appended.
Qed.

Lemma drawn_nth (lx ly lz : list num) (lid : list Z) (k : nat) :
  forall i j, (j < k)%nat ->
    nth_error (drawn lx ly lz lid i k) (2 * j) =
      nth_error (drawn_particle (nth (i + j) lx NaN) (nth (i + j) ly NaN)
                   (nth (i + j) lz NaN) (nth (i + j) lid 0)) 0 /\
    nth_error (drawn lx ly lz lid i k) (2 * j + 1) =
      nth_error (drawn_particle (nth (i + j) lx NaN) (nth (i + j) ly NaN)
                   (nth (i + j) lz NaN) (nth (i + j) lid 0)) 1.
Proof.
  induction k as [|k IH]; intros i j Hj; [lia|].
  rewrite drawn_step. destruct j as [|j].
  - rewrite Nat.add_0_r. split; reflexivity.
  - replace (2 * S j)%nat with (S (S (2 * j))) by lia.
    replace (i + S j)%nat with (S i + j)%nat by lia.
    cbn [drawn_particle app nth_error Nat.add].
    apply IH. lia.
Qed.

Lemma drawn_tracks_and_markers (lx ly lz : list num) (lid : list Z)
    (k : nat) :
  forall i,
    List.length (filter (@is_track num) (map Some (drawn lx ly lz lid i k))) = k /\
    List.length (filter (@is_marker num) (map Some (drawn lx ly lz lid i k))) = k.
Proof.
  induction k as [|k IH]; intros i; [split; reflexivity|].
  rewrite drawn_step. cbn [drawn_particle app map filter is_track is_marker
                           Scene.new List.length].
  destruct (IH (S i)) as [Ht Hm]. now rewrite Ht, Hm.
Qed.

(** The primitive at a position of the list, [None] beyond its end. *)
Lemma primitive_at (lx ly lz : list num) (lid : list Z) (M i : nat) :
  (i < M)%nat ->
  nth (2 * i) (map Some (drawn lx ly lz lid 0 M)) None =
    nth_error (drawn_particle (nth i lx NaN) (nth i ly NaN) (nth i lz NaN)
                 (nth i lid 0)) 0 /\
  nth (2 * i + 1) (map Some (drawn lx ly lz lid 0 M)) None =
    nth_error (drawn_particle (nth i lx NaN) (nth i ly NaN) (nth i lz NaN)
                 (nth i lid 0)) 1.
Proof.
  intros Hi.
  destruct (@drawn_nth lx ly lz lid M 0 i Hi) as [H0 H1].
  cbn [Nat.add] in H0, H1.
  assert (Hnth : forall (l : list (Scene.Object3D num)) n,
             nth n (map Some l) None = nth_error l n).
  { induction l as [|a l IHl]; intros [|n]; cbn; auto. }
  now rewrite !Hnth, H0, H1.
Qed.

Lemma remove_first_subset (r x : Scene.Ref) (l : list Scene.Ref) :
  In x (Scene.remove_first r l) -> In x l.
Proof.
  induction l as [|a l IH]; cbn [Scene.remove_first]; [auto|].
  destruct (Nat.eqb r a); cbn [In]; tauto.
Qed.

Lemma remove_first_NoDup (r : Scene.Ref) (l : list Scene.Ref) :
  NoDup l -> NoDup (Scene.remove_first r l) /\ ~ In r (Scene.remove_first r l).
Proof.
  induction 1 as [|a l Ha Hl IH]; cbn [Scene.remove_first].
  - split; [constructor | auto].
  - destruct (Nat.eqb_spec r a) as [->|Hra]; [now split|].
    destruct IH as [IH1 IH2]. split.
    + constructor; [|exact IH1]. intros Hin. apply Ha.
      now apply remove_first_subset in Hin.
    + cbn [In]. intros [Heq|Hin]; [now apply Hra | now apply IH2].
Qed.

Lemma cleared_children (old : list Scene.Ref) :
  forall ch, NoDup ch ->
    NoDup (fold_left (fun c r => Scene.remove_first r c) old ch) /\
    (forall x, In x (fold_left (fun c r => Scene.remove_first r c) old ch) ->
               In x ch /\ ~ In x old).
Proof.
  induction old as [|r old IH]; intros ch Hch; cbn [fold_left].
  - split; [exact Hch | intros x Hx; split; [exact Hx | auto]].
  - destruct (remove_first_NoDup r Hch) as [Hnd Hr].
    destruct (IH _ Hnd) as [IH1 IH2]. split; [exact IH1|].
    intros x Hx. destruct (IH2 x Hx) as [Hin Hnot]. split.
    + now apply remove_first_subset in Hin.
    + cbn [In]. intros [<-|Hold]; [now apply Hr | now apply Hnot].
Qed.

(** ** The claims on [renderEvent] *)

(** C4. For every particle [i] of an event and every [j] from 0 to 50,
    the [j]-th of the 51 points of its polyline is computed at [t = j/50]
    as [r = t * min(pt/20, 3)] with [pt = sqrt(px^2 + py^2)], planar
    position [(r cos phi, r sin phi)] with [phi = atan2(py, px)] and
    longitudinal position [z = t * pz / 10]; the point emitted is
    [(x, z, y)]. *)
Theorem renderEvent_sample_points (v : Scene.View num) g e ps lx ly lz lid
    (M : nat) :
  Scene.scene v = Some g -> Scene.event v = Some e ->
  particles e = Some ps -> parallel ps lx ly lz lid M ->
  forall i j, (i < M)%nat -> (j <= 50)%nat ->
    let px := nth i lx NaN in
    let py := nth i ly NaN in
    let pz := nth i lz NaN in
    let pt := Math_sqrt (num_add (num_mul px px) (num_mul py py)) in
    let phi := Math_atan2 py px in
    let t := num_div (lit (Z.of_nat j)) (lit 50) in
    let r := num_mul t (Math_min (num_div pt (lit 20)) (lit 3)) in
    let x := num_mul r (Math_cos phi) in
    let y := num_mul r (Math_sin phi) in
    let z := num_div (num_mul t pz) (lit 10) in
    let polyline :=
      points_of (nth (2 * i) (primitives (fst (Scene.renderEvent v))) None) in
    List.length polyline = 51%nat /\
    nth_error polyline j = Some (Scene.mkVector3 x z y).
Proof.
  intros Hg He Hps Hpar i j Hi Hj. cbv zeta.
  destruct (renderEvent_primitives v Hg He Hps Hpar) as (_ & -> & _).
  destruct (@primitive_at lx ly lz lid M i Hi) as [-> _].
  cbn [drawn_particle nth_error points_of Scene.new]. unfold track_of.
  split; [apply track_points_length | now apply track_points_nth].
Qed.

(** C5. For every event whose particle arrays have [M] entries, and
    whatever the view held before, one call of [renderEvent] leaves
    exactly [2 * M] per-event primitives: [M] polylines of 51 points and
    [M] origin markers, a polyline and its marker for each particle. The
    primitives of earlier calls are taken out of the scene first: the
    scene keeps none of them. *)
Theorem renderEvent_emits (v : Scene.View num) g e ps lx ly lz lid
    (M : nat) :
  Scene.scene v = Some g -> Scene.event v = Some e ->
  particles e = Some ps -> parallel ps lx ly lz lid M ->
  let v' := fst (Scene.renderEvent v) in
  snd (Scene.renderEvent v) = Js.Normal tt /\
  List.length (primitives v') = (2 * M)%nat /\
  List.length (filter (@is_track num) (primitives v')) = M /\
  List.length (filter (@is_marker num) (primitives v')) = M /\
  (forall i, (i < M)%nat ->
     is_track (nth (2 * i) (primitives v') None) = true /\
     List.length (points_of (nth (2 * i) (primitives v') None)) = 51%nat /\
     is_marker (nth (2 * i + 1) (primitives v') None) = true) /\
  scene_children v' =
    fold_left (fun c r => Scene.remove_first r c)
      (Scene.particleMeshes v) (Scene.children g)
    ++ Scene.particleMeshes v' /\
  (NoDup (Scene.children g) ->
   (forall r, In r (Scene.particleMeshes v) ->
              (r < List.length (Scene.objects v))%nat) ->
   forall r, In r (Scene.particleMeshes v) ->
     ~ In r (scene_children v') /\ ~ In r (Scene.particleMeshes v')).
Proof.
  intros Hg He Hps Hpar. cbv zeta.
  destruct (renderEvent_primitives v Hg He Hps Hpar)
    as (Hrun & Hprims & Hpm & Hch & _).
  rewrite Hprims, Hpm, Hch.
  destruct (@drawn_tracks_and_markers lx ly lz lid M 0) as [Ht Hm].
  repeat split; auto.
  - now rewrite length_map, drawn_length.
  - destruct (@primitive_at lx ly lz lid M i H0) as [-> _]. reflexivity.
  - destruct (@primitive_at lx ly lz lid M i H0) as [-> _].
    cbn [drawn_particle nth_error points_of Scene.new]. unfold track_of.
    apply track_points_length.
  - destruct (@primitive_at lx ly lz lid M i H0) as [_ ->]. reflexivity.
  - intros Hin. apply in_app_or in Hin. destruct Hin as [Hin|Hin].
    + destruct (cleared_children (Scene.particleMeshes v) H0) as [_ Hkept].
      now destruct (Hkept r Hin).
    + apply in_seq in Hin. specialize (H1 r H2). lia.
  - intros Hin. apply in_seq in Hin. specialize (H1 r H2). lia.
Qed.

(** Clearing leaves in the scene every child that is not an old
    primitive. *)
Lemma remove_first_keeps (r x : Scene.Ref) (l : list Scene.Ref) :
  x <> r -> In x l -> In x (Scene.remove_first r l).
Proof.
  intros Hx. induction l as [|a l IH]; cbn [Scene.remove_first In]; [auto|].
  destruct (Nat.eqb_spec r a) as [->|Hra]; cbn [In]; intuition congruence.
Qed.

Lemma cleared_keeps (old : list Scene.Ref) :
  forall ch x, ~ In x old -> In x ch ->
    In x (fold_left (fun c r => Scene.remove_first r c) old ch).
Proof.
  induction old as [|r old IH]; intros ch x Hx Hin; cbn [fold_left];
    [exact Hin|].
  apply IH; [intros Hold; apply Hx; now right|].
  apply remove_first_keeps; [|exact Hin].
  intros ->. apply Hx. now left.
Qed.

(** What [renderEvent] does when there is nothing to draw: the old
    primitives are taken out of the scene, one by one, and the list of
    primitives is emptied; nothing else of the view changes. *)
Lemma renderEvent_returns_early ev kin cfg cont sc cam rnd ctl show dm pm
    objs ls fr :
  sc <> None \/ pm = [] ->
  ev = None \/ (exists e : Event num, ev = Some e /\ particles e = None) ->
  Scene.renderEvent
    (Scene.mkView ev kin cfg cont sc cam rnd ctl show dm pm objs ls fr) =
  (Scene.mkView ev kin cfg cont
     (match sc with
      | Some g =>
          Some (Scene.mkSceneGraph (Scene.background g)
                  (fold_left (fun c r => Scene.remove_first r c) pm
                     (Scene.children g)))
      | None => None
      end)
     cam rnd ctl show dm [] objs ls fr,
   Js.Normal tt).
Proof.
  intros Hscene Hev. unfold Scene.renderEvent.
  unfold Js.bind at 1. unfold Js.read at 1. cbn [Scene.particleMeshes].
  unfold Js.bind at 1.
  destruct sc as [[bg ch]|].
  - rewrite clear_scene. run_method.
    destruct Hev as [->|(e & -> & Hps)]; [|rewrite Hps]; reflexivity.
  - destruct Hscene as [Hsc| ->]; [contradiction|].
    cbn [Scene.forEach]. run_method.
    destruct Hev as [->|(e & -> & Hps)]; [|rewrite Hps]; reflexivity.
Qed.

(** C8. When the event is absent, or has no [particles], [renderEvent]
    returns without throwing and leaves no per-event primitive: nothing
    is created, the list of primitives is emptied, and the scene holds
    what is left of its children once the old primitives are removed,
    so none of them (when the scene held each child once) and every
    other child. The same holds once the view has been torn down. *)
Theorem renderEvent_nothing_to_draw (v : Scene.View num) :
  Scene.scene v <> None \/ Scene.particleMeshes v = [] ->
  Scene.event v = None \/
    (exists e, Scene.event v = Some e /\ particles e = None) ->
  let cleared :=
    fold_left (fun c r => Scene.remove_first r c)
      (Scene.particleMeshes v) (scene_children v) in
  (snd (Scene.renderEvent v) = Js.Normal tt /\
   primitives (fst (Scene.renderEvent v)) = [] /\
   Scene.particleMeshes (fst (Scene.renderEvent v)) = [] /\
   Scene.objects (fst (Scene.renderEvent v)) = Scene.objects v /\
   scene_children (fst (Scene.renderEvent v)) = cleared /\
   (NoDup (scene_children v) ->
    forall r, In r (Scene.particleMeshes v) ->
      ~ In r (scene_children (fst (Scene.renderEvent v)))) /\
   (forall r, In r (scene_children v) -> ~ In r (Scene.particleMeshes v) ->
      In r (scene_children (fst (Scene.renderEvent v))))) /\
  (let torn := fst (Scene.unmount v) in
   snd (Scene.renderEvent torn) = Js.Normal tt /\
   primitives (fst (Scene.renderEvent torn)) = [] /\
   Scene.particleMeshes (fst (Scene.renderEvent torn)) = [] /\
   Scene.objects (fst (Scene.renderEvent torn)) = Scene.objects v /\
   scene_children (fst (Scene.renderEvent torn)) = cleared).
Proof.
  intros Hscene Hev.
  destruct v as [ev kin cfg cont sc cam rnd ctl show dm pm objs ls fr].
  cbn [Scene.scene Scene.particleMeshes Scene.event Scene.objects] in *.
  cbv zeta.
  assert (Hch : forall g' : option Scene.SceneGraph,
    g' = match sc with
         | Some g =>
             Some (Scene.mkSceneGraph (Scene.background g)
                     (fold_left (fun c r => Scene.remove_first r c) pm
                        (Scene.children g)))
         | None => None
         end ->
    match g' with Some g => Scene.children g | None => [] end =
    fold_left (fun c r => Scene.remove_first r c) pm
      match sc with Some g => Scene.children g | None => [] end).
  { intros g' ->. destruct sc as [g|]; [reflexivity|].
    destruct Hscene as [Hsc| ->]; [contradiction | reflexivity]. }
  split.
  - rewrite (renderEvent_returns_early kin cfg cont cam rnd ctl show dm
               objs ls fr Hscene Hev).
    unfold primitives, scene_children.
    cbn [fst snd Scene.scene Scene.particleMeshes Scene.objects map].
    rewrite (Hch _ eq_refl).
    split; [reflexivity|]. split; [reflexivity|]. split; [reflexivity|].
    split; [reflexivity|]. split; [reflexivity|]. split.
    + intros Hnd r Hr Hin.
      destruct (cleared_children pm Hnd) as [_ Hkept].
      now destruct (Hkept r Hin).
    + intros r Hin Hnot. now apply cleared_keeps.
  - assert (Htorn : exists rnd' ctl',
      fst (Scene.unmount
             (Scene.mkView ev kin cfg cont sc cam rnd ctl show dm pm objs
                ls fr)) =
      Scene.mkView ev kin cfg None sc cam rnd' ctl' show dm pm objs ls fr).
    { unfold Scene.unmount, Scene.beforeUnmount.
      destruct rnd as [r|], ctl as [c|]; run_method;
        do 2 eexists; reflexivity. }
    destruct Htorn as (rnd' & ctl' & ->).
    rewrite (renderEvent_returns_early kin cfg None cam rnd' ctl' show dm
               objs ls fr Hscene Hev).
    unfold primitives, scene_children.
    cbn [fst snd Scene.scene Scene.particleMeshes Scene.objects map].
    rewrite (Hch _ eq_refl).
    split; [reflexivity|]. split; [reflexivity|]. split; [reflexivity|].
    split; reflexivity.
Qed.

Lemma species_color_table (id : Z) :
  Scene.species_color (Scene.Math_abs (Some id)) = color_table (Z.abs id).
Proof. reflexivity. Qed.

(** C9. The color of the track and of the origin marker of a particle is
    a function of the absolute value of its [pdg_id] alone: red for 11,
    green for 13, yellow for 22 and cyan for every other code, whatever
    the place of the particle in the event; the polyline and its marker
    have the same color. *)
Theorem renderEvent_colors (v : Scene.View num) g e ps lx ly lz lid
    (M : nat) :
  Scene.scene v = Some g -> Scene.event v = Some e ->
  particles e = Some ps -> parallel ps lx ly lz lid M ->
  (forall i, (i < M)%nat ->
     let code := Z.abs (nth i lid 0) in
     let prims := primitives (fst (Scene.renderEvent v)) in
     color_of (nth (2 * i) prims None) = Some (color_table code) /\
     color_of (nth (2 * i + 1) prims None) = Some (color_table code)) /\
  color_table 11 = 0xff0000 /\ color_table 13 = 0x00ff00 /\
  color_table 22 = 0xffff00 /\
  (forall code, code <> 11 -> code <> 13 -> code <> 22 ->
     color_table code = 0x00ffff).
Proof.
  intros Hg He Hps Hpar. split; [|repeat split].
  - intros i Hi. cbv zeta.
    destruct (renderEvent_primitives v Hg He Hps Hpar) as (_ & -> & _).
    destruct (@primitive_at lx ly lz lid M i Hi) as [-> ->].
    split; reflexivity.
  - intros code H11 H13 H22. unfold color_table.
    destruct (Z.eqb_spec code 11); [contradiction|].
    destruct (Z.eqb_spec code 13); [contradiction|].
    destruct (Z.eqb_spec code 22); [contradiction|]. reflexivity.
Qed.

(** A call that draws keeps the view well formed. *)
Lemma renderEvent_well_formed (v : Scene.View num) g e ps lx ly lz lid
    (M : nat) :
  Scene.scene v = Some g -> Scene.event v = Some e ->
  particles e = Some ps -> parallel ps lx ly lz lid M ->
  well_formed v -> well_formed (fst (Scene.renderEvent v)).
Proof.
  intros Hg He Hps Hpar (Hnd & Hch & Hpm).
  unfold well_formed.
  destruct (renderEvent_primitives v Hg He Hps Hpar)
    as (_ & _ & -> & -> & ->).
  unfold scene_children in Hnd, Hch. rewrite Hg in Hnd, Hch.
  destruct (cleared_children (Scene.particleMeshes v) Hnd) as [Hnd' Hkept].
  rewrite length_app, drawn_length.
  split; [|split].
  - apply NoDup_app; [exact Hnd' | apply seq_NoDup |].
    intros r Hr Hs. apply in_seq in Hs.
    destruct (Hkept r Hr) as [Hin _]. specialize (Hch r Hin). lia.
  - intros r Hr. apply in_app_or in Hr. destruct Hr as [Hr|Hr].
    + destruct (Hkept r Hr) as [Hin _]. specialize (Hch r Hin). lia.
    + apply in_seq in Hr. lia.
  - intros r Hr. apply in_seq in Hr. lia.
Qed.

(** ** Teardown and the render loop *)

(** [beforeUnmount] on any view. *)
Lemma beforeUnmount_run ev kin cfg cont sc cam rnd ctl show dm pm objs ls fr :
  Scene.beforeUnmount
    (Scene.mkView ev kin cfg cont sc cam rnd ctl show dm pm objs ls fr) =
  (Scene.mkView ev kin cfg cont sc cam
     (option_map (@disposed_renderer num) rnd)
     (option_map (@disposed_controls num) ctl)
     show dm pm objs ls fr,
   Js.Normal tt).
Proof.
  unfold Scene.beforeUnmount.
  destruct rnd as [r|], ctl as [c|]; run_method; reflexivity.
Qed.

(** One frame of a view whose loop is running. *)
Lemma animation_frame_run ev kin cfg cont sc cam r c show dm pm objs ls :
  Scene.animation_frame
    (Scene.mkView ev kin cfg cont sc cam (Some r) (Some c) show dm pm objs
       ls [Scene.cb_animate]) =
  (Scene.mkView ev kin cfg cont sc cam
     (Some (Scene.mkRenderer (Scene.width r) (Scene.height r)
              (Scene.renderer_disposed r) (S (Scene.renderCalls r))))
     (Some (Scene.mkControls (Scene.enableDamping c) (Scene.dampingFactor c)
              (Scene.controls_disposed c) (S (Scene.controlUpdates c))))
     show dm pm objs ls [Scene.cb_animate],
   Js.Normal tt).
Proof.
  unfold Scene.animation_frame, Scene.invoke, Scene.run, Scene.animate.
  cbn [Scene.forEach]. unfold Js.try_catch. run_method. reflexivity.
Qed.

Lemma frames_run (n : nat) :
  forall ev kin cfg cont sc cam r c show dm pm objs ls,
  exists r' c',
    Scene.frames n
      (Scene.mkView ev kin cfg cont sc cam (Some r) (Some c) show dm pm objs
         ls [Scene.cb_animate]) =
    (Scene.mkView ev kin cfg cont sc cam (Some r') (Some c') show dm pm objs
       ls [Scene.cb_animate],
     Js.Normal tt) /\
    Scene.renderCalls r' = (Scene.renderCalls r + n)%nat /\
    Scene.renderer_disposed r' = Scene.renderer_disposed r.
Proof.
  induction n as [|n IH]; intros; cbn [Scene.frames].
  - exists r, c. repeat split. lia.
  - unfold Js.bind. rewrite animation_frame_run.
    edestruct IH as (r' & c' & -> & Hcalls & Hdisp).
    exists r', c'. repeat split.
    + rewrite Hcalls. cbn [Scene.renderCalls]. lia.
    + rewrite Hdisp. reflexivity.
Qed.

(** C2 (as amended). Teardown disposes the renderer and the controls,
    when there are any, and nothing more: the pending request of the
    render loop and the listeners of [window] are left as they were.
    So, for a view whose loop is running and whose resize handler is
    registered, after teardown the loop still draws every frame and
    asks for the next one, and the handler is still registered; run
    after teardown, when the container is gone, it changes nothing. *)
Theorem teardown_keeps_loop_and_listener (v : Scene.View num) :
  (snd (Scene.unmount v) = Js.Normal tt /\
   Scene.renderer (fst (Scene.unmount v)) =
     option_map (@disposed_renderer num) (Scene.renderer v) /\
   Scene.controls (fst (Scene.unmount v)) =
     option_map (@disposed_controls num) (Scene.controls v) /\
   Scene.frameRequests (fst (Scene.unmount v)) = Scene.frameRequests v /\
   Scene.listeners (fst (Scene.unmount v)) = Scene.listeners v) /\
  (Scene.renderer v <> None -> Scene.controls v <> None ->
   Scene.frameRequests v = [Scene.cb_animate] ->
   Scene.listeners v = [("resize"%string, Scene.cb_onWindowResize)] ->
   let torn := fst (Scene.unmount v) in
   (forall n,
      Scene.frameRequests (fst (Scene.frames n torn)) = [Scene.cb_animate] /\
      render_calls (fst (Scene.frames n torn)) = (render_calls v + n)%nat /\
      Scene.listeners (fst (Scene.frames n torn)) =
        [("resize"%string, Scene.cb_onWindowResize)]) /\
   Scene.window_resize torn = (torn, Js.Normal tt)).
Proof.
  destruct v as [ev kin cfg cont sc cam rnd ctl show dm pm objs ls fr].
  unfold Scene.unmount, Js.bind. rewrite beforeUnmount_run.
  run_method. split; [repeat split|].
  intros Hr Hc -> ->.
  destruct rnd as [r|]; [|contradiction]. destruct ctl as [c|]; [|contradiction].
  cbn [option_map]. split.
  - intros n.
    edestruct (frames_run n) as (r' & c' & -> & Hcalls & _).
    unfold render_calls. cbn. rewrite Hcalls. repeat split.
  - unfold Scene.window_resize, Scene.invoke, Scene.run, Scene.onWindowResize.
    unfold Js.try_catch. run_method. reflexivity.
Qed.

End SceneFacts.

(** ** Concrete runs of the scene *)

Lemma sample_parallel :
  parallel sample_particles [3%R; 0%R] [4%R; 0%R] [5%R; 1%R] [11; -13] 2.
Proof. repeat split. Defined.

(** C4, at the last point of the track of the first sample particle. *)
Lemma renderEvent_sample_points_witness :
  let pt := sqrt (3 * 3 + 4 * 4) in
  let phi := Ratan2 4 3 in
  let t := (IZR 50 / 50)%R in
  let r := (t * Rmin (pt / 20) 3)%R in
  let polyline :=
    points_of (nth 0 (primitives (fst (Scene.renderEvent sample_view))) None) in
  List.length polyline = 51%nat /\
  nth_error polyline 50 =
    Some (Scene.mkVector3 (r * cos phi) (t * 5 / 10) (r * sin phi))%R.
Proof.
  exact (@renderEvent_sample_points R RealNumber sample_view empty_scene
           sample_event sample_particles _ _ _ _ 2
           eq_refl eq_refl eq_refl sample_parallel
           0%nat 50%nat (Nat.lt_0_succ 1) (Nat.le_refl 50)).
Defined.

(** C5, at the sample event drawn a second time: the four primitives of
    the first call are replaced by four new ones. *)
Lemma renderEvent_emits_witness :
  let v' := fst (Scene.renderEvent sample_view_drawn) in
  List.length (primitives v') = 4%nat /\
  Scene.particleMeshes v' = [4; 5; 6; 7]%nat /\
  ~ In 0%nat (scene_children v').
Proof.
  destruct (@renderEvent_emits R RealNumber sample_view_drawn drawn_scene
              sample_event sample_particles _ _ _ _ 2
              eq_refl eq_refl eq_refl sample_parallel)
    as (_ & Hlen & _ & _ & _ & _ & Hold).
  assert (Hnd : NoDup (Scene.children drawn_scene)).
  { unfold drawn_scene. cbn [Scene.children].
    repeat constructor; cbn [In]; intuition discriminate. }
  assert (Hrefs : forall r, In r (Scene.particleMeshes sample_view_drawn) ->
                            (r < List.length (Scene.objects sample_view_drawn))%nat).
  { change (Scene.particleMeshes sample_view_drawn) with [0; 1; 2; 3]%nat.
    change (List.length (Scene.objects sample_view_drawn)) with 4%nat.
    cbn [In]. intros r Hr. intuition lia. }
  assert (H0 : In 0%nat (Scene.particleMeshes sample_view_drawn)).
  { change (Scene.particleMeshes sample_view_drawn) with [0; 1; 2; 3]%nat.
    left. reflexivity. }
  split; [exact Hlen | split; [reflexivity|]].
  exact (proj1 (Hold Hnd Hrefs 0%nat H0)).
Defined.

(** C8, at the drawn sample view once its event has lost its
    [particles]: the four primitives of the first call leave the scene. *)
Lemma renderEvent_nothing_to_draw_witness :
  snd (Scene.renderEvent sample_view_stale) = Js.Normal tt /\
  primitives (fst (Scene.renderEvent sample_view_stale)) = [] /\
  Scene.particleMeshes sample_view_stale = [0; 1; 2; 3]%nat /\
  scene_children sample_view_stale = [0; 1; 2; 3]%nat /\
  scene_children (fst (Scene.renderEvent sample_view_stale)) = [] /\
  scene_children
    (fst (Scene.renderEvent (fst (Scene.unmount sample_view_stale)))) = [].
Proof.
  assert (Hpm : Scene.particleMeshes sample_view_stale = [0; 1; 2; 3]%nat)
    by reflexivity.
  assert (Hch : scene_children sample_view_stale = [0; 1; 2; 3]%nat)
    by reflexivity.
  assert (Hscene : Scene.scene sample_view_stale <> None \/
                   Scene.particleMeshes sample_view_stale = [])
    by (left; discriminate).
  assert (Hev : Scene.event sample_view_stale = None \/
                exists e, Scene.event sample_view_stale = Some e /\
                          particles e = None).
  { right. exists (mkEvent "evt-0002" 0 None). split; reflexivity. }
  destruct (@renderEvent_nothing_to_draw R RealNumber sample_view_stale
              Hscene Hev)
    as [(Hrun & Hprims & _ & _ & Hcleared & _) (_ & _ & _ & _ & Htorn)].
  rewrite Hpm, Hch in Hcleared, Htorn.
  split; [exact Hrun|]. split; [exact Hprims|]. split; [exact Hpm|].
  split; [exact Hch|]. split; [exact Hcleared | exact Htorn].
Defined.

(** C9, at the second sample particle, an antimuon. *)
Lemma renderEvent_colors_witness :
  let prims := primitives (fst (Scene.renderEvent sample_view)) in
  color_of (nth 2 prims None) = Some green /\
  color_of (nth 3 prims None) = Some green.
Proof.
  exact (proj1
    (@renderEvent_colors R RealNumber sample_view empty_scene
       sample_event sample_particles _ _ _ _ 2
       eq_refl eq_refl eq_refl sample_parallel)
    1%nat (Nat.lt_succ_diag_r 1)).
Defined.

Lemma mounted_view_running :
  Scene.renderer mounted_view <> None /\ Scene.controls mounted_view <> None /\
  Scene.frameRequests mounted_view = [Scene.cb_animate] /\
  Scene.listeners mounted_view = [("resize"%string, Scene.cb_onWindowResize)].
Proof.
  repeat split; try (vm_compute; reflexivity);
    intros Hnone; vm_compute in Hnone; discriminate Hnone.
Defined.

(** C2, at the mounted view: after teardown and three frames the loop
    is still pending and has drawn three more frames. *)
Lemma teardown_keeps_loop_and_listener_witness :
  let torn := fst (Scene.unmount mounted_view) in
  Scene.frameRequests (fst (Scene.frames 3 torn)) = [Scene.cb_animate] /\
  render_calls (fst (Scene.frames 3 torn)) = (render_calls mounted_view + 3)%nat.
Proof.
  destruct mounted_view_running as (Hr & Hc & Hf & Hl).
  destruct (proj1 (proj2 (teardown_keeps_loop_and_listener mounted_view)
                     Hr Hc Hf Hl) 3%nat) as (Hreq & Hcalls & _).
  exact (conj Hreq Hcalls).
Defined.

(** C2, as stated, fails: after the mounted view is torn down the
    request of the render loop is still pending and the resize listener
    is still registered; three frames later the renderer has been asked
    for three more frames and the next request is pending. *)
Lemma teardown_cancels_nothing :
  let torn := fst (Scene.unmount mounted_view) in
  ~ render_loop_cancelled torn /\
  ~ resize_listener_removed torn /\
  ~ render_loop_cancelled (fst (Scene.frames 3 torn)) /\
  render_calls (fst (Scene.frames 3 torn)) = (render_calls torn + 3)%nat.
Proof.
  cbv zeta. unfold render_loop_cancelled, resize_listener_removed.
  assert (Hpending :
    Scene.frameRequests (fst (Scene.unmount mounted_view))
    = [Scene.cb_animate]) by (vm_compute; reflexivity).
  assert (Hlistening :
    Scene.listeners (fst (Scene.unmount mounted_view))
    = [("resize"%string, Scene.cb_onWindowResize)])
    by (vm_compute; reflexivity).
  assert (Hlater :
    Scene.frameRequests (fst (Scene.frames 3 (fst (Scene.unmount mounted_view))))
    = [Scene.cb_animate]) by (vm_compute; reflexivity).
  rewrite Hpending, Hlistening, Hlater.
  split; [|split; [|split]];
    try (intros Hno; apply Hno; left; reflexivity).
  vm_compute. reflexivity.
Qed.

(** ** The tracks on doubles *)

(** *** Rounding keeps the sign

    The operations of the format round a mantissa that is not negative
    to a zero, a finite double or an infinity of the sign they are
    given, never to [NaN]. *)

Lemma shr_1_nonneg mrs : 0 <= shr_m mrs -> 0 <= shr_m (shr_1 mrs).
Proof.
  destruct mrs as [m r s]. cbn [shr_m]. unfold shr_1.
  destruct m as [|[p|p|]|[p|p|]]; cbn [shr_m]; lia.
Qed.

Lemma iter_shr_1_nonneg p : forall mrs,
  0 <= shr_m mrs -> 0 <= shr_m (SpecFloat.iter_pos shr_1 p mrs).
Proof.
  induction p as [p IH|p IH|]; intros mrs Hm; cbn [SpecFloat.iter_pos].
  - apply IH, IH, shr_1_nonneg, Hm.
  - apply IH, IH, Hm.
  - apply shr_1_nonneg, Hm.
Qed.

Lemma shr_fexp_nonneg m e l :
  0 <= m -> 0 <= shr_m (fst (shr_fexp prec emax m e l)).
Proof.
  intros Hm. unfold shr_fexp, shr.
  assert (H0 : 0 <= shr_m (shr_record_of_loc m l))
    by (destruct l as [|[| |]]; exact Hm).
  destruct (fexp prec emax (Zdigits2 m + e) - e); cbn [fst]; auto.
  now apply iter_shr_1_nonneg.
Qed.

Lemma round_nearest_even_nonneg m l : 0 <= m -> 0 <= round_nearest_even m l.
Proof.
  intros Hm. unfold round_nearest_even.
  destruct l as [|[| |]]; try destruct (Z.even m); lia.
Qed.

Lemma binary_round_aux_signed s m e l :
  0 <= m -> SF_signed s (binary_round_aux prec emax s m e l).
Proof.
  intros Hm. unfold binary_round_aux.
  pose proof (shr_fexp_nonneg e l Hm) as H1.
  destruct (shr_fexp prec emax m e l) as [mrs' e']. cbn [fst] in H1.
  pose proof (shr_fexp_nonneg e' loc_Exact
                (round_nearest_even_nonneg (loc_of_shr_record mrs') H1)) as H2.
  destruct (shr_fexp prec emax _ e' loc_Exact) as [mrs'' e''].
  cbn [fst] in H2.
  destruct (shr_m mrs'') as [|p|p]; [reflexivity| |lia].
  destruct (e'' <=? emax - prec); reflexivity.
Qed.

Lemma binary_round_signed s m e : SF_signed s (binary_round prec emax s m e).
Proof.
  unfold binary_round.
  destruct (shl_align m e _) as [mz ez].
  now apply binary_round_aux_signed.
Qed.

Lemma signed_nonneg x : SF_signed false x -> SF_nonneg x = true.
Proof. destruct x as [s|s| |s m e]; cbn; try intros ->; auto; contradiction. Qed.

Lemma SFmul_self_nonneg x :
  x <> S754_nan -> SF_nonneg (SFmul prec emax x x) = true.
Proof.
  destruct x as [s|s| |s m e]; intros Hx.
  - reflexivity.
  - destruct s; reflexivity.
  - congruence.
  - cbn [SFmul]. apply signed_nonneg.
    rewrite xorb_nilpotent. now apply binary_round_aux_signed.
Qed.

Lemma SFadd_nonneg x y :
  SF_nonneg x = true -> SF_nonneg y = true ->
  SF_nonneg (SFadd prec emax x y) = true.
Proof.
  destruct x as [sx|[|]| |[|] mx ex]; cbn [SF_nonneg]; try discriminate;
    intros _;
    destruct y as [sy|[|]| |[|] my ey]; cbn [SF_nonneg]; try discriminate;
    intros _; try reflexivity.
  - destruct sx, sy; reflexivity.
  - cbn [SFadd cond_Zopp]. 
    cbn [Z.add binary_normalize]. apply signed_nonneg, binary_round_signed.
Qed.

Lemma sqrtrem_nonneg z : 0 <= fst (Z.sqrtrem z).
Proof.
  destruct z as [|p|p]; cbn; try lia.
  destruct (Pos.sqrtrem p) as [s [|r|]]; cbn; lia.
Qed.

Lemma SFsqrt_nonneg x :
  SF_nonneg x = true -> SF_nonneg (SFsqrt prec emax x) = true.
Proof.
  destruct x as [sx|[|]| |[|] mx ex]; cbn [SF_nonneg]; try discriminate;
    intros _; try reflexivity.
  cbn [SFsqrt]. unfold SFsqrt_core_binary.
  set (m' := match _ with Z0 => _ | Zpos _ => _ | Zneg _ => _ end).
  pose proof (sqrtrem_nonneg m') as Hq.
  destruct (Z.sqrtrem m') as [q r]. cbn [fst] in Hq.
  apply signed_nonneg. now apply binary_round_aux_signed.
Qed.

Lemma SFdiv_nonneg x m e :
  SF_nonneg x = true ->
  SF_nonneg (SFdiv prec emax x (S754_finite false m e)) = true.
Proof.
  destruct x as [sx|[|]| |[|] mx ex]; cbn [SF_nonneg]; try discriminate;
    intros _; try reflexivity.
  cbn [SFdiv xorb]. unfold SFdiv_core_binary.
  set (m' := match _ with Z0 => _ | Zpos _ => _ | Zneg _ => _ end).
  assert (Hm' : 0 <= m').
  { unfold m'. destruct (_ - _ - _) as [|p|p]; try lia.
    apply Z.shiftl_nonneg. lia. }
  assert (Hq : 0 <= fst (Z.div_eucl m' (Zpos m))).
  { change (fst (Z.div_eucl m' (Zpos m))) with (m' / Zpos m).
    apply Z.div_pos; lia. }
  destruct (Z.div_eucl m' (Zpos m)) as [q r]. cbn [fst] in Hq.
  apply signed_nonneg. now apply binary_round_aux_signed.
Qed.

(** *** Doubles through their specification *)

Lemma SFcompare_refl x : x <> S754_nan -> SFcompare x x = Some Eq.
Proof.
  destruct x as [s|[|]| |s m e]; intros Hx; try reflexivity; [congruence|].
  cbn [SFcompare]. rewrite Z.compare_refl, Pos.compare_cont_refl.
  destruct s; reflexivity.
Qed.

Lemma is_nan_SF a :
  PrimFloat.is_nan a = match Prim2SF a with S754_nan => true | _ => false end.
Proof.
  unfold PrimFloat.is_nan. rewrite FloatAxioms.eqb_spec. unfold SFeqb.
  destruct (Prim2SF a) as [s|s| |s m e] eqn:E; try reflexivity;
    rewrite SFcompare_refl by discriminate; reflexivity.
Qed.

Lemma is_finite_SF a : PrimFloat.is_finite a = SF_finite (Prim2SF a).
Proof.
  unfold PrimFloat.is_finite, PrimFloat.is_infinity.
  rewrite is_nan_SF, FloatAxioms.eqb_spec, abs_spec.
  change (Prim2SF infinity) with (S754_infinity false).
  destruct (Prim2SF a) as [s|s| |s m e]; reflexivity.
Qed.

Lemma is_zero_SF a : PrimFloat.is_zero a = SF_zero (Prim2SF a).
Proof.
  unfold PrimFloat.is_zero. rewrite FloatAxioms.eqb_spec.
  change (Prim2SF zero) with (S754_zero false).
  destruct (Prim2SF a) as [s|s| |s m e]; try reflexivity; destruct s; reflexivity.
Qed.

Lemma zero_times_finite a b :
  PrimFloat.is_zero a = true -> PrimFloat.is_finite b = true ->
  PrimFloat.is_zero (a * b) = true.
Proof.
  rewrite !is_zero_SF, is_finite_SF, mul_spec. unfold SF64mul.
  destruct (Prim2SF a) as [s|s| |s m e]; cbn [SF_zero]; try discriminate.
  destruct (Prim2SF b) as [s'|s'| |s' m' e']; cbn [SF_finite]; try discriminate;
    reflexivity.
Qed.

Lemma zero_times_other a b :
  PrimFloat.is_zero a = true -> PrimFloat.is_finite b = false ->
  PrimFloat.is_nan (a * b) = true.
Proof.
  rewrite is_zero_SF, is_finite_SF, is_nan_SF, mul_spec. unfold SF64mul.
  destruct (Prim2SF a) as [s|s| |s m e]; cbn [SF_zero]; try discriminate.
  destruct (Prim2SF b) as [s'|s'| |s' m' e']; cbn [SF_finite]; try discriminate;
    reflexivity.
Qed.

Lemma zero_over_positive a b :
  PrimFloat.is_zero a = true ->
  (exists m e, Prim2SF b = S754_finite false m e) ->
  PrimFloat.is_zero (a / b) = true.
Proof.
  rewrite !is_zero_SF, div_spec. unfold SF64div. intros Ha (m & e & ->).
  destruct (Prim2SF a) as [s|s| |s m' e']; cbn [SF_zero] in Ha; try discriminate.
  reflexivity.
Qed.

Lemma nan_over a b :
  PrimFloat.is_nan a = true -> PrimFloat.is_nan (a / b) = true.
Proof.
  rewrite !is_nan_SF, div_spec. unfold SF64div.
  destruct (Prim2SF a) as [s|s| |s m' e']; try discriminate. reflexivity.
Qed.

Lemma nan_not_zero a : PrimFloat.is_nan a = true -> PrimFloat.is_zero a = false.
Proof.
  rewrite is_nan_SF, is_zero_SF.
  destruct (Prim2SF a) as [s|s| |s m' e']; try discriminate. reflexivity.
Qed.

(** The transverse momentum over 20 is a number that is not negative,
    [+Infinity] included, when [px] and [py] are numbers. *)
Lemma pt_nonneg (px py : float) :
  PrimFloat.is_nan px = false -> PrimFloat.is_nan py = false ->
  SF_nonneg
    (Prim2SF (PrimFloat.sqrt (px * px + py * py) / float_of_Z 20)) = true.
Proof.
  rewrite !is_nan_SF. intros Hx Hy.
  rewrite div_spec, sqrt_spec, add_spec, !mul_spec.
  change (Prim2SF (float_of_Z 20)) with (S754_finite false 5629499534213120 (-48)).
  apply SFdiv_nonneg, SFsqrt_nonneg, SFadd_nonneg; apply SFmul_self_nonneg;
    intros E; [rewrite E in Hx | rewrite E in Hy]; discriminate.
Qed.

Lemma SFcompare_finite_eq m e m' e' :
  SFcompare (S754_finite false m e) (S754_finite false m' e') <> Some Lt ->
  SFcompare (S754_finite false m' e') (S754_finite false m e) <> Some Lt ->
  SFcompare (S754_finite false m e) (S754_finite false m' e') = Some Eq.
Proof.
  cbn [SFcompare]. rewrite (Z.compare_antisym e e').
  destruct (e ?= e') eqn:E; cbn [CompOpp]; try congruence.
  rewrite !Pos.compare_cont_spec, (Pos.compare_antisym m m').
  destruct (m ?= m')%positive; cbn [CompOpp Pos.switch_Eq]; congruence.
Qed.

Lemma three_SF : Prim2SF 3 = S754_finite false 6755399441055744 (-51).
Proof. reflexivity. Qed.

Lemma SFcompare_three_eq m e :
  SFltb (S754_finite false m e) (Prim2SF 3) = false ->
  SFltb (Prim2SF 3) (S754_finite false m e) = false ->
  SFleb (S754_finite false m e) (Prim2SF 3) = true.
Proof.
  rewrite three_SF. unfold SFltb, SFleb. intros H1 H2.
  pose proof (@SFcompare_finite_eq m e 6755399441055744 (-51)) as Heq.
  destruct (SFcompare (S754_finite false m e) _) as [[| |]|];
    try reflexivity; try discriminate;
    destruct (SFcompare _ (S754_finite false m e)) as [[| |]|];
    try discriminate;
    (assert (C : _ = Some Eq) by (apply Heq; discriminate)); discriminate C.
Qed.

(** The cap [min(pt/20, 3)] of a number that is not negative is a finite
    double from 0 to 3. *)
Lemma float_min_cap (a : float) :
  SF_nonneg (Prim2SF a) = true ->
  let c := float_min a (float_of_Z 3) in
  PrimFloat.is_finite c = true /\
  (0 <=? c)%float = true /\ (c <=? float_of_Z 3)%float = true.
Proof.
  intros Ha. cbv zeta. unfold float_min.
  change (float_of_Z 3) with 3%float.
  change (PrimFloat.is_nan 3) with false. rewrite orb_false_r.
  rewrite is_nan_SF, !ltb_spec.
  assert (Hthree : PrimFloat.is_finite 3 = true /\ (0 <=? 3)%float = true /\
                   (3 <=? 3)%float = true) by (repeat split).
  assert (Hsame : SF_finite (Prim2SF a) = true ->
                  SFleb (Prim2SF 0) (Prim2SF a) = true ->
                  SFleb (Prim2SF a) (Prim2SF 3) = true ->
                  PrimFloat.is_finite a = true /\ (0 <=? a)%float = true /\
                  (a <=? 3)%float = true).
  { intros H1 H2 H3. now rewrite is_finite_SF, !leb_spec. }
  destruct (SFltb (Prim2SF a) (Prim2SF 3)) eqn:L1.
  - assert (Hin : PrimFloat.is_finite a = true /\ (0 <=? a)%float = true /\
                  (a <=? 3)%float = true).
    { revert Hsame L1 Ha. destruct (Prim2SF a) as [s|[|]| |[|] m e];
        cbn [SF_nonneg]; intros Hsame L1 Ha; try discriminate;
        apply Hsame; try reflexivity.
      unfold SFltb in L1. unfold SFleb.
      destruct (SFcompare _ _) as [[| |]|]; try discriminate; reflexivity. }
    destruct (Prim2SF a) as [s|[|]| |[|] m e]; try discriminate; exact Hin.
  - assert (Hin : SFltb (Prim2SF 3) (Prim2SF a) = false ->
                  PrimFloat.is_finite a = true /\ (0 <=? a)%float = true /\
                  (a <=? 3)%float = true).
    { revert Hsame L1 Ha. destruct (Prim2SF a) as [s|[|]| |[|] m e];
        cbn [SF_nonneg]; intros Hsame L1 Ha L2; try discriminate.
      apply Hsame; try reflexivity. now apply SFcompare_three_eq. }
    destruct (Prim2SF a) as [s|[|]| |[|] m e]; try discriminate;
      destruct (SFltb (Prim2SF 3) _); try exact Hthree;
      destruct (get_sign a); try exact Hthree; now apply Hin.
Qed.

(** *** Rounding a product within a bound

    The mantissa of a product is shifted right to 53 digits, rounded
    to nearest, and shifted once more when rounding carries into a
    54th digit. *)

Lemma digits2_pos_bounds (m : positive) :
  2 ^ (Zpos (digits2_pos m) - 1) <= Zpos m < 2 ^ Zpos (digits2_pos m).
Proof.
  induction m as [m IH|m IH|]; cbn [digits2_pos].
  - rewrite Pos2Z.inj_succ. replace (Z.succ (Zpos (digits2_pos m)) - 1)
      with (Z.succ (Zpos (digits2_pos m) - 1)) by lia.
    rewrite !Z.pow_succ_r by lia. lia.
  - rewrite Pos2Z.inj_succ. replace (Z.succ (Zpos (digits2_pos m)) - 1)
      with (Z.succ (Zpos (digits2_pos m) - 1)) by lia.
    rewrite !Z.pow_succ_r by lia. lia.
  - cbn. lia.
Qed.

Lemma digits2_pos_le (m : positive) (k : Z) :
  Zpos m < 2 ^ k -> Zpos (digits2_pos m) <= k.
Proof.
  intros Hm. destruct (digits2_pos_bounds m) as [Hlo _].
  destruct (Z.le_gt_cases (Zpos (digits2_pos m)) k) as [|Hgt]; [assumption|].
  exfalso. assert (0 <= k).
  { destruct (Z.le_gt_cases 0 k); [assumption|].
    rewrite Z.pow_neg_r in Hm by lia. lia. }
  assert (2 ^ k <= 2 ^ (Zpos (digits2_pos m) - 1))
    by (apply Z.pow_le_mono_r; lia).
  lia.
Qed.

Lemma iter_pos_nat {A} (f : A -> A) (p : positive) (x : A) :
  SpecFloat.iter_pos f p x = Nat.iter (Pos.to_nat p) f x.
Proof.
  revert x. induction p as [p IH|p IH|]; intros x; cbn [SpecFloat.iter_pos].
  - rewrite !IH, Pos2Nat.inj_xI.
    replace (S (2 * Pos.to_nat p)) with (S (Pos.to_nat p + Pos.to_nat p)) by lia.
    now rewrite Nat.iter_succ_r, Nat.iter_add.
  - rewrite !IH, Pos2Nat.inj_xO.
    replace (2 * Pos.to_nat p)%nat with (Pos.to_nat p + Pos.to_nat p)%nat by lia.
    now rewrite Nat.iter_add.
  - reflexivity.
Qed.

Lemma shr_1_spec m r s :
  0 <= m ->
  shr_1 (Build_shr_record m r s) =
    Build_shr_record (m / 2) (Z.odd m) (r || s).
Proof.
  intros Hm. unfold shr_1.
  destruct m as [|[p|p|]|p]; try lia; try reflexivity.
  - rewrite Pos2Z.inj_xI. f_equal.
    + rewrite Z.mul_comm, Z.div_add_l by lia. reflexivity.
  - rewrite Pos2Z.inj_xO. f_equal.
    + now rewrite Z.mul_comm, Z.div_mul by lia.
Qed.

Lemma shr_iter_spec (k : nat) (m : Z) :
  0 <= m ->
  let mrs := Nat.iter k shr_1 (Build_shr_record m false false) in
  shr_m mrs = m / 2 ^ Z.of_nat k /\
  (m mod 2 ^ Z.of_nat k = 0 -> shr_r mrs = false /\ shr_s mrs = false).
Proof.
  intros Hm. cbv zeta. induction k as [|k IH].
  - cbn [Nat.iter nat_rect shr_m shr_r shr_s Z.of_nat]. rewrite Z.pow_0_r, Z.div_1_r. auto.
  - rewrite !Nat.iter_succ. destruct IH as [IHm IHe].
    destruct (Nat.iter k shr_1 _) as [mk rk sk]. cbn [shr_m shr_r shr_s] in *.
    assert (Hk : 0 < 2 ^ Z.of_nat k) by (apply Z.pow_pos_nonneg; lia).
    assert (Hmk : 0 <= mk) by (subst mk; apply Z.div_pos; lia).
    rewrite shr_1_spec by exact Hmk. cbn [shr_m shr_r shr_s].
    rewrite Nat2Z.inj_succ, Z.pow_succ_r by lia.
    split.
    + subst mk. rewrite Z.div_div by lia. f_equal. lia.
    + intros Hdiv.
      assert (Hdivk : m mod 2 ^ Z.of_nat k = 0).
      { apply Z.mod_divide in Hdiv; [|lia]. apply Z.mod_divide; [lia|].
        destruct Hdiv as [q Hq]. exists (q * 2). lia. }
      destruct (IHe Hdivk) as [-> ->]. split; [|reflexivity].
      apply Z.mod_divide in Hdiv; [|lia]. destruct Hdiv as [q Hq].
      subst mk. rewrite Hq.
      replace (q * (2 * 2 ^ Z.of_nat k)) with ((q * 2) * 2 ^ Z.of_nat k) by lia.
      rewrite Z.div_mul by lia. rewrite Z.odd_mul. cbn. now rewrite andb_false_r.
Qed.

Lemma shr_fexp_exact (m e : Z) :
  0 <= m ->
  let n := fexp prec emax (Zdigits2 m + e) - e in
  exists mrs,
    shr_fexp prec emax m e loc_Exact = (mrs, if 0 <? n then e + n else e) /\
    (if 0 <? n
     then shr_m mrs = m / 2 ^ n /\
          (m mod 2 ^ n = 0 -> shr_r mrs = false /\ shr_s mrs = false)
     else mrs = Build_shr_record m false false).
Proof.
  intros Hm n. unfold shr_fexp, shr. cbn [shr_record_of_loc]. fold n.
  destruct n as [|p|p] eqn:En; cbn [Z.ltb Z.compare].
  - eexists. split; reflexivity.
  - eexists. split; [reflexivity|].
    rewrite iter_pos_nat.
    destruct (shr_iter_spec (Pos.to_nat p) Hm) as [H1 H2].
    rewrite positive_nat_Z in H1, H2. split; assumption.
  - eexists. split; reflexivity.
Qed.

Lemma round_nearest_even_range (q : Z) (mrs : shr_record) :
  shr_m mrs = q ->
  let m1 := round_nearest_even (shr_m mrs) (loc_of_shr_record mrs) in
  q <= m1 <= q + 1 /\
  (shr_r mrs = false /\ shr_s mrs = false -> m1 = q).
Proof.
  intros <-. destruct mrs as [m r s]. cbn [shr_m shr_r shr_s]. cbv zeta.
  unfold round_nearest_even, loc_of_shr_record.
  destruct r, s; try destruct (Z.even m); split; try lia;
    intros [? ?]; try discriminate; reflexivity.
Qed.

Lemma Zdigits2_nonneg_le (m k : Z) :
  0 <= m -> m < 2 ^ k -> 0 <= k -> Zdigits2 m <= k.
Proof.
  intros Hm Hk Hk0. destruct m as [|p|p]; cbn [Zdigits2]; try lia.
  now apply digits2_pos_le.
Qed.

Lemma Zdigits2_lower (p : positive) :
  2 ^ (Zdigits2 (Zpos p) - 1) <= Zpos p.
Proof. cbn [Zdigits2]. apply digits2_pos_bounds. Qed.

Lemma squeeze (q p b : Z) : q <= p <= q + 1 -> q < b -> b <= p -> p = b.
Proof. lia. Qed.

Lemma fexp_eq (x : Z) : fexp prec emax x = Z.max (x - 53) (-1074).
Proof. reflexivity. Qed.

Lemma round_within s (m : positive) (e : Z) :
  e <= -52 -> Zpos m <= 3 * 2 ^ (- e) ->
  SF_le3 (binary_round_aux prec emax s (Zpos m) e loc_Exact).
Proof.
  intros He Hm. unfold binary_round_aux.
  destruct (@shr_fexp_exact (Zpos m) e ltac:(lia)) as (mrs' & E1 & H1).
  cbv zeta in E1, H1. rewrite E1. clear E1.
  set (d := Zdigits2 (Zpos m)) in *.
  assert (Hpow : 0 < 2 ^ (- e)) by (apply Z.pow_pos_nonneg; lia).
  assert (Hd : d <= 2 - e).
  { apply Zdigits2_nonneg_le; try lia.
    replace (2 - e) with (2 + - e) by lia.
    rewrite Z.pow_add_r by lia. change (2 ^ 2) with 4. lia. }
  assert (Hd0 : 0 < d) by (unfold d; cbn [Zdigits2]; lia).
  rewrite fexp_eq in *.
  set (n := Z.max (d + e - 53) (-1074) - e) in *.
  destruct (0 <? n) eqn:Hn.
  - apply Z.ltb_lt in Hn. destruct H1 as [Hq Hex].
    set (e' := e + n) in *.
    assert (He' : -1074 <= e' <= -51) by (unfold e', n; lia).
    assert (Hn2 : 0 < 2 ^ n) by (apply Z.pow_pos_nonneg; lia).
    set (q := Zpos m / 2 ^ n) in *.
    assert (Hq0 : 0 <= q) by (apply Z.div_pos; lia).
    assert (Hq53 : q < 2 ^ 53).
    { apply Z.div_lt_upper_bound; [lia|].
      rewrite <- Z.pow_add_r by lia.
      destruct (digits2_pos_bounds m) as [_ Hup].
      change (Zpos (digits2_pos m)) with d in Hup.
      assert (2 ^ d <= 2 ^ (n + 53)) by (apply Z.pow_le_mono_r; unfold n; lia).
      lia. }
    destruct (round_nearest_even_range mrs' Hq) as [Hm1 Hexact].
    cbv zeta in Hm1, Hexact.
    set (m1 := round_nearest_even (shr_m mrs') (loc_of_shr_record mrs')) in *.
    assert (Hq51 : e' = -51 -> m1 <= 3 * 2 ^ 51).
    { intros E51.
      assert (Hsplit : 3 * 2 ^ (- e) = 3 * 2 ^ 51 * 2 ^ n).
      { replace (- e) with (51 + n) by (unfold e' in E51; lia).
        rewrite Z.pow_add_r by lia. lia. }
      assert (Hqle : q <= 3 * 2 ^ 51).
      { unfold q. apply Z.div_le_upper_bound; lia. }
      destruct (Z.eq_dec q (3 * 2 ^ 51)) as [Heq|Hne]; [|lia].
      assert (Hmul : 2 ^ n * q <= Zpos m) by (apply Z.mul_div_le; lia).
      assert (Hmeq : Zpos m = 3 * 2 ^ 51 * 2 ^ n) by lia.
      assert (Hmod : Zpos m mod 2 ^ n = 0)
        by (rewrite Hmeq; apply Z.mod_mul; lia).
      rewrite (Hexact (Hex Hmod)). lia. }
    destruct (@shr_fexp_exact m1 e' ltac:(lia)) as (mrs'' & E2 & H2).
    cbv zeta in E2, H2. rewrite E2. clear E2. rewrite fexp_eq in *.
    set (n2 := Z.max (Zdigits2 m1 + e' - 53) (-1074) - e') in *.
    change (2 ^ 53) with 9007199254740992 in *.
    change (2 ^ 51) with 2251799813685248 in *.
    destruct (0 <? n2) eqn:Hn2'.
    + apply Z.ltb_lt in Hn2'. destruct H2 as [Hq2 _].
      assert (HD : 54 <= Zdigits2 m1) by (unfold n2 in Hn2'; lia).
      assert (HD' : Zdigits2 m1 <= 54).
      { apply Zdigits2_nonneg_le; lia. }
      destruct m1 as [|p1|p1] eqn:Em1; cbn [Zdigits2] in HD, HD'; try lia.
      pose proof (Zdigits2_lower p1) as Hlow. cbn [Zdigits2] in Hlow, n2.
      assert (HD54 : Zpos (digits2_pos p1) = 54) by lia.
      rewrite HD54 in Hlow.
      change (2 ^ (54 - 1)) with 9007199254740992 in Hlow.
      assert (Hp1 : Zpos p1 = 9007199254740992)
        by exact (squeeze Hm1 Hq53 Hlow).
      assert (En2 : n2 = 1) by (unfold n2; rewrite HD54; lia).
      rewrite En2 in Hq2. rewrite Hp1 in Hq2.
      change (9007199254740992 / 2 ^ 1) with 4503599627370496 in Hq2.
      rewrite Hq2.
      assert (He52 : e' <= -52).
      { destruct (Z.eq_dec e' (-51)) as [E51|]; [|lia].
        specialize (Hq51 E51). lia. }
      replace (e' + n2 <=? emax - prec) with true
        by (symmetry; apply Z.leb_le; unfold emax, prec; lia).
      cbn [SF_le3]. lia.
    + subst mrs''. cbn [shr_m].
      destruct m1 as [|p1|p1] eqn:Em1; try lia; [exact I|].
      replace (e' <=? emax - prec) with true
        by (symmetry; apply Z.leb_le; unfold emax, prec; lia).
      cbn [SF_le3]. destruct (Z.eq_dec e' (-51)) as [E51|]; [|lia].
      right. split; [exact E51 | now apply Hq51].
  - apply Z.ltb_ge in Hn. subst mrs'. cbn [shr_m loc_of_shr_record].
    cbn [round_nearest_even].
    destruct (@shr_fexp_exact (Zpos m) e ltac:(lia)) as (mrs'' & E2 & H2).
    cbv zeta in E2, H2. rewrite fexp_eq in *. fold d in E2, H2. fold n in E2, H2.
    replace (0 <? n) with false in E2, H2 by (symmetry; apply Z.ltb_ge; lia).
    rewrite E2. subst mrs''. cbn [shr_m].
    replace (e <=? emax - prec) with true
      by (symmetry; apply Z.leb_le; unfold emax, prec; lia).
    cbn [SF_le3]. lia.
Qed.


(** *** Products within the cap *)

Lemma bounded_mantissa (m : positive) (e : Z) :
  SpecFloat.bounded prec emax m e = true -> Zpos m < 2 ^ 53 /\ -1074 <= e.
Proof.
  unfold SpecFloat.bounded, canonical_mantissa. intros Hb.
  apply andb_prop in Hb. destruct Hb as [Hc _].
  apply Z.eqb_eq in Hc. rewrite fexp_eq in Hc.
  destruct (digits2_pos_bounds m) as [_ Hup].
  assert (Hd : Zpos (digits2_pos m) <= 53) by lia.
  assert (2 ^ Zpos (digits2_pos m) <= 2 ^ 53) by (apply Z.pow_le_mono_r; lia).
  lia.
Qed.

Lemma one_SF : Prim2SF 1 = S754_finite false 4503599627370496 (-52).
Proof. reflexivity. Qed.

(** A finite double of magnitude at most 1, as an inequality of
    integers. *)
Lemma le_one_numeric (m : positive) (e : Z) :
  SpecFloat.bounded prec emax m e = true ->
  SFleb (S754_finite false m e) (Prim2SF 1) = true ->
  e <= -52 /\ Zpos m <= 2 ^ (- e).
Proof.
  intros Hb. destruct (@bounded_mantissa m e Hb) as [Hm He]. clear Hb.
  rewrite one_SF. unfold SFleb. cbn [SFcompare].
  rewrite Pos.compare_cont_spec. cbn [Pos.switch_Eq].
  rewrite Pos2Z.inj_compare.
  destruct (Z.compare_spec e (-52)) as [Heq | Hlt | Hgt];
    [| |intros Hle; discriminate Hle].
  - destruct (Z.compare_spec (Zpos m) 4503599627370496) as [Hm' | Hl | Hg];
      [| |intros Hle; discriminate Hle]; intros _; (split; [lia|]);
      rewrite Heq; change (2 ^ (- -52)) with 4503599627370496; lia.
  - intros _. split; [lia|].
    assert (2 ^ 53 <= 2 ^ (- e)) by (apply Z.pow_le_mono_r; lia). lia.
Qed.

(** A finite double of magnitude at most 3. *)
Lemma le_three_numeric (m : positive) (e : Z) :
  SpecFloat.bounded prec emax m e = true ->
  SFleb (S754_finite false m e) (Prim2SF 3) = true ->
  e <= -51 /\ Zpos m <= 3 * 2 ^ (- e).
Proof.
  intros Hb. destruct (@bounded_mantissa m e Hb) as [Hm He]. clear Hb.
  rewrite three_SF. unfold SFleb. cbn [SFcompare].
  rewrite Pos.compare_cont_spec. cbn [Pos.switch_Eq].
  rewrite Pos2Z.inj_compare.
  destruct (Z.compare_spec e (-51)) as [Heq | Hlt | Hgt];
    [| |intros Hle; discriminate Hle].
  - destruct (Z.compare_spec (Zpos m) 6755399441055744) as [Hm' | Hl | Hg];
      [| |intros Hle; discriminate Hle]; intros _; (split; [lia|]);
      rewrite Heq; change (2 ^ (- -51)) with 2251799813685248; lia.
  - intros _. split; [lia|].
    assert (2 ^ 52 <= 2 ^ (- e)) by (apply Z.pow_le_mono_r; lia).
    change (2 ^ 53) with 9007199254740992 in Hm.
    change (2 ^ 52) with 4503599627370496 in *. lia.
Qed.

Lemma product_bound (m1 m2 : positive) (e1 e2 : Z) :
  e1 <= -52 -> Zpos m1 <= 2 ^ (- e1) ->
  e2 <= -51 -> Zpos m2 <= 3 * 2 ^ (- e2) ->
  e1 + e2 <= -52 /\ Zpos (m1 * m2) <= 3 * 2 ^ (- (e1 + e2)).
Proof.
  intros He1 Hm1 He2 Hm2. split; [lia|].
  replace (- (e1 + e2)) with (- e1 + - e2) by lia.
  rewrite Z.pow_add_r, Pos2Z.inj_mul by lia.
  assert (0 < 2 ^ (- e1)) by (apply Z.pow_pos_nonneg; lia).
  assert (0 < 2 ^ (- e2)) by (apply Z.pow_pos_nonneg; lia).
  transitivity (2 ^ (- e1) * (3 * 2 ^ (- e2))); [|lia].
  apply Z.mul_le_mono_nonneg; lia.
Qed.

(** A double within the bound, as [<=] sees it. *)
Lemma SF_le3_leb (x : spec_float) :
  SF_le3 x -> SFleb (SFabs x) (Prim2SF 3) = true.
Proof.
  rewrite three_SF. destruct x as [s|s| |s m e]; cbn [SF_le3 SFabs];
    try contradiction; [reflexivity|].
  unfold SFleb. cbn [SFcompare]. intros [Hlt | [-> Hm]].
  - apply Z.compare_lt_iff in Hlt. now rewrite Hlt.
  - rewrite Z.compare_refl, Pos.compare_cont_spec. cbn [Pos.switch_Eq].
    change (3 * 2 ^ 51) with 6755399441055744 in Hm.
    rewrite Pos2Z.inj_compare.
    destruct (Z.compare_spec (Zpos m) 6755399441055744); try reflexivity. lia.
Qed.

(** The product of a double of magnitude at most 1 and a double of
    magnitude at most 3 has magnitude at most 3, once rounded. *)
Lemma SFmul_within (x y : spec_float) :
  SpecFloat.valid_binary prec emax x = true ->
  SpecFloat.valid_binary prec emax y = true ->
  SFleb (SFabs x) (Prim2SF 1) = true ->
  SFleb (SFabs y) (Prim2SF 3) = true ->
  SF_le3 (SFmul prec emax x y) /\ SF_le3 (SFmul prec emax y x).
Proof.
  intros Vx Vy Hx Hy.
  destruct x as [sx|sx| |sx mx ex]; cbn [SFabs] in Hx; try discriminate Hx;
    destruct y as [sy|sy| |sy my ey]; cbn [SFabs] in Hy; try discriminate Hy;
    cbn [SFmul SF_le3]; auto.
  cbn [SpecFloat.valid_binary] in Vx, Vy.
  destruct (@le_one_numeric mx ex Vx Hx) as [He1 Hm1].
  destruct (@le_three_numeric my ey Vy Hy) as [He2 Hm2].
  destruct (@product_bound mx my ex ey He1 Hm1 He2 Hm2) as [He Hm].
  split.
  - now apply round_within.
  - rewrite Pos.mul_comm, Z.add_comm. now apply round_within.
Qed.

Lemma mul_within (x y : float) :
  (abs x <=? 1)%float = true -> (abs y <=? 3)%float = true ->
  (abs (x * y) <=? 3)%float = true /\ (abs (y * x) <=? 3)%float = true.
Proof.
  rewrite !leb_spec, !abs_spec, !mul_spec. intros Hx Hy.
  destruct (@SFmul_within (Prim2SF x) (Prim2SF y) (Prim2SF_valid x)
              (Prim2SF_valid y) Hx Hy) as [H1 H2].
  split; now apply SF_le3_leb.
Qed.

(** The magnitude of a double from 0 to 3. *)
Lemma abs_within (c : float) :
  (0 <=? c)%float = true -> (c <=? 3)%float = true ->
  (abs c <=? 3)%float = true.
Proof.
  rewrite !leb_spec, abs_spec, three_SF.
  change (Prim2SF 0) with (S754_zero false).
  destruct (Prim2SF c) as [s|[|]| |[|] m e]; cbn [SFabs SFleb SFcompare];
    try discriminate; auto.
Qed.

(** A double that is not negative and of magnitude at most 3 is at most
    3. *)
Lemma within_of_abs (r : float) :
  (0 <=? r)%float = true -> (abs r <=? 3)%float = true ->
  (r <=? 3)%float = true.
Proof.
  rewrite !leb_spec, abs_spec, three_SF.
  change (Prim2SF 0) with (S754_zero false).
  destruct (Prim2SF r) as [s|[|]| |[|] m e]; cbn [SFabs SFleb SFcompare];
    try discriminate; auto.
Qed.

(** The product of two finite doubles that are not negative is not
    negative. *)
Lemma mul_nonneg (x y : float) :
  (0 <=? x)%float = true -> (0 <=? y)%float = true ->
  PrimFloat.is_finite x = true -> PrimFloat.is_finite y = true ->
  (0 <=? x * y)%float = true.
Proof.
  rewrite !leb_spec, !is_finite_SF, mul_spec.
  change (Prim2SF 0) with (S754_zero false). unfold SF64mul.
  destruct (Prim2SF x) as [sx|[|]| |[|] mx ex]; cbn [SF_finite SFleb SFcompare];
    try discriminate; intros _;
    destruct (Prim2SF y) as [sy|[|]| |[|] my ey];
    cbn [SF_finite SFleb SFcompare]; try discriminate; intros _ _ _;
    try reflexivity.
  cbn [SFmul xorb].
  pose proof (@binary_round_aux_signed false (Zpos (mx * my)) (ex + ey)
                loc_Exact ltac:(lia)) as Hs.
  destruct (binary_round_aux _ _ _ _ _ _) as [s|s| |s m e]; cbn [SF_signed] in Hs;
    try contradiction; subst; reflexivity.
Qed.

(** A double of magnitude at most 1 is finite. *)
Lemma finite_of_abs (x b : float) :
  PrimFloat.is_finite b = true ->
  (abs x <=? b)%float = true -> PrimFloat.is_finite x = true.
Proof.
  rewrite !is_finite_SF, leb_spec, abs_spec.
  destruct (Prim2SF b) as [sb|sb| |sb mb eb]; cbn [SF_finite]; try discriminate;
    intros _; destruct (Prim2SF x) as [s|s| |s m e];
    cbn [SFabs SFleb SFcompare SF_finite]; try discriminate;
    auto; destruct sb; discriminate.
Qed.

(** *** The first point and the cap *)

Section TracksOnDoubles.

Variable atan2 : float -> float -> float.
Variables cos sin : float -> float.

(** At [j = 0] the parameter [t] is [+0]. *)
Lemma first_parameter :
  PrimFloat.is_zero (float_of_Z 0 / float_of_Z Scene.numPoints) = true.
Proof. reflexivity. Qed.

(** The parameter [t = j/50] runs from 0 to 1. *)
Lemma parameter_range (j : nat) :
  (j <= 50)%nat ->
  let t := (float_of_Z (Z.of_nat j) / float_of_Z Scene.numPoints)%float in
  (0 <=? t)%float = true /\ (t <=? 1)%float = true /\
  (abs t <=? 1)%float = true /\ PrimFloat.is_finite t = true.
Proof.
  intros Hj. cbv zeta.
  do 51 (destruct j as [|j]; [repeat split; vm_compute; reflexivity|]). lia.
Qed.

Lemma ten_SF : exists m e, Prim2SF (float_of_Z 10) = S754_finite false m e.
Proof. do 2 eexists. reflexivity. Qed.

(** The first point of a track is the origin when the cap, the
    longitudinal momentum, the cosine and the sine are finite. *)
Lemma sample_first_finite (pt phi pz : float) :
  PrimFloat.is_finite (float_min (pt / float_of_Z 20) (float_of_Z 3)) = true ->
  PrimFloat.is_finite pz = true ->
  PrimFloat.is_finite (cos phi) = true ->
  PrimFloat.is_finite (sin phi) = true ->
  at_origin (@Scene.sample float (Float64 atan2 cos sin) pt phi pz 0) = true.
Proof.
  intros Hcap Hz Hcos Hsin. unfold at_origin, Scene.sample, Scene.maxR.
  cbn [Scene.v_x Scene.v_y Scene.v_z lit num_div num_mul Math_min Math_cos
       Math_sin Float64].
  pose proof first_parameter as Ht.
  rewrite (@zero_times_finite _ _ (@zero_times_finite _ _ Ht Hcap) Hcos).
  rewrite (@zero_times_finite _ _ (@zero_times_finite _ _ Ht Hcap) Hsin).
  rewrite (@zero_over_positive _ _ (@zero_times_finite _ _ Ht Hz) ten_SF).
  reflexivity.
Qed.

(** Its height is [NaN] when the longitudinal momentum is infinite or
    [NaN]. *)
Lemma sample_first_other (pt phi pz : float) :
  PrimFloat.is_finite pz = false ->
  let p := @Scene.sample float (Float64 atan2 cos sin) pt phi pz 0 in
  PrimFloat.is_nan (Scene.v_y p) = true /\ at_origin p = false.
Proof.
  intros Hz. cbv zeta.
  assert (Hnan : PrimFloat.is_nan
            (Scene.v_y (@Scene.sample float (Float64 atan2 cos sin)
                          pt phi pz 0)) = true).
  { unfold Scene.sample.
    cbn [Scene.v_y lit num_div num_mul Float64].
    apply nan_over, zero_times_other; [exact first_parameter | exact Hz]. }
  split; [exact Hnan|]. unfold at_origin.
  rewrite (@nan_not_zero _ Hnan). now rewrite andb_false_r.
Qed.

(** C10. On the doubles the code computes with, after every call of
    [renderEvent] and for every particle of the event: its polyline has
    51 points and its marker lies at the origin. Point [j] is
    [(r cos phi, t pz / 10, r sin phi)] with [t = j/50], from 0 to 1,
    and [r = t * cap], where [cap = min(pt/20, 3)]. When [px] and [py]
    are numbers, however large, the cap is a finite double from 0 to 3
    and so is [r]; when moreover the cosine and the sine of the azimuth
    are at most 1 in magnitude, the two planar coordinates of every
    point are at most 3 in magnitude. When [pz] is finite, and so are
    the cosine and the sine, the first point is the origin, each
    coordinate a zero; when [pz] is infinite or [NaN] the first point
    has height [NaN] and is not the origin. *)
Theorem renderEvent_tracks_on_doubles (v : Scene.View float) g e ps lx ly lz
    lid (M : nat) :
  Scene.scene v = Some g -> Scene.event v = Some e ->
  particles e = Some ps -> parallel ps lx ly lz lid M ->
  forall i, (i < M)%nat ->
    let px := nth i lx PrimFloat.nan in
    let py := nth i ly PrimFloat.nan in
    let pz := nth i lz PrimFloat.nan in
    let pt := PrimFloat.sqrt (px * px + py * py)%float in
    let phi := atan2 py px in
    let cap := float_min (pt / 20) 3 in
    let prims :=
      primitives (fst (@Scene.renderEvent float (Float64 atan2 cos sin) v)) in
    let polyline := points_of (nth (2 * i) prims None) in
    List.length polyline = 51%nat /\
    (exists marker,
       nth (2 * i + 1) prims None = Some marker /\
       is_marker (Some marker) = true /\
       Scene.position marker = Scene.mkVector3 0%float 0%float 0%float) /\
    (forall j, (j <= 50)%nat ->
       let t := (float_of_Z (Z.of_nat j) / 50)%float in
       let r := (t * cap)%float in
       nth_error polyline j =
         Some (Scene.mkVector3 (r * cos phi) (t * pz / 10) (r * sin phi))%float /\
       (0 <=? t)%float = true /\ (t <=? 1)%float = true /\
       (PrimFloat.is_nan px = false -> PrimFloat.is_nan py = false ->
        (0 <=? r)%float = true /\ (r <=? 3)%float = true /\
        ((abs (cos phi) <=? 1)%float = true ->
         (abs (r * cos phi) <=? 3)%float = true) /\
        ((abs (sin phi) <=? 1)%float = true ->
         (abs (r * sin phi) <=? 3)%float = true))) /\
    (PrimFloat.is_nan px = false -> PrimFloat.is_nan py = false ->
     PrimFloat.is_finite cap = true /\
     (0 <=? cap)%float = true /\ (cap <=? 3)%float = true) /\
    (PrimFloat.is_nan px = false -> PrimFloat.is_nan py = false ->
     PrimFloat.is_finite pz = true ->
     PrimFloat.is_finite (cos phi) = true ->
     PrimFloat.is_finite (sin phi) = true ->
     exists p0, hd_error polyline = Some p0 /\ at_origin p0 = true) /\
    (PrimFloat.is_finite pz = false ->
     exists p0, hd_error polyline = Some p0 /\
                PrimFloat.is_nan (Scene.v_y p0) = true /\
                at_origin p0 = false).
Proof.
  intros Hg He Hps Hpar i Hi. cbv zeta.
  destruct (@renderEvent_primitives float (Float64 atan2 cos sin)
              v g e ps lx ly lz lid M Hg He Hps Hpar) as (_ & -> & _).
  destruct (@primitive_at float (Float64 atan2 cos sin) lx ly lz lid M i Hi)
    as [-> ->].
  cbn [drawn_particle nth_error points_of Scene.new]. unfold track_of.
  cbn [NaN num_add num_mul Math_sqrt Math_atan2 Float64].
  set (px := nth i lx PrimFloat.nan).
  set (py := nth i ly PrimFloat.nan).
  set (pz := nth i lz PrimFloat.nan).
  set (pt := PrimFloat.sqrt (px * px + py * py)%float).
  set (phi := atan2 py px).
  set (cap := float_min (pt / 20) 3).
  assert (Hcap : PrimFloat.is_nan px = false ->
                 PrimFloat.is_nan py = false ->
                 PrimFloat.is_finite cap = true /\
                 (0 <=? cap)%float = true /\ (cap <=? 3)%float = true).
  { intros Hx Hy. exact (@float_min_cap _ (@pt_nonneg px py Hx Hy)). }
  assert (Hhd : hd_error
            (@Scene.track_points float (Float64 atan2 cos sin) pt phi pz) =
          Some (@Scene.sample float (Float64 atan2 cos sin) pt phi pz 0)).
  { rewrite track_points_samples. reflexivity. }
  split; [apply track_points_length|].
  split; [eexists; split; [reflexivity | split; reflexivity]|].
  split.
  { intros j Hj. split; [now rewrite track_points_nth|].
    destruct (parameter_range Hj) as (Ht0 & Ht1 & Hta & Htf).
    change (float_of_Z Scene.numPoints) with 50%float in Ht0, Ht1, Hta, Htf.
    set (t := (float_of_Z (Z.of_nat j) / 50)%float) in *.
    split; [exact Ht0|]. split; [exact Ht1|].
    intros Hx Hy. destruct (Hcap Hx Hy) as (Hcf & Hc0 & Hc3).
    pose proof (abs_within Hc0 Hc3) as Hca.
    destruct (mul_within Hta Hca) as [Hra _].
    pose proof (mul_nonneg Ht0 Hc0 Htf Hcf) as Hr0.
    split; [exact Hr0|]. split; [exact (within_of_abs Hr0 Hra)|].
    split; intros Htrig; exact (proj2 (mul_within Htrig Hra)). }
  split; [exact Hcap|]. split.
  - intros Hx Hy Hz Hcos Hsin. eexists. split; [exact Hhd|].
    apply sample_first_finite; [apply (Hcap Hx Hy) | exact Hz | exact Hcos
                                | exact Hsin].
  - intros Hz. eexists. split; [exact Hhd|].
    now apply sample_first_other.
Qed.

End TracksOnDoubles.

(** C10, as stated, fails on doubles. A particle of [pz = 1e999], which
    is read as [Infinity], has a first point of height [NaN], whatever
    the engine's [atan2], [cos] and [sin]. The last point of the track
    of a particle of momentum [(102, 13, 0)] lies more than 3 away from
    the beam axis, in exact arithmetic and as [Math.sqrt(x*x + z*z)]
    computes it, which gives 3.0000000000000004. *)
Lemma tracks_leave_origin_and_cap :
  (forall atan2 cos sin,
     exists p0,
       hd_error (first_track atan2 cos sin (one_particle 1 0 infinity))
         = Some p0 /\
       PrimFloat.is_nan (Scene.v_y p0) = true /\ at_origin p0 = false) /\
  (forall atan2 cos sin,
     cos (atan2 13 102)%float = cos_102_13 ->
     sin (atan2 13 102)%float = sin_102_13 \/
     sin (atan2 13 102)%float = sin_102_13_next ->
     exists p,
       nth_error (first_track atan2 cos sin (one_particle 102 13 0)) 50
         = Some p /\
       (3 <? planar_distance p)%float = true /\
       (9 < exact_planar_distance2 p)%Q).
Proof.
  split.
  - intros atan2 cos sin. eexists. split; [vm_compute; reflexivity|].
    split; [reflexivity|]. unfold at_origin.
    cbn [Scene.v_x Scene.v_y Scene.v_z].
    change (PrimFloat.is_zero nan) with false. now rewrite andb_false_r.
  - intros atan2 cos sin Hcos Hsin.
    assert (Hp : nth_error
              (first_track atan2 cos sin (one_particle 102 13 0)) 50 =
            Some (Scene.mkVector3 (3 * cos (atan2 13 102))
                    0 (3 * sin (atan2 13 102)))%float)
      by (vm_compute; reflexivity).
    eexists. split; [exact Hp|].
    unfold planar_distance, exact_planar_distance2.
    cbn [Scene.v_x Scene.v_z]. rewrite Hcos.
    destruct Hsin as [-> | ->]; split; vm_compute; reflexivity.
Qed.

Lemma along_x_parallel :
  parallel (mkParticles (Some [huge]) (Some [0%float])
              (Some [5%float]) None (Some [11]))
    [huge] [0%float] [5%float] [11] 1.
Proof. repeat split. Defined.

(** C10, at an electron of momentum [(2^600, 0, 5)], whose transverse
    momentum overflows to [Infinity]: its track starts at the origin,
    its cap is 3, and the last point of its track lies 3 from the beam
    axis along [x]. *)
Lemma renderEvent_tracks_on_doubles_witness :
  (exists p0,
     hd_error
       (first_track atan2_along_x cos_along_x sin_along_x
          (one_particle huge 0 5)) = Some p0 /\
     at_origin p0 = true) /\
  PrimFloat.sqrt (huge * huge + 0 * 0) = infinity /\
  float_min (PrimFloat.sqrt (huge * huge + 0 * 0) / 20) 3 = 3%float /\
  (float_min (PrimFloat.sqrt (huge * huge + 0 * 0) / 20) 3 <=? 3)%float
  = true /\
  nth_error
    (first_track atan2_along_x cos_along_x sin_along_x (one_particle huge 0 5))
    50 = Some (Scene.mkVector3 3 0.5 0)%float /\
  (abs (float_of_Z 50 / 50
        * float_min (PrimFloat.sqrt (huge * huge + 0 * 0) / 20) 3
        * cos_along_x (atan2_along_x 0 huge)) <=? 3)%float = true.
Proof.
  destruct (@renderEvent_tracks_on_doubles atan2_along_x cos_along_x
              sin_along_x (one_particle huge 0 5) empty_scene _ _ _ _ _ _ 1
              eq_refl eq_refl eq_refl along_x_parallel 0%nat (Nat.lt_0_succ 0))
    as (_ & _ & Hpoints & Hcap & Hfirst & _).
  destruct (Hpoints 50%nat (Nat.le_refl 50)) as (Hlast & _ & _ & Hwithin).
  destruct (Hwithin eq_refl eq_refl) as (_ & _ & Hx & _).
  split; [apply Hfirst; reflexivity|].
  split; [reflexivity|]. split; [reflexivity|].
  split; [apply Hcap; reflexivity|].
  split; [exact Hlast | exact (Hx eq_refl)].
Defined.


(** * Properties of the analytics renderer *)

Section AnalyticsFacts.

Variable num : Type.
Context `{JsNumber num}.

(** The centre computed at step [k] of the loop. *)
Let center (bins : list num) (k : nat) : num :=
  num_div (num_add (nth k bins NaN) (nth (k + 1) bins NaN)) (lit 2).

Lemma bin_at_nth (bins : list num) (k : nat) :
  Analytics.bin_at bins (Z.of_nat k) = nth k bins NaN.
Proof.
  unfold Analytics.bin_at. rewrite Nat2Z.id.
  revert k. induction bins as [|b bins IH]; intros [|k]; cbn; auto.
Qed.

Lemma centers_loop_unrolls (bins : list num) (fuel : nat) :
  forall (i : nat) (acc : list num),
    (i + fuel = List.length bins)%nat ->
    Analytics.centers_loop fuel (Z.of_nat i) bins acc =
      acc ++ map (center bins) (seq i (fuel - 1)).
Proof.
  induction fuel as [|fuel IH]; intros i acc Hi;
    cbn [Analytics.centers_loop].
  - cbn. now rewrite app_nil_r.
  - destruct fuel as [|fuel].
    + replace (Z.of_nat i <? Z.of_nat (List.length bins) - 1) with false
        by (symmetry; apply Z.ltb_ge; lia).
      cbn. now rewrite app_nil_r.
    + replace (Z.of_nat i <? Z.of_nat (List.length bins) - 1) with true
        by (symmetry; apply Z.ltb_lt; lia).
      replace (Z.of_nat i + 1) with (Z.of_nat (S i)) by lia.
      rewrite IH by lia. rewrite <- app_assoc.
      replace (Z.of_nat (S i)) with (Z.of_nat (i + 1)) by lia.
      rewrite !bin_at_nth.
      replace (S (S fuel) - 1)%nat with (S (S fuel - 1)) by lia.
      reflexivity.
Qed.

Lemma binCenters_unrolls (bins : list num) :
  Analytics.binCenters bins =
    map (center bins) (seq 0 (List.length bins - 1)).
Proof.
  unfold Analytics.binCenters.
  exact (@centers_loop_unrolls bins (List.length bins) 0 [] eq_refl).
Qed.

(** C6. For every histogram the renderer computes [len(bins) - 1] bin
    centres, as many as there are values when
    [len(bins) = len(values) + 1], and the [k]-th is
    [(bins[k] + bins[k+1]) / 2]; these are the positions of the labels
    of the chart it builds. *)
Theorem binCenters_are_midpoints (h : HistogramResult num) :
  let centers := Analytics.binCenters (bins h) in
  List.length centers = (List.length (bins h) - 1)%nat /\
  (1 <= Z.of_nat (List.length (bins h)) ->
   Z.of_nat (List.length centers) = Z.of_nat (List.length (bins h)) - 1) /\
  (List.length (bins h) = (List.length (values h) + 1)%nat ->
   List.length centers = List.length (values h)) /\
  (forall k, (k < List.length (bins h) - 1)%nat ->
     nth_error centers k =
       Some (num_div (num_add (nth k (bins h) NaN) (nth (k + 1) (bins h) NaN))
               (lit 2))) /\
  (forall d, Analytics.histogramData d = Some h ->
     Analytics.histogramCanvas d = true ->
     option_map (@Analytics.label_positions num)
       (Analytics.chart (Analytics.renderHistogram d)) = Some centers).
Proof.
  cbv zeta. rewrite binCenters_unrolls.
  assert (Hlen : List.length (map (center (bins h))
                                (seq 0 (List.length (bins h) - 1)))
                 = (List.length (bins h) - 1)%nat)
    by now rewrite length_map, length_seq.
  repeat split.
  - exact Hlen.
  - intros Hne. rewrite Hlen. lia.
  - intros Hinv. rewrite Hlen. lia.
  - intros k Hk. rewrite nth_error_map.
    rewrite (nth_error_nth' _ O) by (rewrite length_seq; lia).
    rewrite seq_nth by lia. reflexivity.
  - intros d Hd Hc. unfold Analytics.renderHistogram.
    destruct d as [var hd ch cv ds]. cbn in Hd, Hc. subst hd cv.
    destruct ch; cbn; now rewrite binCenters_unrolls.
Qed.

End AnalyticsFacts.

(** C6, at a histogram of three bins. *)
Lemma binCenters_are_midpoints_witness :
  List.length (Analytics.binCenters (bins sample_histogram)) = 3%nat /\
  nth_error (Analytics.binCenters (bins sample_histogram)) 2 =
    Some ((20 + 40) / 2)%R.
Proof.
  destruct (@binCenters_are_midpoints R RealNumber sample_histogram)
    as (_ & _ & Hvalues & Hnth & _).
  split.
  - apply Hvalues. reflexivity.
  - apply (Hnth 2%nat). cbn. lia.
Defined.

(** The same centres computed on doubles. *)
Example binCenters_doubles (atan2 : float -> float -> float)
    (cos sin : float -> float) :
  @Analytics.binCenters float (Float64 atan2 cos sin)
    [0%float; 10%float; 20%float; 40%float]
  = [5%float; 15%float; 30%float].
Proof. reflexivity. Qed.


(** * Concrete runs *)

(** A body of [null] makes [response.events] throw inside [try]: the
    message is stored like that of a rejected request. *)
Example fetchEvents_null_body :
  snd (fst (Store.dispatch
              (Store.fetchEvents (num:=Z) (fun s => s) (Js.Normal None))
              Store.initial))
  = [Store.SET_LOADING true; Store.SET_ERROR None;
     Store.SET_ERROR
       (Some "Cannot read properties of null (reading 'events')"%string);
     Store.SET_LOADING false].
Proof. reflexivity. Qed.

Example species_color_positron :
  Scene.species_color (Scene.Math_abs (Some (-11))) = 0xff0000.
Proof. reflexivity. Qed.

Example species_color_undefined :
  Scene.species_color (Scene.Math_abs None) = 0x00ffff.
Proof. reflexivity. Qed.

(** An event whose [py] column is missing: the first turn of the loop
    throws. *)
Example renderEvent_missing_column :
  snd (Scene.renderEvent
         (Scene.set_scene (Some empty_scene)
            (Scene.created
               (Some (mkEvent "evt-0003" 1
                        (Some (mkParticles (Some [3%R]) None (Some [5%R])
                                 None (Some [11])))))
               None None None)))
  = Js.Throw
      (Js.mkError "Cannot read properties of undefined (reading '0')").
Proof. reflexivity. Qed.

(** On doubles, half way along the track of a particle of [pz = 20] the
    display height is [0.5 * 20 / 10]. *)
Example track_height_doubles (atan2 : float -> float -> float)
    (cos sin : float -> float) (pt phi : float) :
  Scene.v_y (@Scene.sample float (Float64 atan2 cos sin) pt phi 20%float 25)
  = 1%float.
Proof. reflexivity. Qed.


(** * Further properties of the store *)

Section StoreExtras.

Variable num : Type.

Let UIState := Store.UIState num.
Let Mutation := Store.Mutation num.

Ltac run_store :=
  unfold Store.dispatch, Store.fetchEvents, Store.await, Store.commit,
    Js.try_finally, Js.try_catch, Js.bind, Js.modify, Js.read, Js.lift,
    Js.prop_of, Js.ret, Js.throw; cbn.

(** X1. Two commits to one field: the later one wins; two commits to
    different fields can be made in either order. *)
Theorem mutations_compose (m1 m2 : Mutation) (s : UIState) :
  Store.mutate m2 (Store.mutate m1 s) =
    if Nat.eqb (field_of m1) (field_of m2)
    then Store.mutate m2 s
    else Store.mutate m1 (Store.mutate m2 s).
Proof. destruct m1, m2; reflexivity. Qed.

(** X2. A request that succeeds clears an earlier error only in
    [fetchEvent] and [fetchEvents]; after a successful [fetchStatistics]
    or [fetchDetectorConfigs] the error of an earlier failure is still
    in the store. *)
Theorem stale_error_survives (others : UIState -> UIState) (s : UIState) :
  (forall stats,
     Store.error (after (Store.fetchStatistics others (Js.Normal stats)) s)
     = Store.error (others s)) /\
  (forall configs,
     Store.error
       (after (Store.fetchDetectorConfigs others (Js.Normal configs)) s)
     = Store.error (others s)) /\
  (forall body,
     Store.error (after (Store.fetchEvent (fun s => s) (Js.Normal body)) s)
     = None) /\
  (forall response,
     Store.error
       (after (Store.fetchEvents (fun s => s) (Js.Normal (Some response))) s)
     = None).
Proof.
  unfold after. split; [|split; [|split]]; intros.
  - rewrite fetchStatistics_run. reflexivity.
  - rewrite fetchDetectorConfigs_run.
    destruct configs as [cs|]; cbn [settles_fetchDetectorConfigs];
      [destruct (first_active_else_first cs)|]; reflexivity.
  - rewrite fetchEvent_run. reflexivity.
  - rewrite fetchEvents_run. reflexivity.
Qed.

(** X3. No fencing by request: when a second [fetchEvent] is dispatched
    and settles while a first one is still waiting, the response of the
    first, arriving last, replaces the event of the second. *)
Theorem older_response_overwrites (s : UIState)
    (first : option (EventBody num))
    (second : Js.completion (option (EventBody num))) :
  let second_request := fun s' => after (Store.fetchEvent (fun s => s) second) s' in
  Store.currentEvent
    (after (Store.fetchEvent second_request (Js.Normal first)) s) = first /\
  Store.loading
    (after (Store.fetchEvent second_request (Js.Normal first)) s) = false.
Proof.
  cbv zeta. unfold after. rewrite fetchEvent_run. split; reflexivity.
Qed.

(** X4. A request that fails replaces no data: after any of the four
    actions has caught a rejection, and after [fetchEvents] has caught
    the read of a [null] body, the event, the list, the statistics and
    the config are those the store held when the request settled. *)
Theorem failure_keeps_data (others : UIState -> UIState) (s : UIState)
    (e : Js.Error) :
  let started :=
    others (replay [Store.SET_LOADING true; Store.SET_ERROR None] s) in
  data_of (after (Store.fetchEvent others (Js.Throw e)) s) = data_of started /\
  data_of (after (Store.fetchEvents others (Js.Throw e)) s) = data_of started /\
  data_of (after (Store.fetchEvents others (Js.Normal None)) s)
    = data_of started /\
  data_of (after (Store.fetchStatistics others (Js.Throw e)) s)
    = data_of (others s) /\
  data_of (after (Store.fetchDetectorConfigs others (Js.Throw e)) s)
    = data_of (others s).
Proof.
  cbv zeta. unfold after.
  rewrite !fetchEvent_run, !fetchEvents_run, fetchStatistics_run,
    fetchDetectorConfigs_run.
  repeat split.
Qed.

(** X5. The getter [hasError] tests the message, not the failure: after
    a rejected request it is [true] exactly when the message is not
    empty, although the message is stored in either case. *)
Theorem hasError_needs_message (others : UIState -> UIState) (s : UIState)
    (e : Js.Error) :
  let s' := after (Store.fetchEvent others (Js.Throw e)) s in
  Store.error s' = Some (Js.message e) /\
  Store.hasError s' = negb (String.eqb (Js.message e) EmptyString) /\
  Store.isLoading s' = false.
Proof.
  cbv zeta. unfold after. rewrite fetchEvent_run. repeat split.
Qed.

(** ** [views/EventDisplay.vue] *)

Lemma fetchEvents_ctx (others : UIState -> UIState) o (s : UIState) :
  Store.fetchEvents others o (Store.mkCtx s []) =
    (Store.mkCtx (after (Store.fetchEvents others o) s)
       [Store.SET_LOADING true; Store.SET_ERROR None;
        settles_fetchEvents o; Store.SET_LOADING false],
     Js.Normal tt).
Proof.
  unfold after. rewrite fetchEvents_run. cbn [fst].
  destruct o as [[r|]|e]; run_store; reflexivity.
Qed.

Lemma loadLatestEvent_run (others others' : UIState -> UIState) o
    (s : UIState) :
  let fetched := after (Store.fetchEvents others o) s in
  let commits := [Store.SET_LOADING true; Store.SET_ERROR None;
                  settles_fetchEvents o; Store.SET_LOADING false] in
  Store.dispatch (EventDisplay.loadLatestEvent others others' o) s =
    match Store.events (others' fetched) with
    | b :: _ =>
        (Store.mutate (Store.SET_CURRENT_EVENT (Some b)) (others' fetched),
         commits ++ [Store.SET_CURRENT_EVENT (Some b)], Js.Normal tt)
    | [] => (others' fetched, commits, Js.Normal tt)
    end.
Proof.
  cbv zeta.
  unfold Store.dispatch, EventDisplay.loadLatestEvent,
    EventDisplay.selectEvent.
  unfold Js.bind at 1. rewrite fetchEvents_ctx.
  generalize (after (Store.fetchEvents others o) s). intros s1.
  unfold Store.await, Store.commit, Js.bind, Js.modify, Js.read, Js.lift,
    Js.ret.
  cbn [Store.state Store.committed].
  destruct (Store.events (others' s1)) as [|b evs]; reflexivity.
Qed.

(** X6. [loadLatestEvent] selects the first event of the list the store
    holds once [fetchEvents] is over: the first returned event when the
    request succeeds, nothing new when it returns no event, and, when
    the request fails, the first event of the list of an earlier fetch,
    which the failure left in the store. *)
Theorem loadLatestEvent_selects (others : UIState -> UIState) (s : UIState) :
  let started :=
    others (replay [Store.SET_LOADING true; Store.SET_ERROR None] s) in
  (forall r,
     let s' := after (EventDisplay.loadLatestEvent others (fun s => s)
                        (Js.Normal (Some r))) s in
     Store.events s' = events_of r /\
     Store.currentEvent s' =
       match events_of r with
       | b :: _ => Some b
       | [] => Store.currentEvent started
       end /\
     Store.loading s' = false) /\
  (forall e,
     let s' := after (EventDisplay.loadLatestEvent others (fun s => s)
                        (Js.Throw e)) s in
     Store.events s' = Store.events started /\
     Store.currentEvent s' =
       match Store.events started with
       | b :: _ => Some b
       | [] => Store.currentEvent started
       end /\
     Store.error s' = Some (Js.message e)).
Proof.
  cbv zeta.
  set (started := others (replay [Store.SET_LOADING true;
                                  Store.SET_ERROR None] s)).
  split; intros.
  - unfold after at 1 2 3. rewrite loadLatestEvent_run. cbv zeta.
    unfold after. rewrite fetchEvents_run. fold started.
    cbn [fst settles_fetchEvents Store.mutate Store.events].
    destruct (events_of r); repeat split.
  - unfold after at 1 2 3. rewrite loadLatestEvent_run. cbv zeta.
    unfold after. rewrite fetchEvents_run. fold started.
    cbn [fst settles_fetchEvents Store.mutate Store.events].
    destruct (Store.events started); repeat split.
Qed.

End StoreExtras.


(** * Further properties of the scene renderer *)

Section SceneExtras.

Variable num : Type.
Context `{JsNumber num}.

Ltac unfold_setters2 :=
  unfold Scene.set_event, Scene.set_canvasContainer, Scene.set_scene,
    Scene.set_camera, Scene.set_renderer, Scene.set_controls,
    Scene.set_showDetector, Scene.set_detectorMeshes,
    Scene.set_particleMeshes, Scene.set_objects, Scene.set_listeners,
    Scene.set_frameRequests.

Ltac run_view :=
  unfold Js.bind, Js.read, Js.modify, Js.prop_of, Js.prop_of_undefined,
    Js.set_prop_of, Js.ret, Js.throw;
  unfold_setters2; cbn.

(** ** The detector shells *)

Lemma update_last {A} (f : A -> A) (l : list A) (a : A) :
  Scene.update_nth (List.length l) f (l ++ [a]) = l ++ [f a].
Proof. induction l as [|b l IH]; cbn; [reflexivity | now rewrite IH]. Qed.

Lemma add_shell_run (s : Shell num) (color : Z) (opacity : num)
    ev kin cfg cont bg ch cam rnd ctl show dm pm objs ls fr :
  Scene.add_shell s color opacity
    (Scene.mkView ev kin cfg cont (Some (Scene.mkSceneGraph bg ch))
       cam rnd ctl show dm pm objs ls fr) =
  (Scene.mkView ev kin cfg cont
     (Some (Scene.mkSceneGraph bg (ch ++ [List.length objs])))
     cam rnd ctl show (dm ++ [List.length objs]) pm
     (objs ++ [shell_mesh s color opacity]) ls fr,
   Js.Normal tt).
Proof.
  unfold Scene.add_shell, Scene.create, Scene.assign, Scene.scene_add.
  run_view. rewrite update_last. reflexivity.
Qed.

Lemma createDetectorGeometry_run ev kin cfg cont bg ch cam rnd ctl show dm
    pm objs ls fr :
  let v := Scene.mkView ev kin cfg cont (Some (Scene.mkSceneGraph bg ch))
             cam rnd ctl show dm pm objs ls fr in
  let n := List.length objs in
  Scene.createDetectorGeometry v =
    (Scene.mkView ev kin cfg cont
       (Some (Scene.mkSceneGraph bg (kept dm ch ++ [n; S n; S (S n)])))
       cam rnd ctl show [n; S n; S (S n)] pm
       (objs ++ shells (geometry_in_use v)) ls fr,
     Js.Normal tt).
Proof.
  cbv zeta. unfold Scene.createDetectorGeometry.
  unfold Js.bind at 1. unfold Js.read at 1. cbn [Scene.detectorMeshes].
  unfold Js.bind at 1. rewrite clear_scene.
  unfold Js.bind at 1. unfold Js.modify at 1. unfold Scene.set_detectorMeshes.
  cbn [Scene.event Scene.kinematics Scene.detectorConfig Scene.canvasContainer
       Scene.scene Scene.camera Scene.renderer Scene.controls
       Scene.showDetector Scene.detectorMeshes Scene.particleMeshes
       Scene.objects Scene.listeners Scene.frameRequests].
  unfold Js.bind at 1. unfold Js.read at 1. cbn [Scene.detectorConfig].
  unfold Js.bind at 1. rewrite add_shell_run.
  unfold Js.bind at 1. rewrite add_shell_run.
  rewrite add_shell_run.
  unfold kept, shells, geometry_in_use. cbn [Scene.detectorConfig].
  rewrite !length_app. cbn [List.length app].
  rewrite <- !app_assoc. cbn [app].
  replace (List.length objs + 1)%nat with (S (List.length objs)) by lia.
  replace (S (List.length objs) + 1)%nat with (S (S (List.length objs)))
    by lia.
  reflexivity.
Qed.

Lemma kept_subset (old : list Scene.Ref) :
  forall ch x, In x (kept old ch) -> In x ch.
Proof.
  induction old as [|r old IH]; intros ch x Hx; cbn in Hx; [exact Hx|].
  apply IH in Hx. now apply remove_first_subset in Hx.
Qed.

Lemma remove_first_appended (r : Scene.Ref) (ch rest : list Scene.Ref) :
  ~ In r ch -> Scene.remove_first r (ch ++ r :: rest) = ch ++ rest.
Proof.
  induction ch as [|a ch IH]; intros Hr; cbn [app Scene.remove_first].
  - now rewrite Nat.eqb_refl.
  - destruct (Nat.eqb_spec r a) as [->|Hra].
    + exfalso. apply Hr. now left.
    + rewrite IH; [reflexivity|]. intros Hin. apply Hr. now right.
Qed.

(** Removing the objects appended last gives back the earlier
    children. *)
Lemma kept_appended (ch : list Scene.Ref) (k : nat) :
  forall n, (forall r, In r ch -> (r < n)%nat) ->
    kept (seq n k) (ch ++ seq n k) = ch.
Proof.
  induction k as [|k IH]; intros n Hch; cbn [seq kept fold_left].
  - apply app_nil_r.
  - rewrite remove_first_appended.
    + apply (IH (S n)). intros r Hr. specialize (Hch r Hr). lia.
    + intros Hin. specialize (Hch n Hin). lia.
Qed.

Lemma lookup_new (objs new : list (Scene.Object3D num)) :
  map (fun r => nth_error (objs ++ new) r) (seq (List.length objs) (List.length new))
  = map Some new.
Proof. apply lookup_appended. Qed.

(** X7. Whatever shells the view had, [createDetectorGeometry] leaves
    exactly three, built from the geometry of the [detectorConfig] prop,
    or from the default geometry when the prop is null: open cylinders
    of the outer radius and length of tracker, ECAL and HCAL, turned a
    quarter about x. The earlier shells are taken out of the scene: a
    second call leaves as many children as the first. *)
Theorem createDetectorGeometry_three_shells (v : Scene.View num) g :
  Scene.scene v = Some g ->
  let v1 := fst (Scene.createDetectorGeometry v) in
  let v2 := fst (Scene.createDetectorGeometry v1) in
  snd (Scene.createDetectorGeometry v) = Js.Normal tt /\
  List.length (Scene.detectorMeshes v1) = 3%nat /\
  lookup v1 (Scene.detectorMeshes v1) = map Some (shells (geometry_in_use v)) /\
  scene_children v1 =
    kept (Scene.detectorMeshes v) (Scene.children g) ++ Scene.detectorMeshes v1 /\
  lookup v2 (Scene.detectorMeshes v2) = map Some (shells (geometry_in_use v)) /\
  ((forall r, In r (Scene.children g) ->
              (r < List.length (Scene.objects v))%nat) ->
   scene_children v2 =
     kept (Scene.detectorMeshes v) (Scene.children g)
     ++ Scene.detectorMeshes v2).
Proof.
  intros Hg.
  destruct v as [ev kin cfg cont sc cam rnd ctl show dm pm objs ls fr].
  destruct g as [bg ch]. cbn in Hg. subst sc.
  cbv zeta. rewrite createDetectorGeometry_run. cbv zeta. cbn [fst snd].
  rewrite createDetectorGeometry_run. cbv zeta.
  unfold lookup, scene_children, geometry_in_use.
  cbn [fst Scene.detectorMeshes Scene.objects Scene.scene Scene.children
       Scene.detectorConfig List.length].
  set (geo := match cfg with Some c => geometry c | None => _ end).
  set (n := List.length objs).
  repeat split.
  - exact (lookup_new objs (shells geo)).
  - exact (lookup_new (objs ++ shells geo) (shells geo)).
  - intros Hch.
    change [n; S n; S (S n)] with (seq n 3).
    rewrite kept_appended; [reflexivity|].
    intros r Hr. apply kept_subset in Hr. now apply Hch.
Qed.

(** ** Mounting *)

Lemma initThreeJS_run ev kin cfg (w h : num) (n : nat) :
  Scene.initThreeJS
    (Scene.created ev kin cfg (Some (Scene.mkContainer w h n))) =
  (Scene.mkView ev kin cfg (Some (Scene.mkContainer w h (S n)))
     (Some (Scene.mkSceneGraph 0x0a0e27 [0; 1; 2; 3]%nat))
     (Some (default_camera (num_div w h)))
     (Some (Scene.mkRenderer w h false 0))
     (Some (Scene.mkControls true (decimal 5 2) false 0))
     true [] [] helpers
     [("resize"%string, Scene.cb_onWindowResize)] [],
   Js.Normal tt).
Proof. vm_compute. reflexivity. Qed.

Lemma prepare_run ev kin cfg (cont : Scene.Container num) :
  (@Scene.initThreeJS num _ ;; @Scene.createDetectorGeometry num _)%js
    (Scene.created ev kin cfg (Some cont)) =
  (prepared ev kin cfg cont, Js.Normal tt).
Proof.
  destruct cont as [w h n]. unfold Js.bind at 1.
  rewrite initThreeJS_run, createDetectorGeometry_run. reflexivity.
Qed.

Lemma animate_run (ev : option (Event num)) kin cfg cont sc cam r c show
    dm pm objs ls fr :
  let v := Scene.mkView ev kin cfg cont sc cam (Some r) (Some c) show dm pm
             objs ls fr in
  Scene.animate v = (animated v, Js.Normal tt).
Proof. reflexivity. Qed.

Lemma mounted_run_empty kin cfg (cont : Scene.Container num) :
  Scene.mounted (Scene.created None kin cfg (Some cont)) =
  (animated (prepared None kin cfg cont), Js.Normal tt).
Proof.
  destruct cont as [w h n]. unfold Scene.mounted.
  unfold Js.bind at 1. rewrite initThreeJS_run.
  unfold Js.bind at 1. rewrite createDetectorGeometry_run.
  reflexivity.
Qed.

Lemma mounted_run_drawn e ps lx ly lz lid (M : nat) kin cfg
    (cont : Scene.Container num) :
  particles e = Some ps -> parallel ps lx ly lz lid M ->
  Scene.mounted (Scene.created (Some e) kin cfg (Some cont)) =
  (animated (fst (Scene.renderEvent (prepared (Some e) kin cfg cont))),
   Js.Normal tt).
Proof.
  intros Hps Hpar. destruct cont as [w h n]. unfold Scene.mounted.
  unfold Js.bind at 1. rewrite initThreeJS_run.
  unfold Js.bind at 1. rewrite createDetectorGeometry_run.
  unfold Js.bind at 1. unfold Js.read at 1. cbn [Scene.event].
  unfold Js.bind at 1.
  change (Scene.mkView (Some e) kin cfg
            (Some (Scene.mkContainer w h (S n))) _ _ _ _ _ _ _ _ _ _)
    with (prepared (Some e) kin cfg (Scene.mkContainer w h n)).
  rewrite (@renderEvent_draws num _
             (prepared (Some e) kin cfg (Scene.mkContainer w h n))
             (Scene.mkSceneGraph 0x0a0e27 (seq 0 7)) e ps lx ly lz lid M
             eq_refl eq_refl Hps Hpar).
  cbv zeta. cbn [fst]. unfold_setters2. unfold prepared.
  cbn [Scene.event Scene.kinematics Scene.detectorConfig
       Scene.canvasContainer Scene.scene Scene.camera Scene.renderer
       Scene.controls Scene.showDetector Scene.detectorMeshes
       Scene.particleMeshes Scene.objects Scene.listeners
       Scene.frameRequests Scene.clientWidth Scene.clientHeight
       Scene.canvases Scene.background Scene.children].
  rewrite animate_run. reflexivity.
Qed.

(** X8. Mounting in a container, with no event or with an event of [M]
    particles in parallel columns, completes normally and leaves a well
    formed view: the scene holds the two lights, the grid, the axes, the
    three shells and the [2 * M] primitives, each once; the resize
    listener is registered, one request of the render loop is pending
    and one frame has been drawn. *)
Theorem mounted_starts_view kin cfg (cont : Scene.Container num) :
  (let run := Scene.mounted (Scene.created None kin cfg (Some cont)) in
   snd run = Js.Normal tt /\
   scene_children (fst run) = seq 0 7 /\
   Scene.detectorMeshes (fst run) = [4; 5; 6]%nat /\
   Scene.particleMeshes (fst run) = [] /\
   Scene.listeners (fst run) = [("resize"%string, Scene.cb_onWindowResize)] /\
   Scene.frameRequests (fst run) = [Scene.cb_animate] /\
   render_calls (fst run) = 1%nat /\
   well_formed (fst run)) /\
  (forall e ps lx ly lz lid (M : nat),
     particles e = Some ps -> parallel ps lx ly lz lid M ->
     let run := Scene.mounted (Scene.created (Some e) kin cfg (Some cont)) in
     snd run = Js.Normal tt /\
     scene_children (fst run) = seq 0 (7 + 2 * M) /\
     Scene.detectorMeshes (fst run) = [4; 5; 6]%nat /\
     Scene.particleMeshes (fst run) = seq 7 (2 * M) /\
     primitives (fst run) = map Some (drawn lx ly lz lid 0 M) /\
     Scene.listeners (fst run) = [("resize"%string, Scene.cb_onWindowResize)] /\
     Scene.frameRequests (fst run) = [Scene.cb_animate] /\
     render_calls (fst run) = 1%nat /\
     well_formed (fst run)).
Proof.
  split.
  - cbv zeta. rewrite mounted_run_empty. cbn [fst snd].
    repeat split.
    + repeat constructor; cbn [In]; intuition discriminate.
    + cbn. intros r Hr. intuition lia.
    + cbn. intros r Hr. contradiction.
  - intros e ps lx ly lz lid M Hps Hpar. cbv zeta.
    rewrite (@mounted_run_drawn e ps lx ly lz lid M kin cfg cont Hps Hpar).
    cbn [fst snd].
    destruct (@renderEvent_primitives num _ (prepared (Some e) kin cfg cont)
                (Scene.mkSceneGraph 0x0a0e27 (seq 0 7)) e ps lx ly lz lid M
                eq_refl eq_refl Hps Hpar)
      as (_ & Hprims & Hpm & Hch & Hobjs).
    set (v := fst (Scene.renderEvent (prepared (Some e) kin cfg cont))) in *.
    assert (Hch' : scene_children (animated v) = seq 0 (7 + 2 * M)).
    { change (scene_children (animated v)) with (scene_children v).
      rewrite Hch. cbn [Scene.particleMeshes prepared kept fold_left
                        Scene.children Scene.objects].
      rewrite seq_app. reflexivity. }
    assert (Hlen : List.length (Scene.objects (animated v)) = (7 + 2 * M)%nat).
    { change (Scene.objects (animated v)) with (Scene.objects v).
      rewrite Hobjs, length_app, drawn_length. reflexivity. }
    assert (Hpm' : Scene.particleMeshes (animated v) = seq 7 (2 * M)).
    { change (Scene.particleMeshes (animated v)) with (Scene.particleMeshes v).
      rewrite Hpm. reflexivity. }
    split; [reflexivity|]. split; [exact Hch'|].
    split.
    { change (Scene.detectorMeshes (animated v))
        with (Scene.detectorMeshes v).
      unfold v. rewrite (@renderEvent_draws num _
        (prepared (Some e) kin cfg cont)
        (Scene.mkSceneGraph 0x0a0e27 (seq 0 7)) e ps lx ly lz lid M
        eq_refl eq_refl Hps Hpar). reflexivity. }
    split; [exact Hpm'|]. split; [exact Hprims|].
    assert (Hframe :
      Scene.listeners v = [("resize"%string, Scene.cb_onWindowResize)] /\
      Scene.frameRequests v = [] /\
      Scene.renderer v = Scene.renderer (prepared (Some e) kin cfg cont) /\
      Scene.controls v = Scene.controls (prepared (Some e) kin cfg cont)).
    { unfold v. rewrite (@renderEvent_draws num _
        (prepared (Some e) kin cfg cont)
        (Scene.mkSceneGraph 0x0a0e27 (seq 0 7)) e ps lx ly lz lid M
        eq_refl eq_refl Hps Hpar). repeat split. }
    destruct Hframe as (Hls & Hfr & Hrnd & Hctl).
    split; [exact Hls|].
    split; [unfold animated; cbn; now rewrite Hfr|].
    split; [unfold render_calls, animated; cbn; now rewrite Hrnd|].
    unfold well_formed. rewrite Hch', Hlen, Hpm'.
    split; [apply seq_NoDup|].
    split; intros r Hr; apply in_seq in Hr; lia.
Qed.

(** X9. When the container is missing, mounting throws, after the
    scene is made and before anything is registered:
    there is no camera, renderer or controls, no listener and no pending
    frame; tearing the view down and letting frames pass change
    nothing. *)
Theorem mounted_without_container (ev : option (Event num)) kin cfg :
  let run := Scene.mounted (Scene.created ev kin cfg None) in
  (exists err, snd run = Js.Throw err) /\
  fst run = Scene.set_scene (Some (Scene.mkSceneGraph 0x0a0e27 []))
              (Scene.created ev kin cfg None) /\
  Scene.listeners (fst run) = [] /\
  Scene.frameRequests (fst run) = [] /\
  Scene.unmount (fst run) = (fst run, Js.Normal tt) /\
  (forall n, Scene.frames n (fst run) = (fst run, Js.Normal tt)).
Proof.
  cbv zeta. split; [eexists; reflexivity|]. repeat split.
  intros n. induction n as [|n IH]; [reflexivity|].
  cbn [Scene.frames]. unfold Js.bind at 1.
  change (Scene.animation_frame
            (fst (Scene.mounted (Scene.created ev kin cfg None))))
    with (fst (Scene.mounted (Scene.created ev kin cfg None)), Js.Normal tt).
  exact IH.
Qed.

(** X10. When the event given at mount has [particles] without a [px]
    column, [renderEvent] throws inside [mounted]: the render loop is
    never started, no frame is requested or drawn, although the scene
    holds the lights, the grid, the axes and the three shells and the
    resize listener is registered; the listener stays after teardown. *)
Theorem mounted_malformed_event e ps kin cfg (cont : Scene.Container num) :
  particles e = Some ps -> px ps = None ->
  let run := Scene.mounted (Scene.created (Some e) kin cfg (Some cont)) in
  (exists err, snd run = Js.Throw err) /\
  scene_children (fst run) = seq 0 7 /\
  Scene.detectorMeshes (fst run) = [4; 5; 6]%nat /\
  Scene.particleMeshes (fst run) = [] /\
  Scene.listeners (fst run) = [("resize"%string, Scene.cb_onWindowResize)] /\
  Scene.frameRequests (fst run) = [] /\
  render_calls (fst run) = 0%nat /\
  (forall n, render_calls (fst (Scene.frames n (fst run))) = 0%nat) /\
  Scene.listeners (fst (Scene.unmount (fst run)))
    = [("resize"%string, Scene.cb_onWindowResize)].
Proof.
  intros Hps Hpx. destruct cont as [w h n].
  assert (Hrun : exists err,
    Scene.mounted
      (Scene.created (Some e) kin cfg (Some (Scene.mkContainer w h n))) =
    (prepared (Some e) kin cfg (Scene.mkContainer w h n), Js.Throw err)).
  { unfold Scene.mounted.
    unfold Js.bind at 1. rewrite initThreeJS_run.
    unfold Js.bind at 1. rewrite createDetectorGeometry_run.
    unfold Js.bind at 1. unfold Js.read at 1. cbn [Scene.event].
    unfold Js.bind at 1. unfold Scene.renderEvent.
    run_view. rewrite Hps. cbn. rewrite Hpx. eexists. reflexivity. }
  destruct Hrun as [err Hrun].
  cbv zeta. rewrite Hrun. cbn [fst snd].
  split; [exists err; reflexivity|]. repeat split.
  intros k. induction k as [|k IH]; [reflexivity|].
  cbn [Scene.frames]. unfold Js.bind at 1.
  change (Scene.animation_frame
            (prepared (Some e) kin cfg (Scene.mkContainer w h n)))
    with (prepared (Some e) kin cfg (Scene.mkContainer w h n), Js.Normal tt).
  exact IH.
Qed.

(** ** Resizing *)

(** X11. After the container has taken a new size, a resize of the
    window sets the aspect of the camera to width over height and the
    size of the renderer to the container's, and nothing else; a second
    resize event changes nothing more. *)
Theorem resize_follows_container (v : Scene.View num) cam r e (w h : num) :
  Scene.listeners v = [("resize"%string, Scene.cb_onWindowResize)] ->
  Scene.camera v = Some cam -> Scene.renderer v = Some r ->
  Scene.canvasContainer v = Some e ->
  let run := Scene.window_resize (resized w h v) in
  snd run = Js.Normal tt /\
  Scene.camera (fst run) =
    Some (Scene.mkCamera (Scene.fov cam) (num_div w h) (Scene.near cam)
            (Scene.far cam) (Scene.cam_position cam) (Scene.cam_target cam)) /\
  Scene.renderer (fst run) =
    Some (Scene.mkRenderer w h (Scene.renderer_disposed r)
            (Scene.renderCalls r)) /\
  fst run =
    Scene.set_renderer (Scene.renderer (fst run))
      (Scene.set_camera (Scene.camera (fst run)) (resized w h v)) /\
  Scene.window_resize (fst run) = (fst run, Js.Normal tt).
Proof.
  destruct v as [ev kin cfg cont sc cm rnd ctl show dm pm objs ls fr].
  cbn [Scene.listeners Scene.camera Scene.renderer Scene.canvasContainer].
  intros -> -> -> ->. cbv zeta.
  destruct cam as [fv asp nr fa pos tgt]. destruct r as [rw rh rd rc].
  destruct e as [cw chh cn].
  repeat split.
Qed.

(** ** Showing and hiding the detector *)

Lemma update_nth_nth {A} (f : A -> A) (l : list A) :
  forall n m,
    nth_error (Scene.update_nth n f l) m =
      if Nat.eqb n m then option_map f (nth_error l m) else nth_error l m.
Proof.
  induction l as [|a l IH]; intros [|n] [|m]; cbn; try reflexivity.
  - now destruct (Nat.eqb n m).
  - apply IH.
Qed.

Lemma show_all_nth (b : bool) (refs : list Scene.Ref) :
  forall objs r,
    nth_error (show_all b refs objs) r =
      if in_dec Nat.eq_dec r refs
      then option_map (@set_visible num b) (nth_error objs r)
      else nth_error objs r.
Proof.
  induction refs as [|a refs IH]; intros objs r; cbn [show_all fold_left].
  - reflexivity.
  - fold (show_all b refs (Scene.update_nth a (set_visible b) objs)).
    rewrite IH, update_nth_nth.
    destruct (in_dec Nat.eq_dec r (a :: refs)) as [Hin'|Hnin'];
      destruct (in_dec Nat.eq_dec r refs) as [Hin|Hnin];
      destruct (Nat.eqb_spec a r) as [Heq|Hne];
      try reflexivity;
      try (exfalso; cbn [In] in *; tauto);
      destruct (nth_error objs r); reflexivity.
Qed.

Lemma forEach_set_visible (b : bool) (refs : list Scene.Ref)
    (ev : option (Event num)) kin cfg cont sc cam rnd ctl show dm pm ls fr :
  forall objs,
    Scene.forEach refs
      (fun mesh =>
         Scene.assign mesh
           (fun o => Scene.mkObject (Scene.kind o) (Scene.position o)
                       (Scene.rotation_x o) b))
      (Scene.mkView ev kin cfg cont sc cam rnd ctl show dm pm objs ls fr) =
    (Scene.mkView ev kin cfg cont sc cam rnd ctl show dm pm
       (show_all b refs objs) ls fr,
     Js.Normal tt).
Proof.
  induction refs as [|r refs IH]; intros objs; cbn [Scene.forEach].
  - reflexivity.
  - unfold Js.bind at 1. unfold Scene.assign at 1. run_view.
    rewrite IH. reflexivity.
Qed.

Lemma toggleDetector_run (ev : option (Event num)) kin cfg cont sc cam rnd
    ctl show dm pm objs ls fr :
  Scene.toggleDetector
    (Scene.mkView ev kin cfg cont sc cam rnd ctl show dm pm objs ls fr) =
  (Scene.mkView ev kin cfg cont sc cam rnd ctl (negb show) dm pm
     (show_all (negb show) dm objs) ls fr,
   Js.Normal tt).
Proof.
  unfold Scene.toggleDetector. run_view. apply forEach_set_visible.
Qed.

(** X12. [toggleDetector] flips [showDetector] and gives every detector
    mesh that visibility, leaving all other objects as they are. Two
    toggles bring back the flag; they bring back the whole view when the
    meshes were showing what the flag said. *)
Theorem toggleDetector_twice (v : Scene.View num) :
  let v1 := fst (Scene.toggleDetector v) in
  let v2 := fst (Scene.toggleDetector v1) in
  snd (Scene.toggleDetector v) = Js.Normal tt /\
  Scene.showDetector v1 = negb (Scene.showDetector v) /\
  Scene.showDetector v2 = Scene.showDetector v /\
  (forall r, In r (Scene.detectorMeshes v) ->
     visible_at v1 r =
       option_map (fun _ => negb (Scene.showDetector v)) (visible_at v r)) /\
  (forall r, ~ In r (Scene.detectorMeshes v) ->
     nth_error (Scene.objects v1) r = nth_error (Scene.objects v) r) /\
  ((forall r, In r (Scene.detectorMeshes v) ->
      visible_at v r = Some (Scene.showDetector v)) ->
   v2 = v).
Proof.
  destruct v as [ev kin cfg cont sc cam rnd ctl show dm pm objs ls fr].
  cbv zeta. rewrite toggleDetector_run. cbn [fst snd].
  rewrite toggleDetector_run. unfold visible_at.
  cbn [fst Scene.showDetector Scene.detectorMeshes Scene.objects].
  rewrite negb_involutive.
  split; [reflexivity|]. split; [reflexivity|]. split; [reflexivity|].
  split; [|split].
  - intros r Hr. rewrite show_all_nth.
    destruct (in_dec Nat.eq_dec r dm); [|contradiction].
    destruct (nth_error objs r); reflexivity.
  - intros r Hr. rewrite show_all_nth.
    destruct (in_dec Nat.eq_dec r dm); [contradiction|reflexivity].
  - intros Hvis. f_equal. apply nth_error_ext. intros r.
    rewrite !show_all_nth.
    destruct (in_dec Nat.eq_dec r dm) as [Hin|Hnin]; [|reflexivity].
    specialize (Hvis r Hin).
    destruct (nth_error objs r) as [[k p rx vis]|]; [|discriminate].
    cbn in Hvis. injection Hvis as ->. reflexivity.
Qed.

(** ** More on [renderEvent] *)

Lemma remove_first_other (r x : Scene.Ref) (l : list Scene.Ref) :
  x <> r -> In x l -> In x (Scene.remove_first r l).
Proof.
  intros Hx. induction l as [|a l IH]; cbn [Scene.remove_first In]; [auto|].
  destruct (Nat.eqb_spec r a) as [->|Hra]; cbn [In]; intuition congruence.
Qed.

Lemma kept_other (old : list Scene.Ref) :
  forall ch x, ~ In x old -> In x ch -> In x (kept old ch).
Proof.
  induction old as [|r old IH]; intros ch x Hx Hin; cbn [kept fold_left];
    [exact Hin|].
  apply IH; [intros Hold; apply Hx; now right|].
  apply remove_first_other; [|exact Hin].
  intros ->. apply Hx. now left.
Qed.

(** X13. [renderEvent] touches only the per-event primitives: every
    other child of the scene (lights, helpers, shells) stays in it, no
    existing object is changed, and the shells, the camera, the
    renderer, the controls, the listeners and the pending frames are as
    before. *)
Theorem renderEvent_keeps_rest (v : Scene.View num) g e ps lx ly lz lid
    (M : nat) :
  Scene.scene v = Some g -> Scene.event v = Some e ->
  particles e = Some ps -> parallel ps lx ly lz lid M ->
  let v' := fst (Scene.renderEvent v) in
  (forall r, In r (Scene.children g) -> ~ In r (Scene.particleMeshes v) ->
             In r (scene_children v')) /\
  (forall r o, nth_error (Scene.objects v) r = Some o ->
               nth_error (Scene.objects v') r = Some o) /\
  Scene.detectorMeshes v' = Scene.detectorMeshes v /\
  Scene.showDetector v' = Scene.showDetector v /\
  Scene.camera v' = Scene.camera v /\
  Scene.renderer v' = Scene.renderer v /\
  Scene.controls v' = Scene.controls v /\
  Scene.listeners v' = Scene.listeners v /\
  Scene.frameRequests v' = Scene.frameRequests v.
Proof.
  intros Hg He Hps Hpar. cbv zeta.
  rewrite (renderEvent_draws v Hg He Hps Hpar). cbv zeta.
  unfold scene_children. unfold_setters2.
  cbn [fst Scene.scene Scene.children Scene.objects Scene.detectorMeshes
       Scene.showDetector Scene.camera Scene.renderer Scene.controls
       Scene.listeners Scene.frameRequests].
  repeat split.
  - intros r Hin Hnot. apply in_or_app. left.
    now apply (kept_other (Scene.particleMeshes v)).
  - intros r o Hr. rewrite nth_error_app1; [exact Hr|].
    apply nth_error_Some. congruence.
Qed.

Lemma renderEvent_clears (v : Scene.View num) g :
  Scene.scene v = Some g -> Scene.event v = None ->
  Scene.renderEvent v =
    (Scene.set_particleMeshes []
       (Scene.set_scene
          (Some (Scene.mkSceneGraph (Scene.background g)
                   (kept (Scene.particleMeshes v) (Scene.children g)))) v),
     Js.Normal tt).
Proof.
  intros Hg He.
  destruct v as [ev kin cfg cont sc cam rnd ctl show dm pm objs ls fr].
  destruct g as [bg ch]. cbn in Hg, He. subst ev sc.
  unfold Scene.renderEvent.
  unfold Js.bind at 1. unfold Js.read at 1. cbn [Scene.particleMeshes].
  unfold Js.bind at 1. rewrite clear_scene. reflexivity.
Qed.

Lemma watch_event_unfolds (ev : option (Event num)) (v : Scene.View num) :
  Scene.watch_event ev v = Scene.renderEvent (Scene.set_event ev v).
Proof. reflexivity. Qed.

(** X14. Drawing an event and then taking it away gives back the scene:
    on a view that shows no event, after the watcher has run for an
    event and then for [null], the children of the scene are those it
    had and there is no per-event primitive. *)
Theorem draw_then_clear (v : Scene.View num) g e ps lx ly lz lid (M : nat) :
  Scene.scene v = Some g -> Scene.particleMeshes v = [] ->
  (forall r, In r (Scene.children g) ->
             (r < List.length (Scene.objects v))%nat) ->
  particles e = Some ps -> parallel ps lx ly lz lid M ->
  let v1 := fst (Scene.watch_event (Some e) v) in
  let v2 := fst (Scene.watch_event None v1) in
  snd (Scene.watch_event (Some e) v) = Js.Normal tt /\
  snd (Scene.watch_event None v1) = Js.Normal tt /\
  List.length (primitives v1) = (2 * M)%nat /\
  scene_children v2 = Scene.children g /\
  Scene.particleMeshes v2 = [] /\
  primitives v2 = [].
Proof.
  intros Hg Hpm Hch Hps Hpar.
  destruct v as [ev kin cfg cont sc cam rnd ctl show dm pm objs ls fr].
  cbn in Hg, Hpm, Hch. subst sc pm.
  cbv zeta. rewrite !watch_event_unfolds.
  set (shown := Scene.set_event (Some e) _).
  pose proof (@renderEvent_draws num _ shown g e ps lx ly lz lid M
                eq_refl eq_refl Hps Hpar) as Hdraw.
  cbv zeta in Hdraw.
  destruct (@renderEvent_primitives num _ shown g e ps lx ly lz lid M
              eq_refl eq_refl Hps Hpar) as (_ & Hprims & _).
  rewrite Hprims. rewrite Hdraw. cbn [fst snd].
  match goal with
  | |- context [Scene.renderEvent ?w] => set (cleared := w)
  end.
  rewrite (@renderEvent_clears cleared
             (Scene.mkSceneGraph (Scene.background g)
                (Scene.children g ++ seq (List.length objs) (2 * M)))
             eq_refl eq_refl).
  unfold scene_children, primitives. unfold_setters2.
  cbn [fst snd Scene.scene Scene.children Scene.particleMeshes
       Scene.background Scene.objects map].
  change (Scene.particleMeshes cleared) with (seq (List.length objs) (2 * M)).
  rewrite (kept_appended (Scene.children g) (2 * M) Hch).
  rewrite length_map, drawn_length. repeat split.
Qed.

(** X18. Every run of the watcher keeps the view well formed, whether
    the new event is [null] or has parallel columns: the scene holds
    each object once and every reference is that of a created
    object. *)
Theorem watch_event_well_formed (v : Scene.View num) g :
  Scene.scene v = Some g -> well_formed v ->
  well_formed (fst (Scene.watch_event None v)) /\
  (forall e ps lx ly lz lid (M : nat),
     particles e = Some ps -> parallel ps lx ly lz lid M ->
     well_formed (fst (Scene.watch_event (Some e) v))).
Proof.
  intros Hg Hwf. split.
  - rewrite watch_event_unfolds.
    assert (Hg' : Scene.scene (Scene.set_event None v) = Some g)
      by (destruct v; exact Hg).
    rewrite (renderEvent_clears (Scene.set_event None v) Hg')
      by (destruct v; reflexivity).
    destruct Hwf as (Hnd & Hch & _).
    unfold scene_children in Hnd, Hch. rewrite Hg in Hnd, Hch.
    destruct v as [ev kin cfg cont sc cam rnd ctl show dm pm objs ls fr].
    unfold well_formed, scene_children. unfold_setters2.
    cbn [fst Scene.scene Scene.children Scene.particleMeshes Scene.objects]
      in *.
    destruct (cleared_children pm Hnd) as [Hnd' Hkept].
    split; [exact Hnd'|]. split.
    + intros r Hr. apply Hch. now destruct (Hkept r Hr).
    + intros r [].
  - intros e ps lx ly lz lid M Hps Hpar. rewrite watch_event_unfolds.
    apply (@renderEvent_well_formed num _ (Scene.set_event (Some e) v) g e ps
             lx ly lz lid M); try assumption;
      destruct v; first [exact Hg | exact Hwf | reflexivity].
Qed.

(** ** Columns of unequal length *)

Lemma draw_particle_any (lx ly lz : list num) (lid : list Z) en (i : nat) :
  forall (ev : option (Event num)) kin cfg cont bg ch cam rnd ctl show dm pm
         objs ls fr,
    Scene.draw_particle
      (mkParticles (Some lx) (Some ly) (Some lz) en (Some lid)) (Z.of_nat i)
      (Scene.mkView ev kin cfg cont (Some (Scene.mkSceneGraph bg ch))
         cam rnd ctl show dm pm objs ls fr) =
    (Scene.mkView ev kin cfg cont
       (Some (Scene.mkSceneGraph bg
                (ch ++ [List.length objs; S (List.length objs)])))
       cam rnd ctl show dm
       (pm ++ [List.length objs; S (List.length objs)])
       (objs ++ drawn_at lx ly lz lid i) ls fr,
     Js.Normal tt).
Proof.
  intros.
  unfold Scene.draw_particle, Scene.column_at, Scene.create, Scene.scene_add.
  run_view. rewrite Nat2Z.id.
  rewrite length_app. cbn [List.length]. rewrite Nat.add_1_r.
  rewrite <- !app_assoc. reflexivity.
Qed.

Lemma drawn_from_length (lx ly lz : list num) (lid : list Z) (k : nat) :
  forall i, List.length (drawn_from lx ly lz lid i k) = (2 * k)%nat.
Proof.
  induction k as [|k IH]; intros i; [reflexivity|].
  unfold drawn_from in *. cbn [seq flat_map].
  rewrite length_app, IH. cbn [drawn_at List.length]. lia.
Qed.

Lemma draw_loop_any (lx ly lz : list num) (lid : list Z) en (n : nat) :
  forall (k i : nat), (i + k = n)%nat ->
  forall (ev : option (Event num)) kin cfg cont bg ch cam rnd ctl show dm pm
         objs ls fr,
    Scene.for_loop k (Z.of_nat i) (fun i => i <? Z.of_nat n)
      (Scene.draw_particle
         (mkParticles (Some lx) (Some ly) (Some lz) en (Some lid)))
      (Scene.mkView ev kin cfg cont (Some (Scene.mkSceneGraph bg ch))
         cam rnd ctl show dm pm objs ls fr) =
    (Scene.mkView ev kin cfg cont
       (Some (Scene.mkSceneGraph bg
                (ch ++ seq (List.length objs) (2 * k))))
       cam rnd ctl show dm
       (pm ++ seq (List.length objs) (2 * k))
       (objs ++ drawn_from lx ly lz lid i k) ls fr,
     Js.Normal tt).
Proof.
  induction k as [|k IH]; intros i Hik; intros; cbn [Scene.for_loop].
  - cbn [Nat.mul seq drawn_from flat_map]. now rewrite !app_nil_r.
  - replace (Z.of_nat i <? Z.of_nat n) with true
      by (symmetry; apply Z.ltb_lt; lia).
    unfold Js.bind at 1. rewrite draw_particle_any.
    replace (Z.of_nat i + 1) with (Z.of_nat (S i)) by lia.
    rewrite IH by lia.
    unfold drawn_from. cbn [seq flat_map]. rewrite length_app.
    cbn [drawn_at List.length].
    replace (2 * S k)%nat with (S (S (2 * k))) by lia.
    cbn [seq]. rewrite <- !app_assoc. cbn [app].
    replace (List.length objs + 2)%nat with (S (S (List.length objs))) by lia.
    reflexivity.
Qed.

Lemma drawn_from_nth (lx ly lz : list num) (lid : list Z) (k : nat) :
  forall i j, (j < k)%nat ->
    nth (2 * j) (map Some (drawn_from lx ly lz lid i k)) None =
      nth_error (drawn_at lx ly lz lid (i + j)) 0 /\
    nth (2 * j + 1) (map Some (drawn_from lx ly lz lid i k)) None =
      nth_error (drawn_at lx ly lz lid (i + j)) 1.
Proof.
  induction k as [|k IH]; intros i j Hj; [lia|].
  unfold drawn_from in *. cbn [seq flat_map]. destruct j as [|j].
  - rewrite Nat.add_0_r. split; reflexivity.
  - replace (2 * S j)%nat with (S (S (2 * j))) by lia.
    replace (i + S j)%nat with (S i + j)%nat by lia.
    cbn [drawn_at app map nth Nat.add].
    apply IH. lia.
Qed.

(** X15. [renderEvent] counts the particles on the [px] column alone.
    When the four columns it reads are present but of unequal length, it
    still completes and leaves two primitives for each entry of [px]; a
    particle beyond the end of [pdg_id] is drawn cyan, and a coordinate
    beyond the end of its column enters the track as [NaN]. *)
Theorem renderEvent_unequal_columns (v : Scene.View num) g e ps lx ly lz lid :
  Scene.scene v = Some g -> Scene.event v = Some e ->
  particles e = Some ps ->
  px ps = Some lx -> py ps = Some ly -> pz ps = Some lz ->
  pdg_id ps = Some lid ->
  let prims := primitives (fst (Scene.renderEvent v)) in
  snd (Scene.renderEvent v) = Js.Normal tt /\
  List.length prims = (2 * List.length lx)%nat /\
  (forall i, (i < List.length lx)%nat ->
     points_of (nth (2 * i) prims None) =
       track_of (Scene.to_number (nth_error lx i))
         (Scene.to_number (nth_error ly i))
         (Scene.to_number (nth_error lz i)) /\
     is_marker (nth (2 * i + 1) prims None) = true) /\
  (forall i, (i < List.length lx)%nat -> (List.length lid <= i)%nat ->
     color_of (nth (2 * i) prims None) = Some 0x00ffff /\
     color_of (nth (2 * i + 1) prims None) = Some 0x00ffff) /\
  (forall i, (List.length ly <= i)%nat ->
     Scene.to_number (nth_error ly i) = NaN).
Proof.
  intros Hg He Hps Hx Hy Hz Hid.
  destruct v as [ev kin cfg cont sc cam rnd ctl show dm pm objs ls fr].
  destruct ps as [cx cy cz en cid]. destruct g as [bg ch].
  cbn in Hg, He, Hx, Hy, Hz, Hid. subst ev sc cx cy cz cid.
  assert (Hrun :
    Scene.renderEvent
      (Scene.mkView (Some e) kin cfg cont (Some (Scene.mkSceneGraph bg ch))
         cam rnd ctl show dm pm objs ls fr) =
    (Scene.mkView (Some e) kin cfg cont
       (Some (Scene.mkSceneGraph bg
                (kept pm ch ++ seq (List.length objs) (2 * List.length lx))))
       cam rnd ctl show dm (seq (List.length objs) (2 * List.length lx))
       (objs ++ drawn_from lx ly lz lid 0 (List.length lx)) ls fr,
     Js.Normal tt)).
  { unfold Scene.renderEvent.
    unfold Js.bind at 1. unfold Js.read at 1. cbn [Scene.particleMeshes].
    unfold Js.bind at 1. rewrite clear_scene.
    run_view. rewrite Hps. run_view.
    pose proof (@draw_loop_any lx ly lz lid en (List.length lx)
                  (List.length lx) 0 (Nat.add_0_l _)) as Hloop.
    cbn [Z.of_nat] in Hloop. rewrite Hloop. reflexivity. }
  cbv zeta. rewrite Hrun. cbn [fst snd].
  match goal with
  | |- context [primitives ?w] =>
      assert (Hprims : primitives w
                       = map Some (drawn_from lx ly lz lid 0 (List.length lx)))
  end.
  { unfold primitives. cbn [Scene.objects Scene.particleMeshes].
    rewrite <- (drawn_from_length lx ly lz lid (List.length lx) 0).
    apply lookup_appended. }
  rewrite Hprims.
  split; [reflexivity|]. split.
  { rewrite length_map. apply drawn_from_length. }
  split; [|split].
  - intros i Hi.
    destruct (@drawn_from_nth lx ly lz lid (List.length lx) 0 i Hi)
      as [-> ->].
    split; reflexivity.
  - intros i Hi Hlid.
    destruct (@drawn_from_nth lx ly lz lid (List.length lx) 0 i Hi)
      as [-> ->].
    cbn [Nat.add drawn_at nth_error color_of Scene.new].
    apply nth_error_None in Hlid. rewrite Hlid. split; reflexivity.
  - intros i Hi. apply nth_error_None in Hi. now rewrite Hi.
Qed.

End SceneExtras.


(** ** The tracks beyond the cap, on doubles *)

Lemma SFcompare_finite_antisym m e m' e' :
  SFcompare (S754_finite false m' e') (S754_finite false m e) =
  option_map CompOpp
    (SFcompare (S754_finite false m e) (S754_finite false m' e')).
Proof.
  cbn [SFcompare option_map]. rewrite (Z.compare_antisym e e').
  destruct (e ?= e'); cbn [CompOpp]; try reflexivity.
  rewrite !Pos.compare_cont_spec, (Pos.compare_antisym m m').
  destruct (m ?= m')%positive; reflexivity.
Qed.

Lemma SFcompare_three_same m e :
  SFcompare (S754_finite false m e) (Prim2SF 3) = Some Eq ->
  S754_finite false m e = Prim2SF 3.
Proof.
  rewrite three_SF. cbn [SFcompare].
  destruct (Z.compare_spec e (-51)) as [-> | |]; try discriminate.
  rewrite Pos.compare_cont_spec. cbn [Pos.switch_Eq].
  rewrite Pos2Z.inj_compare.
  destruct (Z.compare_spec (Zpos m) 6755399441055744) as [Hm | |];
    try discriminate.
  intros _. now injection Hm as ->.
Qed.

(** The cap is reached: [min(a, 3)] is 3 for every [a] from 3 on,
    [+Infinity] included. *)
Lemma float_min_saturates (a : float) :
  (3 <=? a)%float = true -> float_min a (float_of_Z 3) = 3%float.
Proof.
  change (float_of_Z 3) with 3%float. unfold float_min.
  change (PrimFloat.is_nan 3) with false. rewrite orb_false_r.
  rewrite is_nan_SF, !ltb_spec, leb_spec. unfold SFltb, SFleb.
  destruct (Prim2SF a) as [s|[|]| |[|] m e] eqn:E;
    try (rewrite three_SF; cbn [SFcompare]; discriminate).
  - intros _. rewrite three_SF. reflexivity.
  - pose proof (@SFcompare_three_same m e) as Hsame.
    rewrite three_SF in *.
    rewrite (@SFcompare_finite_antisym m e 6755399441055744 (-51)).
    destruct (SFcompare (S754_finite false m e) _) as [[| |]|];
      cbn [option_map CompOpp]; intros H; try discriminate H.
    + assert (Ha : a = 3%float).
      { apply Prim2SF_inj. rewrite E, three_SF. now apply Hsame. }
      rewrite Ha. reflexivity.
    + reflexivity.
Qed.

(** X17. On doubles, beyond the cap the transverse momentum no longer
    shows. Two particles whose [pt/20], as computed, is at least 3, of
    the same azimuth as the engine computes it and of the same [pz],
    have the same polyline. *)
Theorem track_saturates (atan2 : float -> float -> float)
    (cos sin : float -> float) (px py px' py' pz : float) :
  (3 <=? PrimFloat.sqrt (px * px + py * py) / 20)%float = true ->
  (3 <=? PrimFloat.sqrt (px' * px' + py' * py') / 20)%float = true ->
  atan2 py px = atan2 py' px' ->
  @track_of float (Float64 atan2 cos sin) px py pz =
  @track_of float (Float64 atan2 cos sin) px' py' pz.
Proof.
  intros Hpt Hpt' Hphi. unfold track_of.
  cbn [num_add num_mul Math_sqrt Math_atan2 Float64].
  rewrite !track_points_samples, Hphi. apply map_ext. intros n.
  unfold Scene.sample, Scene.maxR.
  cbn [lit num_div num_mul Math_min Math_cos Math_sin Float64].
  change (float_of_Z 20) with 20%float.
  now rewrite (float_min_saturates Hpt), (float_min_saturates Hpt').
Qed.


(** * Further properties of the analytics renderer *)

Section AnalyticsExtras.

Variable num : Type.
Context `{JsNumber num}.

Lemma renderHistogram_keeps_data (d : Analytics.Dashboard num) :
  Analytics.histogramData (Analytics.renderHistogram d)
  = Analytics.histogramData d.
Proof.
  destruct d as [var hd ch cv ds]. unfold Analytics.renderHistogram.
  destruct ch, hd as [h|], cv; reflexivity.
Qed.

(** X19. [renderHistogram] destroys the chart it finds, once, before
    anything else. With data and a canvas it then builds a chart of the
    bin centres and the values, so a second call draws the same chart
    again; without data or without a canvas it returns at once and the
    destroyed chart stays in place, to be destroyed again by the next
    call. *)
Theorem renderHistogram_replaces_chart (d : Analytics.Dashboard num) :
  let d' := Analytics.renderHistogram d in
  Analytics.destroyed d' =
    (Analytics.destroyed d
     + match Analytics.chart d with Some _ => 1 | None => 0 end)%nat /\
  Analytics.histogramData d' = Analytics.histogramData d /\
  (forall h, Analytics.histogramData d = Some h ->
     Analytics.histogramCanvas d = true ->
     option_map (@Analytics.label_positions num) (Analytics.chart d')
       = Some (Analytics.binCenters (bins h)) /\
     option_map (@Analytics.data num) (Analytics.chart d') = Some (values h) /\
     Analytics.chart (Analytics.renderHistogram d') = Analytics.chart d' /\
     Analytics.destroyed (Analytics.renderHistogram d')
       = S (Analytics.destroyed d')) /\
  (Analytics.histogramData d = None \/ Analytics.histogramCanvas d = false ->
   Analytics.chart d' = Analytics.chart d /\
   Analytics.destroyed (Analytics.renderHistogram d') =
     (Analytics.destroyed d
      + match Analytics.chart d with Some _ => 2 | None => 0 end)%nat).
Proof.
  destruct d as [var hd ch cv ds]. cbv zeta. unfold Analytics.renderHistogram.
  cbn [Analytics.chart Analytics.histogramData Analytics.histogramCanvas
       Analytics.destroyed Analytics.selectedVariable].
  split; [|split; [|split]].
  - destruct ch, hd as [h|], cv; cbn; lia.
  - destruct ch, hd as [h|], cv; reflexivity.
  - intros h -> ->. destruct ch; cbn; repeat split.
  - intros [-> | ->]; destruct ch; try destruct hd; cbn; split;
      try reflexivity; lia.
Qed.

Let Panel := AnalysisDashboard.Panel num.

Lemma generateHistogram_run (others : Panel -> Panel) o (p : Panel) :
  let started :=
    others (AnalysisDashboard.set_error None
              (AnalysisDashboard.set_loading true p)) in
  AnalysisDashboard.generateHistogram others o p =
    (AnalysisDashboard.set_loading false
       match o with
       | Js.Normal h =>
           AnalysisDashboard.set_dashboard
             (Analytics.renderHistogram
                (AnalysisDashboard.set_histogramData h
                   (AnalysisDashboard.dashboard started)))
             started
       | Js.Throw e =>
           AnalysisDashboard.set_error
             (Some (AnalysisDashboard.or_else (Js.message e)
                      "Failed to generate histogram"))
             started
       end,
     Js.Normal tt).
Proof. destruct o; reflexivity. Qed.

(** X20. [generateHistogram] never throws and always ends with
    [loading = false]. When the request fails, the histogram and the
    chart are left as they were and [error] holds a message that is
    never empty: the message of the error, or a fixed text when that is
    empty. When it succeeds, the response becomes [histogramData]. *)
Theorem generateHistogram_settles (others : Panel -> Panel) (p : Panel) :
  let started :=
    others (AnalysisDashboard.set_error None
              (AnalysisDashboard.set_loading true p)) in
  (forall o,
     snd (AnalysisDashboard.generateHistogram others o p) = Js.Normal tt /\
     AnalysisDashboard.loading
       (fst (AnalysisDashboard.generateHistogram others o p)) = false) /\
  (forall e,
     let p' := fst (AnalysisDashboard.generateHistogram others (Js.Throw e) p) in
     AnalysisDashboard.dashboard p' = AnalysisDashboard.dashboard started /\
     (exists msg, AnalysisDashboard.error p' = Some msg /\
                  msg <> EmptyString /\
                  (Js.message e <> EmptyString -> msg = Js.message e))) /\
  (forall h,
     let p' := fst (AnalysisDashboard.generateHistogram others (Js.Normal h) p) in
     Analytics.histogramData (AnalysisDashboard.dashboard p') = h /\
     AnalysisDashboard.error p' = AnalysisDashboard.error started).
Proof.
  cbv zeta. split; [|split].
  - intros o. rewrite generateHistogram_run. destruct o; split; reflexivity.
  - intros e. rewrite generateHistogram_run. cbn [fst]. split; [reflexivity|].
    eexists. split; [reflexivity|].
    unfold AnalysisDashboard.or_else.
    destruct (String.eqb_spec (Js.message e) EmptyString) as [Heq|Hne].
    + split; [discriminate | intros Hm; contradiction].
    + split; [exact Hne | reflexivity].
  - intros h. rewrite generateHistogram_run. cbn [fst].
    split; [|reflexivity].
    unfold AnalysisDashboard.set_loading, AnalysisDashboard.set_dashboard.
    cbn [AnalysisDashboard.dashboard].
    rewrite renderHistogram_keeps_data. reflexivity.
Qed.

(** X21. The canvas is in the page only after the template has been
    rendered with data. So the first histogram that arrives is stored
    but not drawn: [renderHistogram] finds no canvas. Once the template
    has been rendered again, the next request draws its chart. *)
Theorem first_histogram_not_drawn (p : Panel) (h1 h2 : HistogramResult num) :
  Analytics.histogramCanvas (AnalysisDashboard.dashboard p) = false ->
  Analytics.chart (AnalysisDashboard.dashboard p) = None ->
  let generate h q :=
    fst (AnalysisDashboard.generateHistogram (fun q => q)
           (Js.Normal (Some h)) q) in
  let first := generate h1 p in
  let second := generate h2 (AnalysisDashboard.rendered first) in
  Analytics.histogramData (AnalysisDashboard.dashboard first) = Some h1 /\
  Analytics.chart (AnalysisDashboard.dashboard first) = None /\
  option_map (@Analytics.label_positions num)
    (Analytics.chart (AnalysisDashboard.dashboard second))
    = Some (Analytics.binCenters (bins h2)) /\
  option_map (@Analytics.data num)
    (Analytics.chart (AnalysisDashboard.dashboard second))
    = Some (values h2).
Proof.
  destruct p as [[var hd ch cv ds] nb ld er]. cbn. intros -> ->.
  repeat split.
Qed.

End AnalyticsExtras.

(** ** [views/Configuration.vue] *)

(** X22. [loadConfigs] never throws and always ends with
    [loading = false]. When the request fails, the list is left as it
    was and [error] holds a message that is never empty; when it
    succeeds, the response replaces the list and [error] stays
    cleared. *)
Theorem loadConfigs_settles (num : Type)
    (others : Configuration.State num -> Configuration.State num)
    (s : Configuration.State num) :
  let started :=
    others (Configuration.mkState (Configuration.configs s) true None) in
  (forall o,
     snd (Configuration.loadConfigs others o s) = Js.Normal tt /\
     Configuration.loading (fst (Configuration.loadConfigs others o s))
       = false) /\
  (forall e,
     let s' := fst (Configuration.loadConfigs others (Js.Throw e) s) in
     Configuration.configs s' = Configuration.configs started /\
     (exists msg, Configuration.error s' = Some msg /\
                  msg <> EmptyString /\
                  (Js.message e <> EmptyString -> msg = Js.message e))) /\
  (forall cs,
     let s' := fst (Configuration.loadConfigs others (Js.Normal cs) s) in
     Configuration.configs s' = cs /\
     Configuration.error s' = Configuration.error started).
Proof.
  cbv zeta. split; [|split].
  - intros o. destruct o; split; reflexivity.
  - intros e. split; [reflexivity|].
    eexists. split; [reflexivity|].
    destruct (String.eqb_spec (Js.message e) EmptyString) as [Heq|Hne].
    + split; [discriminate | intros Hm; contradiction].
    + split; [exact Hne | reflexivity].
  - intros cs. split; reflexivity.
Qed.


(** * From the store to the scene *)

(** X24. From fetch to drawing: when [loadLatestEvent] has fetched a
    list whose first event has [M] particles in parallel columns, the
    [event] prop of the 3D view is that event, and the watcher then
    leaves [2 * M] primitives in any view that has a scene. *)
Theorem latest_event_is_drawn (num : Type) `{JsNumber num}
    (others : Store.UIState num -> Store.UIState num) (s : Store.UIState num)
    (r : EventsResponse num) b rest e ps lx ly lz lid (M : nat)
    (v : Scene.View num) g :
  events_of r = b :: rest -> event b = Some e ->
  particles e = Some ps -> parallel ps lx ly lz lid M ->
  Scene.scene v = Some g ->
  let s' := after (EventDisplay.loadLatestEvent others (fun s => s)
                     (Js.Normal (Some r))) s in
  EventDisplay.event_prop s' = Some e /\
  snd (Scene.watch_event (EventDisplay.event_prop s') v) = Js.Normal tt /\
  List.length
    (primitives (fst (Scene.watch_event (EventDisplay.event_prop s') v)))
  = (2 * M)%nat.
Proof.
  intros Hr Hb Hps Hpar Hg. cbv zeta.
  assert (Hprop :
    EventDisplay.event_prop
      (after (EventDisplay.loadLatestEvent others (fun s => s)
                (Js.Normal (Some r))) s) = Some e).
  { unfold EventDisplay.event_prop, after.
    rewrite loadLatestEvent_run. cbv zeta. unfold after.
    rewrite fetchEvents_run.
    cbn [fst settles_fetchEvents Store.mutate Store.events].
    rewrite Hr. cbn [fst Store.mutate Store.currentEvent]. exact Hb. }
  rewrite Hprop. split; [reflexivity|].
  rewrite watch_event_unfolds.
  assert (Hg' : Scene.scene (Scene.set_event (Some e) v) = Some g)
    by (destruct v; exact Hg).
  assert (He' : Scene.event (Scene.set_event (Some e) v) = Some e)
    by (destruct v; reflexivity).
  destruct (renderEvent_primitives (Scene.set_event (Some e) v)
              Hg' He' Hps Hpar) as (Hrun & Hprims & _).
  split; [exact Hrun|].
  rewrite Hprims, length_map. apply drawn_length.
Qed.


(** * Concrete runs of the further properties *)

(** X7, at the sample view. *)
Lemma createDetectorGeometry_three_shells_witness :
  List.length
    (Scene.detectorMeshes (fst (Scene.createDetectorGeometry sample_view)))
  = 3%nat.
Proof.
  exact (proj1 (proj2
    (@createDetectorGeometry_three_shells R RealNumber sample_view empty_scene
       eq_refl))).
Defined.

(** X8, at the sample event mounted in the sample container. *)
Lemma mounted_starts_view_witness :
  Scene.particleMeshes
    (fst (Scene.mounted
            (Scene.created (Some sample_event) None None
               (Some sample_container))))
  = seq 7 4.
Proof.
  destruct (proj2 (@mounted_starts_view R RealNumber None None sample_container)
              sample_event sample_particles [3%R; 0%R] [4%R; 0%R] [5%R; 1%R] [11; -13] 2%nat eq_refl
              sample_parallel)
    as (_ & _ & _ & Hpm & _).
  exact Hpm.
Defined.

(** X10, at an event without columns. *)
Lemma mounted_malformed_event_witness :
  Scene.frameRequests
    (fst (Scene.mounted
            (Scene.created (Some event_without_columns) None None
               (Some sample_container))))
  = [].
Proof.
  destruct (@mounted_malformed_event R RealNumber event_without_columns
              (mkParticles None None None None None) None None
              sample_container eq_refl eq_refl)
    as (_ & _ & _ & _ & _ & Hfr & _).
  exact Hfr.
Defined.

(** X11, at the prepared view resized to 1024 by 768. *)
Lemma resize_follows_container_witness :
  option_map (@Scene.aspect R)
    (Scene.camera
       (fst (Scene.window_resize (resized 1024%R 768%R prepared_view))))
  = Some (1024 / 768)%R.
Proof.
  destruct (@resize_follows_container R RealNumber prepared_view
              (default_camera (800 / 600)%R)
              (Scene.mkRenderer 800%R 600%R false 0)
              (Scene.mkContainer 800%R 600%R 1) 1024%R 768%R
              eq_refl eq_refl eq_refl eq_refl)
    as (_ & Hcam & _).
  rewrite Hcam. reflexivity.
Defined.

(** X12, at the prepared view, whose shells are visible. *)
Lemma toggleDetector_twice_witness :
  fst (Scene.toggleDetector (fst (Scene.toggleDetector prepared_view)))
  = prepared_view.
Proof.
  destruct (@toggleDetector_twice R prepared_view)
    as (_ & _ & _ & _ & _ & Hback).
  apply Hback.
  intros r [<- | [<- | [<- | []]]]; reflexivity.
Defined.

Lemma prepared_view_well_formed : well_formed prepared_view.
Proof.
  unfold well_formed. split; [|split].
  - apply seq_NoDup.
  - intros r Hr. apply in_seq in Hr. cbn in Hr.
    change (List.length (Scene.objects prepared_view)) with 7%nat. lia.
  - intros r [].
Defined.

(** X13, at the sample event drawn in the prepared view: the first
    shell stays in the scene. *)
Lemma renderEvent_keeps_rest_witness :
  In 4%nat
    (scene_children
       (fst (Scene.renderEvent (Scene.set_event (Some sample_event)
                                  prepared_view)))).
Proof.
  destruct (@renderEvent_keeps_rest R RealNumber
              (Scene.set_event (Some sample_event) prepared_view)
              prepared_scene sample_event sample_particles [3%R; 0%R] [4%R; 0%R] [5%R; 1%R] [11; -13] 2%nat
              eq_refl eq_refl eq_refl sample_parallel)
    as (Hkeep & _).
  apply Hkeep.
  - apply in_seq. lia.
  - intros [].
Defined.

(** X14, at the sample event drawn in the prepared view and taken
    away. *)
Lemma draw_then_clear_witness :
  scene_children
    (fst (Scene.watch_event None
            (fst (Scene.watch_event (Some sample_event) prepared_view))))
  = seq 0 7.
Proof.
  destruct (@draw_then_clear R RealNumber prepared_view prepared_scene
              sample_event sample_particles [3%R; 0%R] [4%R; 0%R] [5%R; 1%R] [11; -13] 2%nat eq_refl eq_refl)
    as (_ & _ & _ & Hch & _).
  - intros r Hr. apply in_seq in Hr.
    change (List.length (Scene.objects prepared_view)) with 7%nat. lia.
  - reflexivity.
  - exact sample_parallel.
  - exact Hch.
Defined.

(** X15, at an event whose [py] and [pdg_id] columns end before [px]:
    the second particle is drawn, in cyan. *)
Lemma renderEvent_unequal_columns_witness :
  let prims := primitives (fst (Scene.renderEvent ragged_view)) in
  List.length prims = 4%nat /\
  color_of (nth 2 prims None) = Some cyan.
Proof.
  destruct (@renderEvent_unequal_columns R RealNumber ragged_view empty_scene
              ragged_event ragged_particles [3%R; 0%R] [4%R] [5%R; 1%R] [11]
              eq_refl eq_refl eq_refl eq_refl eq_refl eq_refl eq_refl)
    as (_ & Hlen & _ & Hcyan & _).
  split; [exact Hlen|].
  exact (proj1 (Hcyan 1%nat (Nat.lt_succ_diag_r 1) (Nat.le_refl 1))).
Defined.

(** X17, at a momentum of 60 along [x], and ten times as much. *)
Lemma track_saturates_witness :
  @track_of float (Float64 atan2_along_x cos_along_x sin_along_x)
    60%float 0%float 5%float =
  @track_of float (Float64 atan2_along_x cos_along_x sin_along_x)
    600%float 0%float 5%float.
Proof.
  apply (@track_saturates atan2_along_x cos_along_x sin_along_x
           60%float 0%float 600%float 0%float 5%float); reflexivity.
Defined.

(** X18, at the prepared view and the sample event. *)
Lemma watch_event_well_formed_witness :
  well_formed (fst (Scene.watch_event (Some sample_event) prepared_view)).
Proof.
  exact (proj2 (@watch_event_well_formed R RealNumber prepared_view
                  prepared_scene eq_refl prepared_view_well_formed)
           sample_event sample_particles [3%R; 0%R] [4%R; 0%R] [5%R; 1%R] [11; -13] 2%nat eq_refl
           sample_parallel).
Defined.

(** X19, at the sample dashboard. *)
Lemma renderHistogram_replaces_chart_witness :
  option_map (@Analytics.data R)
    (Analytics.chart (Analytics.renderHistogram sample_dashboard))
  = Some [3; 5; 2].
Proof.
  destruct (@renderHistogram_replaces_chart R RealNumber sample_dashboard)
    as (_ & _ & Hdraw & _).
  exact (proj1 (proj2 (Hdraw sample_histogram eq_refl eq_refl))).
Defined.

(** X20, at a request rejected with a network error. *)
Lemma generateHistogram_settles_witness :
  AnalysisDashboard.error
    (fst (AnalysisDashboard.generateHistogram (fun p => p)
            (Js.Throw network_error) (@AnalysisDashboard.created R)))
  = Some "Network Error"%string.
Proof.
  destruct (@generateHistogram_settles R RealNumber (fun p => p)
              (@AnalysisDashboard.created R))
    as (_ & Hfail & _).
  destruct (Hfail network_error) as (_ & msg & Herr & _ & Hmsg).
  rewrite Herr, Hmsg; [reflexivity | discriminate].
Defined.

(** X21, at the new dashboard. *)
Lemma first_histogram_not_drawn_witness :
  Analytics.chart
    (AnalysisDashboard.dashboard
       (fst (AnalysisDashboard.generateHistogram (fun p => p)
               (Js.Normal (Some sample_histogram))
               (@AnalysisDashboard.created R))))
  = None.
Proof.
  exact (proj1 (proj2
    (@first_histogram_not_drawn R RealNumber (@AnalysisDashboard.created R)
       sample_histogram sample_histogram eq_refl eq_refl))).
Defined.

(** X22, at a request rejected with an empty message. *)
Lemma loadConfigs_settles_witness :
  Configuration.error
    (fst (Configuration.loadConfigs (fun s => s) (Js.Throw (Js.mkError ""))
            (@Configuration.created Z)))
  <> Some EmptyString.
Proof.
  destruct (@loadConfigs_settles Z (fun s => s) (@Configuration.created Z))
    as (_ & Hfail & _).
  destruct (Hfail (Js.mkError "")) as (_ & msg & Herr & Hne & _).
  rewrite Herr. intros Heq. injection Heq as ->. now apply Hne.
Defined.

(** X24, at a response whose only event is the sample event. *)
Lemma latest_event_is_drawn_witness :
  let s' := after (EventDisplay.loadLatestEvent (fun s => s) (fun s => s)
                     (Js.Normal (Some sample_response))) Store.initial in
  List.length
    (primitives
       (fst (Scene.watch_event (EventDisplay.event_prop s') prepared_view)))
  = 4%nat.
Proof.
  exact (proj2 (proj2
    (@latest_event_is_drawn R RealNumber (fun s => s) Store.initial
       sample_response (mkEventBody (Some sample_event) None) []
       sample_event sample_particles [3%R; 0%R] [4%R; 0%R] [5%R; 1%R] [11; -13] 2%nat prepared_view
       prepared_scene eq_refl eq_refl eq_refl sample_parallel eq_refl))).
Defined.
